(** * whatsapp-chat-viewer: message relay and webhook delivery

    A shallow embedding of [routes/chat.py], [db/operations.py] and
    [db/models.py]: the circuit breaker, the webhook envelope and its
    validation, the synchronous delivery and its background retry, the
    attachment cleaner and downloader, and the two message-creation
    routes.

    Conventions.
    - Python values that the code handles dynamically (JSON payload values,
      the attachment size) are [pyval]s; fields the code uses with [str]
      methods without a guard are strings, [None] being an absent or null
      field.
    - Clock readings ([time.time()]) are integers, in seconds.
    - Mutable process state (the two breaker globals, the database, the
      upload directory, spawned threads) lives in [world] and is threaded
      explicitly; what the process cannot decide (the endpoint's replies,
      remote downloads, library helpers such as werkzeug's
      [secure_filename]) lives in the read-only [env].
    - [str] methods are modelled on ASCII text. *)

From Stdlib Require Import ZArith QArith Lia Bool List Ascii String DecimalString.
From stdpp Require Import base option list gmap strings.

Local Open Scope Z_scope.
Local Open Scope string_scope.

(** ** Python values *)

#[local] Set Warnings "-register-all".

Module Py.

Inductive pyval : Type :=
| PyNone
| PyBool (b : bool)
| PyInt (z : Z)
| PyFloat (q : Q)            (* a finite float *)
| PyInf (negative : bool)    (* float('inf'), float('-inf') *)
| PyNaN
| PyStr (s : string)
| PyList (items : list pyval)
| PyDict (items : list (string * pyval)).

(** [bool(v)] *)
Definition truthy (v : pyval) : bool :=
  match v with
  | PyNone => false
  | PyBool b => b
  | PyInt z => negb (z =? 0)%Z
  | PyFloat q => negb (Qeq_bool q 0)
  | PyInf _ => true
  | PyNaN => true
  | PyStr s => negb (String.eqb s "")
  | PyList l => match l with [] => false | _ => true end
  | PyDict l => match l with [] => false | _ => true end
  end.

(** [len(v)]; [None] is a [TypeError]. *)
Definition len (v : pyval) : option Z :=
  match v with
  | PyStr s => Some (Z.of_nat (String.length s))
  | PyList l => Some (Z.of_nat (List.length l))
  | PyDict l => Some (Z.of_nat (List.length l))
  | _ => None
  end.

Inductive int_result : Type :=
| IntOk (z : Z)
| IntValueError
| IntTypeError
| IntOverflowError.

(** [int(v)].  A float is truncated towards zero; the conversion of a
    [str] is the library's, taken as [int_of_str]. *)
Definition int (int_of_str : string -> option Z) (v : pyval) : int_result :=
  match v with
  | PyNone => IntTypeError
  | PyBool b => IntOk (if b then 1 else 0)
  | PyInt z => IntOk z
  | PyFloat q => IntOk (Z.quot (Qnum q) (Z.pos (Qden q)))
  | PyInf _ => IntOverflowError
  | PyNaN => IntValueError
  | PyStr s => match int_of_str s with
               | Some z => IntOk z
               | None => IntValueError
               end
  | PyList _ => IntTypeError
  | PyDict _ => IntTypeError
  end.

(** Truthiness of an optional string: [None] and [''] are false. *)
Definition str_truthy (s : option string) : bool :=
  match s with
  | Some s => negb (String.eqb s "")
  | None => false
  end.

(** An optional string as a payload value. *)
Definition of_str (s : option string) : pyval :=
  match s with
  | Some s => PyStr s
  | None => PyNone
  end.

(** [a or b] on optional strings. *)
Definition str_or (a : option string) (b : string) : string :=
  match a with
  | Some s => if String.eqb s "" then b else s
  | None => b
  end.

End Py.

Import Py.

(** ** [str] methods *)

Module Str.

(** ['c' in s] *)
Fixpoint contains (c : ascii) (s : string) : bool :=
  match s with
  | EmptyString => false
  | String a rest => Ascii.eqb a c || contains c rest
  end.

(** [s.rsplit(c, 1)] when [c] occurs in [s]: the text before and after
    the last occurrence. *)
Fixpoint rsplit1 (c : ascii) (s : string) : option (string * string) :=
  match s with
  | EmptyString => None
  | String a rest =>
      match rsplit1 c rest with
      | Some (pre, post) => Some (String a pre, post)
      | None => if Ascii.eqb a c then Some (EmptyString, rest) else None
      end
  end.

Definition lower_ascii (a : ascii) : ascii :=
  let n := nat_of_ascii a in
  if (Nat.leb 65 n && Nat.leb n 90)%bool then ascii_of_nat (n + 32) else a.

(** [s.lower()] *)
Fixpoint lower (s : string) : string :=
  match s with
  | EmptyString => EmptyString
  | String a rest => String (lower_ascii a) (lower rest)
  end.

Definition is_space (a : ascii) : bool :=
  let n := nat_of_ascii a in
  ((Nat.leb 9 n && Nat.leb n 13) || (Nat.leb 28 n && Nat.leb n 32))%bool.

Fixpoint lstrip (s : string) : string :=
  match s with
  | EmptyString => EmptyString
  | String a rest => if is_space a then lstrip rest else s
  end.

Fixpoint rstrip (s : string) : string :=
  match s with
  | EmptyString => EmptyString
  | String a rest =>
      match rstrip rest with
      | EmptyString => if is_space a then EmptyString else String a EmptyString
      | r => String a r
      end
  end.

(** [s.strip()] *)
Definition strip (s : string) : string := rstrip (lstrip s).

(** [os.path.basename(p)] *)
Definition basename (p : string) : string :=
  match rsplit1 "/" p with
  | Some (_, post) => post
  | None => p
  end.

(** [s.startswith(p)] *)
Definition startswith (p s : string) : bool := String.prefix p s.

(** [x in xs] for a collection of strings *)
Definition mem (x : string) (xs : list string) : bool :=
  existsb (String.eqb x) xs.

End Str.

(** ** Stored rows ([db/models.py]) *)

Record PhoneNumber : Type := {
  phone_id : Z;
  number : string;
  ai_active : bool
}.

Record Message : Type := {
  message_id : Z;
  phone_number_id : Z;
  content : string;
  type : string;                          (* 'lead', 'user' or 'ai' *)
  attachment_url : option string;
  attachment_full_url : option string;
  attachment_name : option string;
  attachment_type : option string;
  attachment_size : option Z
}.

(** The two tables, their id sequences, and whether the storage answers:
    when it does not, every query and commit raises and the operation's
    [except] clause returns its failure value. *)
Record database : Type := {
  phones : list PhoneNumber;
  messages : list Message;
  next_phone_id : Z;
  next_message_id : Z;
  db_up : bool
}.

(** ** The process and its surroundings *)

Abbreviation dict := (gmap string pyval).

(** What the process does to the outside, in order. *)
Inductive event : Type :=
| EvSleep (seconds : Z)                               (* time.sleep *)
| EvPost (url : string) (body : dict) (timeout : Z)   (* requests.post *)
| EvAttempt (attempt : Z) (success : bool).
    (* the outcome line the retry loop logs after each call of
       send_webhook; the other log lines are not recorded *)

(** A background thread started by [send_webhook_with_retry]. *)
Record retry_task : Type := {
  task_type : pyval;
  task_phone : pyval;
  task_data : dict;
  task_max_retries : Z
}.

Record world : Type := World {
  webhook_failures : Z;               (* global webhook_failures *)
  last_failure_time : option Z;       (* global last_failure_time *)
  clock : Z;                          (* what time.time() returns now *)
  trace : list event;
  threads : list retry_task;
  db : database;
  uploads : gmap string Z             (* static/uploads: name, size in bytes *)
}.

(** How a call of [requests.post] ends: with a response, or with an
    exception (raised while sending or before it). *)
Inductive http_outcome : Type :=
| Responded (status : Z)
| TimedOut                            (* requests.Timeout *)
| ConnectionFailed                    (* requests.ConnectionError *)
| RequestFailed                       (* another requests.RequestException *)
| Crashed.                            (* any other exception *)

Record reply : Type := {
  outcome : http_outcome;
  latency : Z                         (* seconds the request took *)
}.

(** The response to [requests.get(url, stream=True)]. *)
Record remote_file : Type := {
  content_length : option string;
  content_disposition : option string;
  content_type : option string;
  body_size : Z                       (* bytes the body streams *)
}.

Inductive get_result : Type :=
| GetFailed                           (* RequestException, or an error status *)
| GetOk (r : remote_file).

Record env : Type := Env {
  webhook_url : string;                       (* config.webhook_url *)
  webhook_timeout : Z;                        (* config.webhook_timeout *)
  endpoint : nat -> reply;
    (* how the n-th call of requests.post ends *)
  isoformat : Z -> string;                    (* datetime.now().isoformat() *)
  current_user_email : string;
  request_scheme : string;                    (* request.scheme *)
  request_host : string;                      (* request.host *)
  int_of_str : string -> option Z;            (* int() of a str *)
  secure_filename : string -> string;         (* werkzeug *)
  http_get : string -> get_result;
  disposition_filename : string -> option string;
    (* the filename the regular expression finds in a content-disposition
       header, quotes stripped *)
  url_path : string -> string;                (* urlparse(url).path *)
  guess_extension : string -> option string;  (* mimetypes *)
  unique_stem : nat -> string
    (* uuid4().hex and the time stamp, for the n-th file saved *)
}.

(** *** State updates *)

Definition set_breaker (f : Z) (t : option Z) (w : world) : world :=
  World f t (clock w) (trace w) (threads w) (db w) (uploads w).

Definition advance (seconds : Z) (w : world) : world :=
  World (webhook_failures w) (last_failure_time w) (clock w + seconds)
        (trace w) (threads w) (db w) (uploads w).

Definition emit (e : event) (w : world) : world :=
  World (webhook_failures w) (last_failure_time w) (clock w)
        (trace w ++ [e]) (threads w) (db w) (uploads w).

Definition spawn (t : retry_task) (w : world) : world :=
  World (webhook_failures w) (last_failure_time w) (clock w)
        (trace w) (threads w ++ [t]) (db w) (uploads w).

Definition set_db (d : database) (w : world) : world :=
  World (webhook_failures w) (last_failure_time w) (clock w)
        (trace w) (threads w) d (uploads w).

Definition set_uploads (u : gmap string Z) (w : world) : world :=
  World (webhook_failures w) (last_failure_time w) (clock w)
        (trace w) (threads w) (db w) u.

(** [time.sleep(seconds)] *)
Definition sleep (seconds : Z) (w : world) : world :=
  advance seconds (emit (EvSleep seconds) w).

Definition is_post (e : event) : bool :=
  match e with EvPost _ _ _ => true | _ => false end.

Definition is_attempt (e : event) : bool :=
  match e with EvAttempt _ _ => true | _ => false end.

Definition is_sleep (e : event) : bool :=
  match e with EvSleep _ => true | _ => false end.

(** How many POSTs a trace holds. *)
Definition posts_made (tr : list event) : nat :=
  List.length (List.filter is_post tr).

(** ** Circuit breaker ([routes/chat.py]) *)

Definition MAX_FAILURES_BEFORE_CIRCUIT_BREAK : Z := 5.
Definition CIRCUIT_BREAK_DURATION : Z := 60.

(** [last_failure_time and (time.time() - last_failure_time) <
    CIRCUIT_BREAK_DURATION]: a stamp of [None] or of zero is false. *)
Definition within_window (w : world) : bool :=
  match last_failure_time w with
  | Some t => (negb (t =? 0) && (clock w - t <? CIRCUIT_BREAK_DURATION))%Z
  | None => false
  end.

Definition is_circuit_broken (w : world) : bool * world :=
  if (MAX_FAILURES_BEFORE_CIRCUIT_BREAK <=? webhook_failures w)%Z then
    if within_window w then (true, w)
    else (false, set_breaker 0 None w)
  else (false, w).

Definition record_webhook_result (success : bool) (w : world) : world :=
  if success then
    set_breaker (Z.max 0 (webhook_failures w - 1)) (last_failure_time w) w
  else
    set_breaker (webhook_failures w + 1) (Some (clock w)) w.

(** The breaker is Open when the counter has reached the threshold. *)
Definition breaker_open (w : world) : bool :=
  (MAX_FAILURES_BEFORE_CIRCUIT_BREAK <=? webhook_failures w)%Z.

(** [reset_webhook_circuit] *)
Definition reset_webhook_circuit (w : world) : world := set_breaker 0 None w.

(** ** Envelope validation *)

Definition required_fields : list string :=
  ["event_type"; "phone_number"; "timestamp"].

(** [field not in data or data[field] is None] *)
Definition missing_or_null (data : dict) (field : string) : bool :=
  match data !! field with
  | None => true
  | Some PyNone => true
  | Some _ => false
  end.

(** [json.dumps(data, ensure_ascii=False, default=str)] does not raise on
    a [dict]; what can fail is a required field, or [len] of a phone value
    that has no length, which the [except] clause turns into [False]. *)
Definition validate_webhook_data (data : dict) : bool :=
  if existsb (missing_or_null data) required_fields then false
  else
    let phone := default (PyStr "") (data !! "phone_number") in
    if negb (truthy phone) then false
    else match len phone with
         | Some n => negb (n <? 8)%Z
         | None => false
         end.

(** ** Webhook delivery *)

(** [raise_for_status] raises on a 4xx or 5xx status. *)
Definition raise_for_status (status : Z) : bool :=
  ((400 <=? status) && (status <? 600))%Z.

(** [{**base, **extra}]: the keys of [extra] win. *)
Definition dict_merge (base extra : dict) : dict := extra ∪ base.

Section Delivery.

Context (E : env).

(** The dict [send_webhook] validates and posts. *)
Definition webhook_envelope (webhook_type phone_number : pyval)
    (now : Z) (data : dict) : dict :=
  dict_merge
    (<["timestamp" := PyStr (isoformat E now)]>
       (<["phone_number" := phone_number]>
          (<["event_type" := webhook_type]> ∅)))
    data.

Definition send_webhook (webhook_type phone_number : pyval) (data : dict)
    (w : world) : bool * world :=
  if String.eqb (webhook_url E) "" then (false, w)
  else
    let (broken, w1) := is_circuit_broken w in
    if broken then (false, w1)
    else
      let webhook_data :=
        webhook_envelope webhook_type phone_number (clock w1) data in
      if negb (validate_webhook_data webhook_data) then (false, w1)
      else
        let r := endpoint E (posts_made (trace w1)) in
        let w2 :=
          advance (latency r)
            (emit (EvPost (webhook_url E) webhook_data (webhook_timeout E)) w1) in
        match outcome r with
        | Responded status =>
            if raise_for_status status
            then (false, record_webhook_result false w2)
            else (true, record_webhook_result true w2)
        | TimedOut | ConnectionFailed | RequestFailed | Crashed =>
            (false, record_webhook_result false w2)
        end.

(** The [for attempt in range(max_retries + 1)] loop of [_retry_webhook],
    with [remaining] iterations to go. *)
Fixpoint retry_loop (remaining : nat) (attempt : Z)
    (webhook_type phone_number : pyval) (data : dict) (w : world)
    : bool * world :=
  match remaining with
  | O => (false, w)
  | S remaining' =>
      let w1 := if (0 <? attempt)%Z
                then sleep (Z.min (2 ^ attempt) 5) w
                else w in
      let (success, w2) := send_webhook webhook_type phone_number data w1 in
      if success then
        (true, record_webhook_result true (emit (EvAttempt attempt true) w2))
      else
        retry_loop remaining' (attempt + 1) webhook_type phone_number data
          (emit (EvAttempt attempt false) w2)
  end.

(** The body of the background thread. *)
Definition _retry_webhook (webhook_type phone_number : pyval) (data : dict)
    (max_retries : Z) (w : world) : world :=
  let (success, w') :=
    retry_loop (Z.to_nat (max_retries + 1)) 0 webhook_type phone_number data w in
  if success then w' else record_webhook_result false w'.

(** [send_webhook_with_retry] only starts the thread. *)
Definition send_webhook_with_retry (webhook_type phone_number : pyval)
    (data : dict) (max_retries : Z) (w : world) : world :=
  spawn {| task_type := webhook_type; task_phone := phone_number;
           task_data := data; task_max_retries := max_retries |} w.


End Delivery.

(** ** Storage operations ([db/operations.py]) *)

Definition set_phones (ps : list PhoneNumber) (next : Z) (d : database)
    : database :=
  {| phones := ps; messages := messages d; next_phone_id := next;
     next_message_id := next_message_id d; db_up := db_up d |}.

Definition set_messages (ms : list Message) (next : Z) (d : database)
    : database :=
  {| phones := phones d; messages := ms; next_phone_id := next_phone_id d;
     next_message_id := next; db_up := db_up d |}.

(** [PhoneOperations.get_phone_by_number] *)
Definition get_phone_by_number (n : string) (d : database)
    : option PhoneNumber :=
  if db_up d
  then List.find (fun p => String.eqb (number p) n) (phones d)
  else None.

(** [PhoneOperations.get_phone_by_id] *)
Definition get_phone_by_id (i : Z) (d : database) : option PhoneNumber :=
  if db_up d
  then List.find (fun p => (phone_id p =? i)%Z) (phones d)
  else None.

(** [PhoneOperations.create_phone_number] *)
Definition create_phone_number (n : string) (d : database)
    : option PhoneNumber * database :=
  match get_phone_by_number n d with
  | Some existing_phone => (Some existing_phone, d)
  | None =>
      if db_up d then
        let phone := {| phone_id := next_phone_id d; number := n;
                        ai_active := false |} in
        (Some phone, set_phones (phones d ++ [phone]) (next_phone_id d + 1) d)
      else (None, d)
  end.

(** [PhoneOperations.toggle_ai_status] *)
Definition toggle_ai_status (i : Z) (d : database) : bool * database :=
  match get_phone_by_id i d with
  | Some _ =>
      (true,
       set_phones
         (List.map (fun p => if (phone_id p =? i)%Z
                             then {| phone_id := phone_id p; number := number p;
                                     ai_active := negb (ai_active p) |}
                             else p) (phones d))
         (next_phone_id d) d)
  | None => (false, d)
  end.

(** [Message.validate_message_type] *)
Definition validate_message_type (msg_type : string) : bool :=
  Str.mem msg_type ["lead"; "user"; "ai"].

(** *** The attachment cleaner *)

Record cleaned : Type := {
  c_attachment_url : option string;
  c_attachment_full_url : option string;
  c_attachment_name : option string;
  c_attachment_type : option string;
  c_attachment_size : option Z
}.

Definition no_attachment : cleaned :=
  {| c_attachment_url := None; c_attachment_full_url := None;
     c_attachment_name := None; c_attachment_type := None;
     c_attachment_size := None |}.

Definition valid_types : list string :=
  ["image"; "video"; "audio"; "pdf"; "document"; "file"].

(** [type_names.get(attachment_type, 'attachment')] *)
Definition fallback_name (attachment_type : option string) : string :=
  match attachment_type with
  | Some "image" => "image"
  | Some "video" => "video"
  | Some "audio" => "audio"
  | Some "pdf" => "document.pdf"
  | Some "document" => "document"
  | Some "file" => "file"
  | _ => "attachment"
  end.

(** The type branch: a valid type is kept, anything else is 'file'. *)
Definition clean_type (attachment_type : option string) : string :=
  match attachment_type with
  | Some t => if (negb (String.eqb t "") && Str.mem t valid_types)%bool
              then t else "file"
  | None => "file"
  end.

(** The size branch: [None] stays [None]; [int()] failing with a
    [ValueError] or a [TypeError] gives [None]; an [OverflowError] is not
    caught here and leaves the cleaner ([None] at the outer level). *)
Definition clean_size (int_of_str : string -> option Z) (attachment_size : pyval)
    : option (option Z) :=
  match attachment_size with
  | PyNone => Some None
  | v => match Py.int int_of_str v with
         | IntOk size => Some (if (0 <? size)%Z then Some size else None)
         | IntValueError | IntTypeError => Some None
         | IntOverflowError => None
         end
  end.

(** [MessageOperations._clean_attachment_data]; [None] when it raises. *)
Definition _clean_attachment_data (int_of_str : string -> option Z)
    (attachment_url attachment_full_url attachment_name
       attachment_type : option string)
    (attachment_size : pyval) : option cleaned :=
  match attachment_url with
  | None => Some no_attachment
  | Some url =>
      if String.eqb url "" then Some no_attachment
      else
        let c_url := Str.strip url in
        let c_full := str_or attachment_full_url url in
        let c_name :=
          if str_truthy attachment_name
          then Str.strip (str_or attachment_name "")
          else fallback_name attachment_type in
        let c_type := clean_type attachment_type in
        match clean_size int_of_str attachment_size with
        | Some c_size =>
            Some {| c_attachment_url := Some c_url;
                    c_attachment_full_url := Some c_full;
                    c_attachment_name := Some c_name;
                    c_attachment_type := Some c_type;
                    c_attachment_size := c_size |}
        | None => None
        end
  end.

(** [MessageOperations.create_message] *)
Definition create_message (int_of_str : string -> option Z)
    (phone_number : string) (content : option string) (message_type : string)
    (attachment_url attachment_full_url attachment_name
       attachment_type : option string)
    (attachment_size : pyval) (d : database) : option Message * database :=
  if negb (validate_message_type message_type) then (None, d)
  else if (negb (str_truthy content) && negb (str_truthy attachment_url))%bool
  then (None, d)
  else
    let (phone, d1) :=
      match get_phone_by_number phone_number d with
      | Some phone => (Some phone, d)
      | None => create_phone_number phone_number d
      end in
    match phone with
    | None => (None, d1)
    | Some phone =>
        match _clean_attachment_data int_of_str attachment_url
                attachment_full_url attachment_name attachment_type
                attachment_size with
        | None => (None, d1)
        | Some c =>
            if db_up d1 then
              let message :=
                {| message_id := next_message_id d1;
                   phone_number_id := phone_id phone;
                   content := str_or content "";
                   type := message_type;
                   attachment_url := c_attachment_url c;
                   attachment_full_url := c_attachment_full_url c;
                   attachment_name := c_attachment_name c;
                   attachment_type := c_attachment_type c;
                   attachment_size := c_attachment_size c |} in
              (Some message,
               set_messages (messages d1 ++ [message])
                 (next_message_id d1 + 1) d1)
            else (None, d1)
        end
    end.

(** ** Files and downloads ([routes/chat.py]) *)

Definition MAX_UPLOAD_SIZE : Z := 50 * 1024 * 1024.

Definition ALLOWED_EXTENSIONS : list string :=
  ["png"; "jpg"; "jpeg"; "gif"; "webp";
   "mp4"; "avi"; "mov"; "wmv"; "webm";
   "mp3"; "wav"; "ogg"; "m4a"; "aac";
   "pdf"; "doc"; "docx"; "txt";
   "zip"; "rar"].

(** [filename.rsplit('.', 1)[1].lower()] when a dot occurs *)
Definition extension_of (filename : string) : option string :=
  match Str.rsplit1 "." filename with
  | Some (_, ext) => Some (Str.lower ext)
  | None => None
  end.

Definition allowed_file (filename : string) : bool :=
  match extension_of filename with
  | Some ext => Str.mem ext ALLOWED_EXTENSIONS
  | None => false
  end.

Definition get_file_type (filename : string) : string :=
  let extension := default "" (extension_of filename) in
  if Str.mem extension ["png"; "jpg"; "jpeg"; "gif"; "webp"] then "image"
  else if Str.mem extension ["mp4"; "avi"; "mov"; "wmv"; "webm"] then "video"
  else if Str.mem extension ["mp3"; "wav"; "ogg"; "m4a"; "aac"] then "audio"
  else if Str.mem extension ["pdf"] then "pdf"
  else if Str.mem extension ["doc"; "docx"; "txt"] then "document"
  else "file".

Definition get_extension_from_type (file_type : string) : string :=
  if String.eqb file_type "image" then "jpg"
  else if String.eqb file_type "video" then "mp4"
  else if String.eqb file_type "audio" then "mp3"
  else if String.eqb file_type "pdf" then "pdf"
  else if String.eqb file_type "document" then "doc"
  else "bin".

(** The text before the first [c], as [s.split(c)[0]]. *)
Fixpoint split_head (c : ascii) (s : string) : string :=
  match s with
  | EmptyString => EmptyString
  | String a rest => if Ascii.eqb a c then EmptyString
                     else String a (split_head c rest)
  end.

Inductive download_failure : Type :=
| FileTooLarge (file_size : Z)
| FileTypeNotAllowed (filename : string)
| NetworkError
| DownloadError.                      (* any other exception *)

Record downloaded : Type := {
  dl_url : string;
  dl_full_url : string;
  dl_filename : string;
  dl_unique_filename : string;
  dl_size : Z;
  dl_type : string
}.

Inductive download_result : Type :=
| DownloadFailed (why : download_failure)
| DownloadOk (d : downloaded).

Section Routes.

Context (E : env).

Definition extract_filename_from_url (url : string) : string :=
  let filename := Str.basename (url_path E url) in
  if (negb (String.eqb filename "") && Str.contains "." filename)%bool
  then secure_filename E filename
  else "attachment".

Definition extract_filename_from_response (r : remote_file) (url : string)
    : string :=
  let from_header :=
    match content_disposition r with
    | Some h =>
        if String.eqb h "" then None
        else match disposition_filename E h with
             | Some filename =>
                 if String.eqb filename "" then None
                 else Some (secure_filename E filename)
             | None => None
             end
    | None => None
    end in
  match from_header with
  | Some filename => filename
  | None =>
      let url_filename := Str.basename (url_path E url) in
      if (negb (String.eqb url_filename "")
          && Str.contains "." url_filename)%bool
      then secure_filename E url_filename
      else
        match guess_extension E
                (split_head ";" (default "" (content_type r))) with
        | Some extension =>
            if String.eqb extension "" then "attachment.bin"
            else "attachment" ++ extension
        | None => "attachment.bin"
        end
  end.

(** [int(response.headers.get('content-length', original_size or 0))] *)
Definition declared_size (r : remote_file) (original_size : pyval)
    : int_result :=
  match content_length r with
  | Some h => Py.int (int_of_str E) (PyStr h)
  | None => Py.int (int_of_str E)
              (if truthy original_size then original_size else PyInt 0)
  end.

Definition download_attachment_enhanced (url : string)
    (original_filename original_type : option string) (original_size : pyval)
    (w : world) : download_result * world :=
  match http_get E url with
  | GetFailed => (DownloadFailed NetworkError, w)
  | GetOk r =>
      match declared_size r original_size with
      | IntOk file_size =>
          if (MAX_UPLOAD_SIZE <? file_size)%Z
          then (DownloadFailed (FileTooLarge file_size), w)
          else
            let filename :=
              if str_truthy original_filename
              then secure_filename E (str_or original_filename "")
              else extract_filename_from_response r url in
            let checked : option string :=
              if (Str.contains "." filename && negb (allowed_file filename))%bool
              then
                if (negb (str_truthy original_type)
                    || String.eqb (str_or original_type "") "file")%bool
                then None
                else Some ("attachment."
                           ++ get_extension_from_type (str_or original_type ""))
              else Some filename in
            match checked with
            | None => (DownloadFailed (FileTypeNotAllowed filename), w)
            | Some filename =>
                let file_extension := default "bin" (extension_of filename) in
                let unique_filename :=
                  unique_stem E (size (uploads w)) ++ "." ++ file_extension in
                (* every chunk of the body is written *)
                let w1 :=
                  set_uploads (<[unique_filename := body_size r]> (uploads w)) w in
                let actual_size := body_size r in
                let determined_type :=
                  if str_truthy original_type then str_or original_type ""
                  else get_file_type filename in
                let file_url := "/chat/uploads/" ++ unique_filename in
                (DownloadOk
                   {| dl_url := file_url;
                      dl_full_url :=
                        request_scheme E ++ "://localhost:5000" ++ file_url;
                      dl_filename := str_or original_filename filename;
                      dl_unique_filename := unique_filename;
                      dl_size := actual_size;
                      dl_type := determined_type |},
                 w1)
            end
      | IntValueError | IntTypeError | IntOverflowError =>
          (DownloadFailed DownloadError, w)
      end
  end.

End Routes.

(** ** The message routes ([routes/chat.py]) *)

(** The JSON body of [/chat/send-message], field by field. *)
Record send_request : Type := {
  sr_phone_number : option string;
  sr_content : option string;
  sr_attachment_url : option string;
  sr_attachment_full_url : option string;
  sr_attachment_name : option string;
  sr_attachment_type : option string;
  sr_attachment_size : pyval
}.

(** The JSON body of [/chat/receive-message]. *)
Record receive_request : Type := {
  rr_phone_number : option string;
  rr_message : option string;
  rr_attachment_url : option string;
  rr_attachment_name : option string;
  rr_attachment_type : option string;
  rr_attachment_size : pyval
}.

(** What a route answers.  A success carries the stored row where the
    route sends [message.to_dict()]. *)
Inductive response : Type :=
| Failure (status : Z) (message : string)
| Sent (message : Message) (webhook_sent : bool)
| Received (message : Message)
    (attachment_downloaded attachment_was_local : bool).

Section Handlers.

Context (E : env).

(** The payload [send_message] hands to the webhook. *)
Definition message_webhook_data (data : send_request) (message_type : string)
    (phone : PhoneNumber) (message : Message) : dict :=
  <["sent_by" := PyStr (current_user_email E)]>
    (<["message_id" := PyInt (message_id message)]>
    (<["attachment_size" := sr_attachment_size data]>
    (<["attachment_type" := of_str (sr_attachment_type data)]>
    (<["attachment_name" := of_str (sr_attachment_name data)]>
    (<["attachment_full_url" := of_str (sr_attachment_full_url data)]>
    (<["attachment_url" := of_str (sr_attachment_url data)]>
    (<["ai_active" := PyBool (ai_active phone)]>
    (<["message_type" := PyStr message_type]>
    (<["message" := of_str (sr_content data)]> ∅))))))))).

(** [send_message]; [None] is a request without JSON data.  Neither
    [send_webhook], which catches every exception, nor the start of the
    retry thread raises, so the handler's [except] branch around the
    webhook step is not entered. *)
Definition send_message (body : option send_request) (w : world)
    : response * world :=
  match body with
  | None => (Failure 400 "Nenhum dado recebido", w)
  | Some data =>
      if negb (str_truthy (sr_phone_number data))
      then (Failure 400 "Número é obrigatório", w)
      else if (negb (str_truthy (sr_content data))
               && negb (str_truthy (sr_attachment_url data)))%bool
      then (Failure 400 "Conteúdo ou anexo são obrigatórios", w)
      else
        let phone_number := str_or (sr_phone_number data) "" in
        match get_phone_by_number phone_number (db w) with
        | None => (Failure 404 "Número não encontrado", w)
        | Some phone =>
            let message_type := if ai_active phone then "ai" else "user" in
            let (message, d1) :=
              create_message (int_of_str E) phone_number (sr_content data)
                message_type (sr_attachment_url data)
                (sr_attachment_full_url data) (sr_attachment_name data)
                (sr_attachment_type data) (sr_attachment_size data) (db w) in
            let w1 := set_db d1 w in
            match message with
            | None => (Failure 500 "Erro ao salvar mensagem", w1)
            | Some message =>
                let webhook_data :=
                  message_webhook_data data message_type phone message in
                let (webhook_sent_immediately, w2) :=
                  send_webhook E (PyStr "message") (PyStr phone_number)
                    webhook_data w1 in
                let (webhook_sent, w3) :=
                  if webhook_sent_immediately then (true, w2)
                  else
                    (true,
                     send_webhook_with_retry (PyStr "message")
                       (PyStr phone_number) webhook_data 2 w2) in
                (Sent message webhook_sent, w3)
            end
        end
  end.

(** The attachment fields [receive_message] passes on to [create_message]. *)
Record final_attachment : Type := {
  final_attachment_url : option string;
  final_attachment_full_url : option string;
  final_attachment_name : option string;
  final_attachment_type : option string;
  final_attachment_size : pyval
}.

Definition process_attachment (data : receive_request) (w : world)
    : final_attachment * world :=
  if negb (str_truthy (rr_attachment_url data)) then
    ({| final_attachment_url := None; final_attachment_full_url := None;
        final_attachment_name := None; final_attachment_type := None;
        final_attachment_size := PyNone |}, w)
  else
    let attachment_url := str_or (rr_attachment_url data) "" in
    if Str.startswith "/chat/uploads/" attachment_url then
      let name := str_or (rr_attachment_name data)
                    (Str.basename attachment_url) in
      ({| final_attachment_url := Some attachment_url;
          final_attachment_full_url :=
            Some (request_scheme E ++ "://" ++ request_host E
                  ++ attachment_url);
          final_attachment_name := Some name;
          final_attachment_type :=
            Some (str_or (rr_attachment_type data) (get_file_type name));
          final_attachment_size :=
            match uploads w !! Str.basename attachment_url with
            | Some file_size => PyInt file_size
            | None => PyNone
            end |}, w)
    else
      let (download_result, w1) :=
        download_attachment_enhanced E attachment_url
          (rr_attachment_name data) (rr_attachment_type data)
          (rr_attachment_size data) w in
      match download_result with
      | DownloadOk d =>
          ({| final_attachment_url := Some (dl_url d);
              final_attachment_full_url := Some (dl_full_url d);
              final_attachment_name := Some (dl_filename d);
              final_attachment_type := Some (dl_type d);
              final_attachment_size := PyInt (dl_size d) |}, w1)
      | DownloadFailed _ =>
          ({| final_attachment_url := Some attachment_url;
              final_attachment_full_url := Some attachment_url;
              final_attachment_name :=
                Some (str_or (rr_attachment_name data)
                        (extract_filename_from_url E attachment_url));
              final_attachment_type :=
                Some (str_or (rr_attachment_type data) "file");
              final_attachment_size := rr_attachment_size data |}, w1)
      end.

(** [receive_message]; [None] is a request without JSON data, on which
    [data.get] raises. *)
Definition receive_message (body : option receive_request) (w : world)
    : response * world :=
  match body with
  | None => (Failure 500 "Internal server error", w)
  | Some data =>
      if negb (str_truthy (rr_phone_number data))
      then (Failure 400 "Phone number is required", w)
      else if (negb (str_truthy (rr_message data))
               && negb (str_truthy (rr_attachment_url data)))%bool
      then (Failure 400 "Content or attachment is required", w)
      else
        let phone_number := str_or (rr_phone_number data) "" in
        let (phone, d1) :=
          match get_phone_by_number phone_number (db w) with
          | Some phone => (Some phone, db w)
          | None => create_phone_number phone_number (db w)
          end in
        match phone with
        | None => (Failure 500 "Error creating phone number", set_db d1 w)
        | Some _ =>
            let (a, w1) := process_attachment data (set_db d1 w) in
            let (message, d2) :=
              create_message (int_of_str E) phone_number (rr_message data)
                "lead" (final_attachment_url a) (final_attachment_full_url a)
                (final_attachment_name a) (final_attachment_type a)
                (final_attachment_size a) (db w1) in
            let w2 := set_db d2 w1 in
            match message with
            | None => (Failure 500 "Error saving message", w2)
            | Some message =>
                (Received message
                   (match final_attachment_url a with
                    | Some _ => true | None => false end)
                   (match final_attachment_url a with
                    | Some u => Str.startswith "/chat/uploads/" u
                    | None => false
                    end),
                 w2)
            end
        end
  end.

End Handlers.

(** ** Runs and sample surroundings used in the statements *)

(** Consecutive failure recordings: [d] seconds pass before each. *)
Fixpoint record_failures (delays : list Z) (w : world) : world :=
  match delays with
  | [] => w
  | d :: ds => record_failures ds (record_webhook_result false (advance d w))
  end.

Definition empty_db : database :=
  {| phones := []; messages := []; next_phone_id := 1; next_message_id := 1;
     db_up := true |}.

(** A freshly started process at clock reading [now]. *)
Definition fresh_world (now : Z) : world :=
  World 0 None now [] [] empty_db ∅.

(** [int()] on plain decimal literals. *)
Definition decimal_int_of_str (s : string) : option Z :=
  option_map Z.of_int (NilZero.int_of_string s).

(** Surroundings with a configured endpoint whose replies are [replies]
    and a remote host that serves [files]. *)
Definition sample_env (replies : nat -> reply) (files : string -> get_result)
    : env :=
  {| webhook_url := "http://hooks.example/in";
     webhook_timeout := 5;
     endpoint := replies;
     isoformat := fun _ => "2024-05-01T12:00:00";
     current_user_email := "agent@example.com";
     request_scheme := "http";
     request_host := "localhost:5000";
     int_of_str := decimal_int_of_str;
     secure_filename := fun name => name;
     http_get := files;
     disposition_filename := fun _ => None;
     url_path := fun url => url;
     guess_extension := fun _ => None;
     unique_stem := fun n => "upload" ++ NilZero.string_of_uint (Nat.to_uint n) |}.

Definition ok_reply : reply := {| outcome := Responded 200; latency := 1 |}.
Definition error_reply : reply := {| outcome := Responded 503; latency := 1 |}.

(** An endpoint that fails [n] times and answers 200 from then on. *)
Definition fails_then_ok (n : nat) : nat -> reply :=
  fun i => if Nat.ltb i n then error_reply else ok_reply.

Definition no_files : string -> get_result := fun _ => GetFailed.

(** The conversation of the end-to-end scenario, automation off or on. *)
Definition scenario_phone (automation : bool) : PhoneNumber :=
  {| phone_id := 1; number := "+5511999999999"; ai_active := automation |}.

Definition scenario_world (automation : bool) : world :=
  World 0 None 1000 [] []
    {| phones := [scenario_phone automation]; messages := [];
       next_phone_id := 2; next_message_id := 1; db_up := true |}
    ∅.

(** An outbound request with text only. *)
Definition text_request (phone_number content : string) : send_request :=
  {| sr_phone_number := Some phone_number; sr_content := Some content;
     sr_attachment_url := None; sr_attachment_full_url := None;
     sr_attachment_name := None; sr_attachment_type := None;
     sr_attachment_size := PyNone |}.

(** An inbound request with text only. *)
Definition text_received (phone_number content : string) : receive_request :=
  {| rr_phone_number := Some phone_number; rr_message := Some content;
     rr_attachment_url := None; rr_attachment_name := None;
     rr_attachment_type := None; rr_attachment_size := PyNone |}.

(** *** The retry loop seen from outside *)

(** A trace without its POSTs: the sleeps and the attempts. *)
Definition loop_events (tr : list event) : list event :=
  List.filter (fun e => negb (is_post e)) tr.

(** The sleeps and attempts of a loop whose calls of [send_webhook]
    return [results], the first of them being attempt number [attempt]:
    every attempt but attempt 0 comes right after a sleep of
    [min(2 ** attempt, 5)] seconds. *)
Fixpoint schedule (attempt : Z) (results : list bool) : list event :=
  match results with
  | [] => []
  | r :: rest =>
      (if (0 <? attempt)%Z then [EvSleep (Z.min (2 ^ attempt) 5)] else [])
      ++ EvAttempt attempt r :: schedule (attempt + 1) rest
  end.

(** Whether a reply counts as delivered: a status that
    [raise_for_status] lets through. *)
Definition reply_ok (r : reply) : bool :=
  match outcome r with
  | Responded status => negb (raise_for_status status)
  | _ => false
  end.

(** The world after a POST was issued and its result recorded. *)
Definition post_step (E : env) (body : dict) (w : world) : world :=
  let r := endpoint E (posts_made (trace w)) in
  record_webhook_result (reply_ok r)
    (advance (latency r)
       (emit (EvPost (webhook_url E) body (webhook_timeout E)) w)).

(** A call whose envelope passes validation whenever it is built. *)
Definition always_valid (E : env) (webhook_type phone_number : pyval)
    (data : dict) : Prop :=
  forall now : Z,
    validate_webhook_data
      (webhook_envelope E webhook_type phone_number now data) = true.

(** A process whose breaker tripped at clock reading 100, seen at 1000. *)
Definition expired_world : world :=
  World 5 (Some 100) 1000 [] [] empty_db ∅.

(** A remote file of one byte more than the ceiling, served without a
    Content-Length header (chunked transfer). *)
Definition oversized_file : remote_file :=
  {| content_length := None; content_disposition := None;
     content_type := Some "video/mp4"; body_size := MAX_UPLOAD_SIZE + 1 |}.

Definition chunked_host : string -> get_result :=
  fun _ => GetOk oversized_file.

(** An inbound request that points at it. *)
Definition clip_received : receive_request :=
  {| rr_phone_number := Some "+5511999999999"; rr_message := None;
     rr_attachment_url := Some "https://cdn.example/clip.mp4";
     rr_attachment_name := Some "clip.mp4";
     rr_attachment_type := Some "video"; rr_attachment_size := PyNone |}.

(** ** The other routes and operations *)

(** *** Breaker status ([webhook_status]) *)

Record status_report : Type := {
  st_webhook_url : string;
  st_webhook_timeout : Z;
  st_circuit_broken : bool;
  st_failure_count : Z;
  st_time_since_last_failure : option Z;
  st_max_failures : Z;
  st_circuit_break_duration : Z
}.

(** [webhook_status]: the breaker is checked first, and counter and stamp
    are read after the check. *)
Definition webhook_status (E : env) (w : world) : status_report * world :=
  let (circuit_broken, w1) := is_circuit_broken w in
  let time_since_last_failure :=
    match last_failure_time w1 with
    | Some t => if (t =? 0)%Z then None else Some (clock w1 - t)
    | None => None
    end in
  ({| st_webhook_url := webhook_url E;
      st_webhook_timeout := webhook_timeout E;
      st_circuit_broken := circuit_broken;
      st_failure_count := webhook_failures w1;
      st_time_since_last_failure := time_since_last_failure;
      st_max_failures := MAX_FAILURES_BEFORE_CIRCUIT_BREAK;
      st_circuit_break_duration := CIRCUIT_BREAK_DURATION |}, w1).

(** *** Deleting a conversation ([PhoneOperations.delete_phone]) *)

(** The row goes, and with it its messages (the relationship's
    [cascade='all, delete-orphan']). *)
Definition delete_phone (i : Z) (d : database) : bool * database :=
  match get_phone_by_id i d with
  | Some _ =>
      (true,
       {| phones := List.filter (fun p => negb (phone_id p =? i)%Z) (phones d);
          messages :=
            List.filter (fun m => negb (phone_number_id m =? i)%Z) (messages d);
          next_phone_id := next_phone_id d;
          next_message_id := next_message_id d;
          db_up := db_up d |})
  | None => (false, d)
  end.

(** *** Toggling automation ([toggle_ai]) *)

Inductive toggle_response : Type :=
| ToggleFailure (status : Z) (message : string)
| Toggled (webhook_sent : bool) (new_status : bool).

Definition toggle_webhook_data (E : env) (previous_ai_status new_ai_status : bool)
    (i : Z) : dict :=
  <["phone_id" := PyInt i]>
    (<["changed_by" := PyStr (current_user_email E)]>
    (<["new_status" := PyBool new_ai_status]>
    (<["previous_status" := PyBool previous_ai_status]> ∅))).

Definition toggle_ai (E : env) (i : Z) (w : world) : toggle_response * world :=
  match get_phone_by_id i (db w) with
  | None => (ToggleFailure 404 "Número não encontrado", w)
  | Some phone =>
      let previous_ai_status := ai_active phone in
      let (success, d1) := toggle_ai_status i (db w) in
      if negb success
      then (ToggleFailure 500 "Erro ao alterar status da IA", set_db d1 w)
      else
        let new_ai_status := negb previous_ai_status in
        let (webhook_sent, w1) :=
          send_webhook E (PyStr "ai_toggle") (PyStr (number phone))
            (toggle_webhook_data E previous_ai_status new_ai_status i)
            (set_db d1 w) in
        (Toggled webhook_sent new_ai_status, w1)
  end.

(** *** Uploading a file ([upload_attachment]) *)

(** The multipart form: the file part, as its name and its length in
    bytes, and the phone number field. *)
Record upload_request : Type := {
  up_file : option (string * Z);
  up_phone_number : option string
}.

Record uploaded : Type := {
  u_url : string;
  u_full_url : string;
  u_filename : string;
  u_size : Z;
  u_type : string;
  u_mime_type : string
}.

Inductive upload_response : Type :=
| UploadFailure (status : Z) (message : string)
| UploadOk (u : uploaded).

(** [get_mime_type], over the library's [mimetypes.guess_type]. *)
Definition get_mime_type (guess_type : string -> option string)
    (filename : string) : string :=
  match guess_type filename with
  | Some mime_type => if String.eqb mime_type "" then "application/octet-stream"
                      else mime_type
  | None => "application/octet-stream"
  end.

Definition upload_attachment (E : env) (guess_type : string -> option string)
    (req : upload_request) (w : world) : upload_response * world :=
  match up_file req with
  | None => (UploadFailure 400 "Nenhum arquivo enviado", w)
  | Some (raw_filename, file_size) =>
      if String.eqb raw_filename ""
      then (UploadFailure 400 "Nenhum arquivo selecionado", w)
      else if negb (str_truthy (up_phone_number req))
      then (UploadFailure 400 "Número de telefone é obrigatório", w)
      else if (MAX_UPLOAD_SIZE <? file_size)%Z
      then (UploadFailure 400 "Arquivo muito grande. Máximo: 50MB", w)
      else if negb (allowed_file raw_filename)
      then (UploadFailure 400 "Tipo de arquivo não permitido", w)
      else
        let filename := secure_filename E raw_filename in
        let file_extension := default "" (extension_of filename) in
        let unique_filename :=
          unique_stem E (size (uploads w)) ++ "." ++ file_extension in
        let w1 := set_uploads (<[unique_filename := file_size]> (uploads w)) w in
        let file_url := "/chat/uploads/" ++ unique_filename in
        (UploadOk
           {| u_url := file_url;
              u_full_url :=
                request_scheme E ++ "://" ++ request_host E ++ file_url;
              u_filename := filename;
              u_size := file_size;
              u_type := get_file_type filename;
              u_mime_type := get_mime_type guess_type filename |},
         w1)
  end.

(** *** Methods of a stored message ([db/models.py]) *)

Definition has_attachment (m : Message) : bool :=
  str_truthy (attachment_url m).

Definition is_valid_attachment (m : Message) : bool :=
  if negb (has_attachment m) then true
  else str_truthy (attachment_type m).

(** [type_names.get(self.attachment_type, 'Anexo')] *)
Definition display_type_name (attachment_type : option string) : string :=
  match attachment_type with
  | Some "image" => "Imagem"
  | Some "video" => "Vídeo"
  | Some "audio" => "Áudio"
  | Some "pdf" => "Documento PDF"
  | Some "document" => "Documento"
  | Some "file" => "Arquivo"
  | _ => "Anexo"
  end.

Definition get_attachment_display_name (m : Message) : option string :=
  if negb (has_attachment m) then None
  else if str_truthy (attachment_name m) then attachment_name m
  else Some (display_type_name (attachment_type m)).

(** [x or None] on an optional string *)
Definition str_or_none (x : option string) : option string :=
  if str_truthy x then x else None.

(** What [to_dict] serialises, field by field ([created_at] apart, which
    the rows here do not carry). *)
Record message_dict : Type := {
  md_id : Z;
  md_phone_number_id : Z;
  md_content : string;
  md_type : string;
  md_attachment_url : option string;
  md_attachment_full_url : option string;
  md_attachment_name : option string;
  md_attachment_type : option string;
  md_attachment_size : option Z
}.

Definition to_dict (m : Message) : message_dict :=
  {| md_id := message_id m;
     md_phone_number_id := phone_number_id m;
     md_content := content m;
     md_type := type m;
     md_attachment_url := str_or_none (attachment_url m);
     md_attachment_full_url := str_or_none (attachment_full_url m);
     md_attachment_name := str_or_none (attachment_name m);
     md_attachment_type := str_or_none (attachment_type m);
     md_attachment_size :=
       match attachment_size m with
       | Some n => if (n =? 0)%Z then None else Some n
       | None => None
       end |}.

(** *** Invariants of the state *)

(** The counter is never negative, and a positive counter comes with a
    stamp. *)
Definition breaker_wf (w : world) : Prop :=
  0 <= webhook_failures w
  /\ (0 < webhook_failures w -> exists t, last_failure_time w = Some t).

(** One row per phone number and per id, ids below their sequences, and
    every message owned by a row. *)
Definition db_wf (d : database) : Prop :=
  List.NoDup (List.map number (phones d))
  /\ List.NoDup (List.map phone_id (phones d))
  /\ (forall p, In p (phones d) -> phone_id p < next_phone_id d)
  /\ List.NoDup (List.map message_id (messages d))
  /\ (forall m, In m (messages d) -> message_id m < next_message_id d)
  /\ (forall m, In m (messages d) ->
                exists p, In p (phones d) /\ phone_id p = phone_number_id m).

(** A POST that went to the configured address with an envelope that
    passes validation. *)
Definition valid_post (E : env) (e : event) : Prop :=
  match e with
  | EvPost url body timeout =>
      url = webhook_url E /\ url <> "" /\ timeout = webhook_timeout E
      /\ validate_webhook_data body = true
  | _ => True
  end.

(** *** Sample surroundings for the file routes *)

(** A remote file of 2048 bytes whose length is declared. *)
Definition photo_file : remote_file :=
  {| content_length := Some "2048"; content_disposition := None;
     content_type := Some "image/png"; body_size := 2048 |}.

Definition photo_host : string -> get_result := fun _ => GetOk photo_file.

(** *** What every stored message satisfies *)

(** The type is one of lead, user, ai; there is a text or an attachment
    url; without an attachment url no attachment field is set; with one,
    the full url is not empty, there is a name, and the type is one of
    the six attachment types; a size, when present, is positive. *)
Definition message_ok (m : Message) : Prop :=
  validate_message_type (type m) = true
  /\ (content m <> "" \/ exists url, attachment_url m = Some url)
  /\ match attachment_url m with
     | None =>
         attachment_full_url m = None /\ attachment_name m = None
         /\ attachment_type m = None /\ attachment_size m = None
     | Some _ =>
         str_truthy (attachment_full_url m) = true
         /\ (exists name, attachment_name m = Some name)
         /\ (exists t, attachment_type m = Some t
                       /\ Str.mem t valid_types = true)
     end
  /\ (forall n, attachment_size m = Some n -> 0 < n).

(** *** Adding and deleting a conversation ([add_phone], [delete_phone]) *)


Inductive phone_response : Type :=
| PhoneFailure (status : Z) (message : string)
| PhoneAdded (phone : PhoneNumber) (webhook_sent : bool)
| PhoneDeleted (webhook_sent : bool).



Definition delete_webhook_data (E : env) (i : Z) : dict :=
  <["messages_deleted" := PyBool true]>
    (<["deleted_by" := PyStr (current_user_email E)]>
    (<["phone_id" := PyInt i]> ∅)).

(** The route [delete_phone] of [routes/chat.py], over the storage
    operation of the same name. *)
Definition delete_phone_route (E : env) (i : Z) (w : world)
    : phone_response * world :=
  match get_phone_by_id i (db w) with
  | None => (PhoneFailure 404 "Número não encontrado", w)
  | Some phone =>
      let phone_number := number phone in
      let (success, d1) := delete_phone i (db w) in
      if negb success
      then (PhoneFailure 500 "Erro ao excluir número", set_db d1 w)
      else
        let (webhook_sent, w1) :=
          send_webhook E (PyStr "phone_deleted") (PyStr phone_number)
            (delete_webhook_data E i) (set_db d1 w) in
        (PhoneDeleted webhook_sent, w1)
  end.

(** *** Trying the webhook out ([test_webhook]) *)

(** The JSON body of [/chat/test-webhook]; [None] is a key that is not
    there, for which [data.get] takes its default. *)
Record test_request : Type := {
  tw_phone_number : option pyval;
  tw_attachment_type : option pyval
}.

Inductive test_response : Type :=
| TestFailure (status : Z) (message : string)
| Tested (webhook_sent : bool).

Definition test_webhook_data (E : env) (attachment_type : pyval) : dict :=
  <["test_mode" := PyBool true]>
    (<["sent_by" := PyStr (current_user_email E)]>
    (<["message_id" := PyInt 999999]>
    (<["attachment_size" := PyInt 12345]>
    (<["attachment_type" := attachment_type]>
    (<["attachment_name" := PyStr "test_file.jpg"]>
    (<["attachment_full_url" := PyStr "http://localhost:5000/test/file.jpg"]>
    (<["attachment_url" := PyStr "/test/file.jpg"]>
    (<["message" := PyStr "Test webhook message"]> ∅)))))))).

(** [test_webhook]; [None] is a request without JSON data, on which
    [data.get] raises. *)
Definition test_webhook (E : env) (body : option test_request) (w : world)
    : test_response * world :=
  match body with
  | None => (TestFailure 500 "Erro ao testar webhook", w)
  | Some data =>
      let phone_number :=
        default (PyStr "test-number") (tw_phone_number data) in
      let attachment_type := default (PyStr "test") (tw_attachment_type data) in
      let (webhook_sent, w1) :=
        send_webhook E (PyStr "message") phone_number
          (test_webhook_data E attachment_type) w in
      (Tested webhook_sent, w1)
  end.

(** [n] tries in a row. *)
Fixpoint test_webhook_times (E : env) (n : nat) (data : test_request)
    (w : world) : world :=
  match n with
  | O => w
  | S k => test_webhook_times E k data (snd (test_webhook E (Some data) w))
  end.

(** ** Configuration ([utils/config.py]) *)

(** What [config.json] holds: no file, a file that cannot be read as a
    JSON object with a string under [webhook_url], or an object with its
    [webhook_url] when it has the key. *)
Inductive config_json : Type :=
| NoFile
| Unreadable
| ConfigJson (webhook_url : option string).

(** The [Config] object with what it reads: the file, whether the file
    system takes writes and removals, and the two environment
    variables. *)
Record Config : Type := {
  _webhook_url : string;
  _webhook_timeout : Z;
  _initialized : bool;
  config_file : config_json;
  file_system_writable : bool;
  WEBHOOK_URL : option string;
  WEBHOOK_TIMEOUT : option string
}.

Definition set_config_file (f : config_json) (c : Config) : Config :=
  {| _webhook_url := _webhook_url c; _webhook_timeout := _webhook_timeout c;
     _initialized := _initialized c; config_file := f;
     file_system_writable := file_system_writable c;
     WEBHOOK_URL := WEBHOOK_URL c; WEBHOOK_TIMEOUT := WEBHOOK_TIMEOUT c |}.

Definition set_url (url : string) (c : Config) : Config :=
  {| _webhook_url := url; _webhook_timeout := _webhook_timeout c;
     _initialized := _initialized c; config_file := config_file c;
     file_system_writable := file_system_writable c;
     WEBHOOK_URL := WEBHOOK_URL c; WEBHOOK_TIMEOUT := WEBHOOK_TIMEOUT c |}.

(** [file_config.get('webhook_url', '').strip()], [''] when the file is
    not there or reading it raises. *)
Definition file_webhook_url (c : Config) : string :=
  match config_file c with
  | ConfigJson (Some url) => Str.strip url
  | ConfigJson None => ""
  | NoFile | Unreadable => ""
  end.

(** [os.getenv('WEBHOOK_URL', '').strip()] *)
Definition env_webhook_url (c : Config) : string :=
  Str.strip (default "" (WEBHOOK_URL c)).

(** [Config._load_config] *)
Definition _load_config (int_of_str : string -> option Z) (c : Config)
    : Config :=
  let url :=
    if negb (String.eqb (file_webhook_url c) "") then file_webhook_url c
    else if negb (String.eqb (env_webhook_url c) "") then env_webhook_url c
    else "" in
  let timeout :=
    match int_of_str (default "5" (WEBHOOK_TIMEOUT c)) with
    | Some n => n
    | None => 5
    end in
  {| _webhook_url := url; _webhook_timeout := timeout;
     _initialized := true; config_file := config_file c;
     file_system_writable := file_system_writable c;
     WEBHOOK_URL := WEBHOOK_URL c; WEBHOOK_TIMEOUT := WEBHOOK_TIMEOUT c |}.

(** [Config.__init__] *)
Definition Config_init (int_of_str : string -> option Z) (file : config_json)
    (writable : bool) (env_url env_timeout : option string) : Config :=
  _load_config int_of_str
    {| _webhook_url := ""; _webhook_timeout := 5; _initialized := false;
       config_file := file; file_system_writable := writable;
       WEBHOOK_URL := env_url; WEBHOOK_TIMEOUT := env_timeout |}.

(** [Config._save_config]; a write that raises leaves the file as it
    was. *)
Definition _save_config (c : Config) : Config :=
  if file_system_writable c
  then set_config_file (ConfigJson (Some (_webhook_url c))) c
  else c.

(** The getter of [Config.webhook_url] *)
Definition get_webhook_url (int_of_str : string -> option Z) (c : Config)
    : string * Config :=
  let c1 := if negb (_initialized c) then _load_config int_of_str c else c in
  (_webhook_url c1, c1).

(** The setter of [Config.webhook_url]; [None] is a value that is not
    given. *)
Definition set_webhook_url (value : option string) (c : Config) : Config :=
  let value := if str_truthy value then Str.strip (str_or value "") else "" in
  let c1 := set_url value c in
  if negb (String.eqb value "") then _save_config c1
  else
    match config_file c1 with
    | NoFile => c1
    | _ => if file_system_writable c1 then set_config_file NoFile c1 else c1
    end.

(** [Config.reload_config] *)
Definition reload_config (int_of_str : string -> option Z) (c : Config)
    : string * Config :=
  let c1 := _load_config int_of_str c in
  (_webhook_url c1, c1).

(** ** The message type migration ([migrate_message_types.py]) *)

(** [Message.query.filter_by(type=t).count()] *)
Definition count_type (t : string) (d : database) : nat :=
  List.length (List.filter (fun m => String.eqb (type m) t) (messages d)).

(** The [UPDATE] of every row of type [old] to type [new]. *)
Definition retype (old new : string) (m : Message) : Message :=
  if String.eqb (type m) old then
    {| message_id := message_id m; phone_number_id := phone_number_id m;
       content := content m; type := new;
       attachment_url := attachment_url m;
       attachment_full_url := attachment_full_url m;
       attachment_name := attachment_name m;
       attachment_type := attachment_type m;
       attachment_size := attachment_size m |}
  else m.

Definition update_type (old new : string) (d : database) : database :=
  set_messages (List.map (retype old new) (messages d)) (next_message_id d) d.

(** How a run ends: what the script prints. *)
Inductive migration_report : Type :=
| MigrationFailed
| NothingToDo
| CancelledByUser
| Migrated (updated_count : nat) (validated : bool)
| RolledBack (updated_count : nat).

(** [migrate_message_types]; [response] is what the operator types at the
    prompt. *)
Definition migrate_message_types (response : string) (d : database)
    : migration_report * database :=
  if negb (db_up d) then (MigrationFailed, d)
  else
    let old_ai_messages := count_type "ai" d in
    if Nat.eqb old_ai_messages 0 then (NothingToDo, d)
    else if negb (Str.mem (Str.lower response) ["y"; "yes"])
    then (CancelledByUser, d)
    else
      let updated_count := count_type "ai" d in
      let d1 := update_type "ai" "lead" d in
      let new_lead_messages := count_type "lead" d1 in
      (Migrated updated_count
         (Nat.eqb updated_count old_ai_messages
          && Nat.eqb new_lead_messages old_ai_messages),
       d1).

(** [rollback_migration] *)
Definition rollback_migration (response : string) (d : database)
    : migration_report * database :=
  if negb (db_up d) then (MigrationFailed, d)
  else
    let lead_messages := count_type "lead" d in
    if Nat.eqb lead_messages 0 then (NothingToDo, d)
    else if negb (Str.mem (Str.lower response) ["y"; "yes"])
    then (CancelledByUser, d)
    else (RolledBack (count_type "lead" d), update_type "lead" "ai" d).

(** ** The process as a transition system *)





(** * Properties *)

(** ** Circuit breaker *)

Lemma breaker_open_iff (w : world) :
  breaker_open w = true <-> 5 <= webhook_failures w.
Proof.
  unfold breaker_open, MAX_FAILURES_BEFORE_CIRCUIT_BREAK.
  split; intros H; [apply Z.leb_le in H | apply Z.leb_le]; exact H.
Qed.

Lemma within_window_true (w : world) (t : Z) :
  last_failure_time w = Some t -> t <> 0 ->
  clock w - t < CIRCUIT_BREAK_DURATION ->
  within_window w = true.
Proof.
  intros Ht Hnz Hlt. unfold within_window. rewrite Ht.
  apply andb_true_iff. split.
  - apply negb_true_iff, Z.eqb_neq, Hnz.
  - apply Z.ltb_lt, Hlt.
Qed.

Lemma within_window_elapsed (w : world) (t : Z) :
  last_failure_time w = Some t ->
  CIRCUIT_BREAK_DURATION <= clock w - t ->
  within_window w = false.
Proof.
  intros Ht Hge. unfold within_window. rewrite Ht.
  apply andb_false_iff. right. apply Z.ltb_ge, Hge.
Qed.

Lemma is_circuit_broken_closed (w : world) :
  breaker_open w = false -> is_circuit_broken w = (false, w).
Proof.
  unfold is_circuit_broken, breaker_open. intros ->. reflexivity.
Qed.

Lemma is_circuit_broken_open (w : world) :
  breaker_open w = true -> within_window w = true ->
  is_circuit_broken w = (true, w).
Proof.
  unfold is_circuit_broken, breaker_open. intros -> ->. reflexivity.
Qed.

Lemma is_circuit_broken_reset (w : world) :
  breaker_open w = true -> within_window w = false ->
  is_circuit_broken w = (false, set_breaker 0 None w).
Proof.
  unfold is_circuit_broken, breaker_open. intros -> ->. reflexivity.
Qed.

Lemma record_failures_counter (delays : list Z) (w : world) :
  webhook_failures (record_failures delays w)
  = webhook_failures w + Z.of_nat (List.length delays).
Proof.
  revert w. induction delays as [|d ds IH]; intros w.
  - simpl. lia.
  - cbn [record_failures List.length]. rewrite IH. simpl. lia.
Qed.

Lemma record_failures_stamp (delays : list Z) (w : world) :
  delays <> [] ->
  last_failure_time (record_failures delays w)
  = Some (clock (record_failures delays w)).
Proof.
  revert w. induction delays as [|d ds IH]; intros w Hne; [congruence|].
  cbn [record_failures]. destruct ds as [|d' ds'].
  - reflexivity.
  - apply IH. discriminate.
Qed.

(** An open breaker inside its window makes [send_webhook] return at the
    check, with the world as it was. *)
Lemma send_webhook_skipped (E : env) (wt ph : pyval) (data : dict) (w : world) :
  breaker_open w = true -> within_window w = true ->
  send_webhook E wt ph data w = (false, w).
Proof.
  intros Ho Hw. unfold send_webhook.
  destruct (String.eqb (webhook_url E) ""); [reflexivity|].
  rewrite (is_circuit_broken_open w Ho Hw). reflexivity.
Qed.

(** C1.  Starting from a counter of zero, the breaker is Open after a run
    of failure recordings exactly when the run has five of them or more,
    and a check made less than 60 seconds after the fifth reports it.
    While the breaker is Open and less than 60 seconds have passed since
    the stamped failure, [send_webhook] returns [False] and leaves the
    whole world, its trace of requests included, as it was.  A check that
    finds 60 seconds or more elapsed answers Closed and leaves the counter
    at zero and the stamp cleared.  (A stamp is a clock reading; Python
    reads a reading of zero as no stamp.) *)
Theorem circuit_breaker_state_machine :
  (forall (w : world) (delays : list Z),
      webhook_failures w = 0 ->
      breaker_open (record_failures delays w) = true
      <-> (5 <= List.length delays)%nat)
  /\ (forall (w : world) (delays : list Z) (d : Z),
         webhook_failures w = 0 ->
         List.length delays = 5%nat ->
         clock (record_failures delays w) <> 0 ->
         d < 60 ->
         let w5 := advance d (record_failures delays w) in
         is_circuit_broken w5 = (true, w5))
  /\ (forall (E : env) (webhook_type phone_number : pyval) (data : dict)
             (w : world) (t : Z),
         breaker_open w = true ->
         last_failure_time w = Some t -> t <> 0 ->
         clock w - t < 60 ->
         send_webhook E webhook_type phone_number data w = (false, w))
  /\ (forall (w : world) (t : Z),
         breaker_open w = true ->
         last_failure_time w = Some t ->
         60 <= clock w - t ->
         exists w', is_circuit_broken w = (false, w')
                    /\ webhook_failures w' = 0
                    /\ last_failure_time w' = None
                    /\ breaker_open w' = false).
Proof.
  split; [|split; [|split]].
  - intros w delays H0. split; intros H.
    + apply breaker_open_iff in H.
      rewrite record_failures_counter in H. lia.
    + apply breaker_open_iff.
      rewrite record_failures_counter. lia.
  - intros w delays d H0 Hlen Hnz Hd w5.
    assert (Hne : delays <> []) by (destruct delays; simpl in Hlen; congruence).
    apply is_circuit_broken_open.
    + apply breaker_open_iff. subst w5. simpl.
      rewrite record_failures_counter. lia.
    + apply within_window_true with (t := clock (record_failures delays w)).
      * subst w5. simpl. apply record_failures_stamp, Hne.
      * exact Hnz.
      * subst w5. unfold CIRCUIT_BREAK_DURATION. simpl. lia.
  - intros E wt ph data w t Ho Ht Hnz Hlt.
    apply send_webhook_skipped; [exact Ho|].
    apply within_window_true with (t := t); assumption.
  - intros w t Ho Ht Hge.
    exists (set_breaker 0 None w). repeat split.
    apply is_circuit_broken_reset; [exact Ho|].
    apply within_window_elapsed with (t := t); assumption.
Qed.

Lemma circuit_breaker_state_machine_witness :
  breaker_open (record_failures [1; 1; 1; 1; 1] (fresh_world 1000)) = true
  /\ is_circuit_broken
       (advance 10 (record_failures [1; 1; 1; 1; 1] (fresh_world 1000)))
     = (true, advance 10 (record_failures [1; 1; 1; 1; 1] (fresh_world 1000)))
  /\ send_webhook (sample_env (fails_then_ok 0) no_files)
       (PyStr "message") (PyStr "+5511999999999") ∅
       (advance 59 (record_failures [1; 1; 1; 1; 1] (fresh_world 1000)))
     = (false, advance 59 (record_failures [1; 1; 1; 1; 1] (fresh_world 1000)))
  /\ exists w',
       is_circuit_broken
         (advance 60 (record_failures [1; 1; 1; 1; 1] (fresh_world 1000)))
       = (false, w')
       /\ webhook_failures w' = 0
       /\ last_failure_time w' = None
       /\ breaker_open w' = false.
Proof.
  destruct circuit_breaker_state_machine as (Trip & Report & Skip & Reset).
  split; [|split; [|split]].
  - apply (Trip (fresh_world 1000) [1; 1; 1; 1; 1]); [reflexivity | simpl; lia].
  - apply (Report (fresh_world 1000) [1; 1; 1; 1; 1] 10);
      [reflexivity | reflexivity | vm_compute; discriminate | lia].
  - apply (Skip _ _ _ _ _ 1005);
      [reflexivity | reflexivity | lia | vm_compute; reflexivity].
  - apply (Reset _ 1005); [reflexivity | reflexivity | vm_compute; discriminate].
Defined.

(** ** Message classification *)

Lemma send_webhook_db (E : env) (wt ph : pyval) (data : dict) (w : world) :
  db (snd (send_webhook E wt ph data w)) = db w.
Proof.
  unfold send_webhook.
  destruct (String.eqb (webhook_url E) ""); [reflexivity|].
  unfold is_circuit_broken.
  destruct (MAX_FAILURES_BEFORE_CIRCUIT_BREAK <=? webhook_failures w)%Z;
    [destruct (within_window w)|]; cbn [snd fst];
    try reflexivity;
    match goal with
    | |- context [validate_webhook_data ?d] =>
        destruct (validate_webhook_data d); cbn [negb]; try reflexivity
    end;
    match goal with
    | |- context [outcome ?r] =>
        destruct (outcome r) as [status| | | |];
          [destruct (raise_for_status status)| | | |]; reflexivity
    end.
Qed.

Lemma create_message_type (ios : string -> option Z) (pn : string)
    (content : option string) (mt : string)
    (au afu an aty : option string) (asz : pyval) (d d' : database)
    (m : Message) :
  create_message ios pn content mt au afu an aty asz d = (Some m, d') ->
  type m = mt /\ In m (messages d').
Proof.
  unfold create_message.
  destruct (validate_message_type mt); cbn [negb]; [|discriminate].
  destruct (negb (str_truthy content) && negb (str_truthy au))%bool;
    [discriminate|].
  destruct (match get_phone_by_number pn d with
            | Some phone => (Some phone, d)
            | None => create_phone_number pn d
            end) as [[phone|] d1]; [|discriminate].
  destruct (_clean_attachment_data ios au afu an aty asz) as [c|];
    [|discriminate].
  destruct (db_up d1); [|discriminate].
  intros H. injection H as <- <-. split; [reflexivity|].
  cbn. apply in_or_app. right. left. reflexivity.
Qed.

(** C2.  A message stored by [send_message] has type 'ai' exactly when the
    conversation's automation flag, as the database holds it when the
    request arrives, is true, and type 'user' exactly when it is false; a
    message stored by [receive_message] has type 'lead', whatever the
    flag.  In both cases the message is a row of the resulting database. *)
Theorem message_classification (E : env) :
  (forall (data : send_request) (w w' : world) (phone : PhoneNumber)
          (m : Message) (sent : bool),
      get_phone_by_number (str_or (sr_phone_number data) "") (db w)
      = Some phone ->
      send_message E (Some data) w = (Sent m sent, w') ->
      (type m = "ai" <-> ai_active phone = true)
      /\ (type m = "user" <-> ai_active phone = false)
      /\ In m (messages (db w')))
  /\ (forall (body : option receive_request) (w w' : world) (m : Message)
             (downloaded was_local : bool),
         receive_message E body w = (Received m downloaded was_local, w') ->
         type m = "lead" /\ In m (messages (db w'))).
Proof.
  split.
  - intros data w w' phone m sent Hphone H.
    unfold send_message in H.
    destruct (negb (str_truthy (sr_phone_number data))); [discriminate|].
    destruct (negb (str_truthy (sr_content data))
              && negb (str_truthy (sr_attachment_url data)))%bool;
      [discriminate|].
    rewrite Hphone in H.
    destruct (create_message _ _ _ _ _ _ _ _ _ _) as [[message|] d1] eqn:Hc;
      [|discriminate].
    apply create_message_type in Hc as [Hty Hin].
    destruct (send_webhook _ _ _ _ _) as [immediately w2] eqn:Hs.
    assert (Hdb : db w2 = d1).
    { pose proof (send_webhook_db E (PyStr "message")
                    (PyStr (str_or (sr_phone_number data) ""))
                    (message_webhook_data E data
                       (if ai_active phone then "ai" else "user") phone message)
                    (set_db d1 w)) as Hd.
      rewrite Hs in Hd. exact Hd. }
    assert (Hm : m = message /\ db w' = d1).
    { destruct immediately; injection H as <- _ <-; split;
        try reflexivity; exact Hdb. }
    destruct Hm as [-> Hw']. rewrite Hw'.
    split; [|split]; [| |exact Hin];
      rewrite Hty; destruct (ai_active phone);
      split; intros; try reflexivity; discriminate.
  - intros body w w' m downloaded was_local H.
    unfold receive_message in H.
    destruct body as [data|]; [|discriminate].
    destruct (negb (str_truthy (rr_phone_number data))); [discriminate|].
    destruct (negb (str_truthy (rr_message data))
              && negb (str_truthy (rr_attachment_url data)))%bool;
      [discriminate|].
    destruct (match get_phone_by_number _ (db w) with
              | Some phone => (Some phone, db w)
              | None => create_phone_number _ (db w)
              end) as [[phone|] d1]; [|discriminate].
    destruct (process_attachment E data (set_db d1 w)) as [a w1].
    destruct (create_message _ _ _ _ _ _ _ _ _ _) as [[message|] d2] eqn:Hc;
      [|discriminate].
    apply create_message_type in Hc as [Hty Hin].
    injection H as <- _ _ <-. split; [exact Hty | exact Hin].
Qed.

Lemma message_classification_witness :
  let E := sample_env (fails_then_ok 0) no_files in
  let off := scenario_world false in
  let on := set_db (snd (toggle_ai_status 1 (db off))) off in
  (exists m sent w',
      send_message E (Some (text_request "+5511999999999" "hello")) off
      = (Sent m sent, w')
      /\ type m = "user")
  /\ (exists m sent w',
         send_message E (Some (text_request "+5511999999999" "hi")) on
         = (Sent m sent, w')
         /\ type m = "ai")
  /\ (exists m downloaded was_local w',
         receive_message E (Some (text_received "+5511999999999" "reply")) on
         = (Received m downloaded was_local, w')
         /\ type m = "lead").
Proof.
  intros E off on.
  destruct (message_classification E) as [Outbound Inbound].
  split; [|split].
  - eexists _, _, _. split; [vm_compute; reflexivity|].
    eapply (Outbound (text_request "+5511999999999" "hello") off _
              (scenario_phone false));
      [reflexivity | vm_compute; reflexivity | reflexivity].
  - eexists _, _, _. split; [vm_compute; reflexivity|].
    eapply (Outbound (text_request "+5511999999999" "hi") on _
              (scenario_phone true));
      [reflexivity | vm_compute; reflexivity | reflexivity].
  - eexists _, _, _, _. split; [vm_compute; reflexivity|].
    eapply (Inbound (Some (text_received "+5511999999999" "reply")) on).
    vm_compute; reflexivity.
Defined.

(** ** Delivery and the retry loop *)

Lemma posts_made_app (tr1 tr2 : list event) :
  posts_made (tr1 ++ tr2) = (posts_made tr1 + posts_made tr2)%nat.
Proof. unfold posts_made. rewrite List.filter_app, List.length_app. reflexivity. Qed.

Lemma loop_events_app (tr1 tr2 : list event) :
  loop_events (tr1 ++ tr2) = (loop_events tr1 ++ loop_events tr2)%list.
Proof. apply List.filter_app. Qed.

(** What one call of [send_webhook] adds to the trace: nothing, or one
    POST. *)
Lemma send_webhook_trace (E : env) (wt ph : pyval) (data : dict) (w : world) :
  exists evs,
    trace (snd (send_webhook E wt ph data w)) = (trace w ++ evs)%list
    /\ loop_events evs = []
    /\ (posts_made evs <= 1)%nat.
Proof.
  unfold send_webhook.
  destruct (String.eqb (webhook_url E) "").
  { exists []. cbn. rewrite List.app_nil_r. auto. }
  destruct (is_circuit_broken w) as [broken w1] eqn:Hb.
  assert (Htr : trace w1 = trace w).
  { unfold is_circuit_broken in Hb.
    destruct (MAX_FAILURES_BEFORE_CIRCUIT_BREAK <=? webhook_failures w)%Z;
      [destruct (within_window w)|]; injection Hb as _ <-; reflexivity. }
  destruct broken.
  { exists []. cbn. rewrite List.app_nil_r. auto. }
  destruct (validate_webhook_data _); cbn [negb].
  2:{ exists []. cbn. rewrite List.app_nil_r. auto. }
  eexists [EvPost _ _ _].
  split; [|split; [reflexivity | cbn; lia]].
  destruct (outcome _) as [status| | | |];
    [destruct (raise_for_status status)| | | |];
    cbn; rewrite Htr; reflexivity.
Qed.

(** With an endpoint configured, the breaker closed and a valid envelope,
    [send_webhook] issues the POST and records its result. *)
Lemma send_webhook_live (E : env) (wt ph : pyval) (data : dict) (w : world) :
  webhook_url E <> "" ->
  breaker_open w = false ->
  always_valid E wt ph data ->
  send_webhook E wt ph data w
  = (reply_ok (endpoint E (posts_made (trace w))),
     post_step E (webhook_envelope E wt ph (clock w) data) w).
Proof.
  intros Hurl Hclosed Hvalid. unfold send_webhook.
  destruct (String.eqb_spec (webhook_url E) "") as [Heq|_]; [contradiction|].
  rewrite (is_circuit_broken_closed w Hclosed).
  rewrite (Hvalid (clock w)). cbn [negb].
  unfold post_step, reply_ok.
  destruct (outcome _) as [status| | | |];
    [destruct (raise_for_status status)| | | |]; reflexivity.
Qed.

(** The loop, whatever the surroundings: its sleeps and attempts follow
    [schedule], and its results are failures up to a first success, or
    failures for every iteration. *)
Lemma retry_loop_schedule (E : env) (wt ph : pyval) (data : dict) :
  forall (remaining : nat) (attempt : Z) (w : world),
  exists (results : list bool) (evs : list event),
    trace (snd (retry_loop E remaining attempt wt ph data w))
    = (trace w ++ evs)%list
    /\ loop_events evs = schedule attempt results
    /\ (posts_made evs <= List.length results)%nat
    /\ (if fst (retry_loop E remaining attempt wt ph data w)
        then exists k, (k < remaining)%nat
                       /\ results = (List.repeat false k ++ [true])%list
        else results = List.repeat false remaining).
Proof.
  induction remaining as [|n IH]; intros attempt w.
  - exists [], []. cbn. rewrite List.app_nil_r. auto.
  - cbn [retry_loop].
    set (sl := if (0 <? attempt)%Z
               then [EvSleep (Z.min (2 ^ attempt) 5)] else []).
    set (w1 := if (0 <? attempt)%Z
               then sleep (Z.min (2 ^ attempt) 5) w else w).
    assert (Hw1 : trace w1 = (trace w ++ sl)%list).
    { subst w1 sl. destruct (0 <? attempt)%Z; cbn;
        [reflexivity | rewrite List.app_nil_r; reflexivity]. }
    assert (Hsl : loop_events sl = sl /\ posts_made sl = 0%nat).
    { subst sl. destruct (0 <? attempt)%Z; split; reflexivity. }
    destruct Hsl as [Hsl Hslp].
    destruct (send_webhook_trace E wt ph data w1) as (ps & Hps & Hpl & Hpp).
    destruct (send_webhook E wt ph data w1) as [success w2].
    cbn [snd] in Hps. destruct success.
    + exists [true], (sl ++ ps ++ [EvAttempt attempt true])%list.
      cbn [fst snd]. split; [|split; [|split]].
      * cbn. rewrite Hps, Hw1, <- !List.app_assoc. reflexivity.
      * rewrite !loop_events_app, Hsl, Hpl. reflexivity.
      * rewrite !posts_made_app, Hslp. cbn. lia.
      * exists 0%nat. split; [lia | reflexivity].
    + destruct (IH (attempt + 1) (emit (EvAttempt attempt false) w2))
        as (results & evs & Htr & Hev & Hposts & Hres).
      exists (false :: results),
             (sl ++ ps ++ [EvAttempt attempt false] ++ evs)%list.
      split; [|split; [|split]].
      * rewrite Htr. cbn [emit trace]. rewrite Hps, Hw1, <- !List.app_assoc.
        reflexivity.
      * rewrite !loop_events_app, Hsl, Hpl, Hev. reflexivity.
      * rewrite !posts_made_app, Hslp. cbn [List.length]. cbn. lia.
      * destruct (fst (retry_loop E n (attempt + 1) wt ph data
                         (emit (EvAttempt attempt false) w2))).
        -- destruct Hres as (k & Hk & ->). exists (S k). split; [lia|reflexivity].
        -- rewrite Hres. reflexivity.
Qed.

Lemma post_step_trace (E : env) (body : dict) (w : world) :
  trace (post_step E body w)
  = (trace w ++ [EvPost (webhook_url E) body (webhook_timeout E)])%list.
Proof.
  unfold post_step, record_webhook_result.
  destruct (reply_ok _); reflexivity.
Qed.

Lemma post_step_counter (E : env) (body : dict) (w : world) :
  webhook_failures (post_step E body w)
  = if reply_ok (endpoint E (posts_made (trace w)))
    then Z.max 0 (webhook_failures w - 1)
    else webhook_failures w + 1.
Proof.
  unfold post_step, record_webhook_result.
  destruct (reply_ok _); reflexivity.
Qed.

(** One iteration of the loop while deliveries go out: the call posts, and
    what it returns is the endpoint's verdict. *)
Lemma live_iteration (E : env) (wt ph : pyval) (data : dict)
    (attempt : Z) (w : world) :
  webhook_url E <> "" ->
  always_valid E wt ph data ->
  webhook_failures w < 5 ->
  let w1 := if (0 <? attempt)%Z then sleep (Z.min (2 ^ attempt) 5) w else w in
  let ok := reply_ok (endpoint E (posts_made (trace w))) in
  exists (w2 : world) (evs : list event),
    send_webhook E wt ph data w1 = (ok, w2)
    /\ trace w2 = (trace w ++ evs)%list
    /\ loop_events evs
       = (if (0 <? attempt)%Z then [EvSleep (Z.min (2 ^ attempt) 5)] else [])
    /\ posts_made evs = 1%nat
    /\ webhook_failures w2
       = (if ok then Z.max 0 (webhook_failures w - 1)
          else webhook_failures w + 1).
Proof.
  intros Hurl Hvalid Hlt w1 ok.
  assert (Hf : webhook_failures w1 = webhook_failures w)
    by (subst w1; destruct (0 <? attempt)%Z; reflexivity).
  assert (Hp : posts_made (trace w1) = posts_made (trace w)).
  { subst w1. destruct (0 <? attempt)%Z; [|reflexivity].
    unfold sleep, advance, emit; cbn [trace].
    rewrite posts_made_app. cbn. lia. }
  assert (Hclosed : breaker_open w1 = false).
  { destruct (breaker_open w1) eqn:Ho; [|reflexivity].
    apply breaker_open_iff in Ho. lia. }
  pose proof (send_webhook_live E wt ph data w1 Hurl Hclosed Hvalid) as Hs.
  rewrite Hp in Hs. fold ok in Hs.
  set (body := webhook_envelope E wt ph (clock w1) data) in Hs.
  exists (post_step E body w1),
         ((if (0 <? attempt)%Z then [EvSleep (Z.min (2 ^ attempt) 5)] else [])
          ++ [EvPost (webhook_url E) body (webhook_timeout E)])%list.
  split; [exact Hs|]. split; [|split; [|split]].
  - rewrite post_step_trace. subst w1.
    destruct (0 <? attempt)%Z; cbn; rewrite <- ?List.app_assoc; reflexivity.
  - destruct (0 <? attempt)%Z; reflexivity.
  - destruct (0 <? attempt)%Z; reflexivity.
  - rewrite post_step_counter, Hp, Hf. reflexivity.
Qed.

(** A run in which the endpoint fails [k] times and then answers: [k + 1]
    attempts, each with its POST, ending in success; the counter ends two
    below where the [k] failures took it. *)
Lemma retry_loop_fails_then_ok (E : env) (wt ph : pyval) (data : dict) :
  webhook_url E <> "" ->
  always_valid E wt ph data ->
  forall (k remaining : nat) (attempt : Z) (w : world),
    (k < remaining)%nat ->
    webhook_failures w + Z.of_nat k < 5 ->
    (forall i, (i < k)%nat ->
               reply_ok (endpoint E (posts_made (trace w) + i)) = false) ->
    reply_ok (endpoint E (posts_made (trace w) + k)) = true ->
    exists (evs : list event) (w' : world),
      retry_loop E remaining attempt wt ph data w = (true, w')
      /\ trace w' = (trace w ++ evs)%list
      /\ loop_events evs
         = schedule attempt (List.repeat false k ++ [true])%list
      /\ posts_made evs = S k
      /\ webhook_failures w'
         = Z.max 0 (Z.max 0 (webhook_failures w + Z.of_nat k - 1) - 1).
Proof.
  intros Hurl Hvalid.
  induction k as [|k IH]; intros remaining attempt w Hrem Hf Hfail Hok;
    (destruct remaining as [|n]; [lia|]); cbn [retry_loop].
  - destruct (live_iteration E wt ph data attempt w Hurl Hvalid)
      as (w2 & evs & Hs & Htr & Hev & Hposts & Hcnt); [lia|].
    rewrite Hs. rewrite Nat.add_0_r in Hok. rewrite Hok in *.
    exists (evs ++ [EvAttempt attempt true])%list. eexists.
    split; [reflexivity|]. split; [|split; [|split]].
    + cbn. rewrite Htr, <- List.app_assoc. reflexivity.
    + rewrite loop_events_app, Hev. reflexivity.
    + rewrite posts_made_app, Hposts. reflexivity.
    + cbn. rewrite Hcnt. lia.
  - destruct (live_iteration E wt ph data attempt w Hurl Hvalid)
      as (w2 & evs & Hs & Htr & Hev & Hposts & Hcnt); [lia|].
    rewrite Hs.
    assert (H0 : reply_ok (endpoint E (posts_made (trace w))) = false).
    { rewrite <- (Nat.add_0_r (posts_made (trace w))). apply Hfail. lia. }
    rewrite H0 in *.
    set (w3 := emit (EvAttempt attempt false) w2).
    assert (Hp3 : posts_made (trace w3) = S (posts_made (trace w))).
    { subst w3. unfold emit; cbn [trace].
      rewrite Htr, !posts_made_app, Hposts. cbn. lia. }
    destruct (IH n (attempt + 1) w3) as (evs' & w' & Hrun & Htr' & Hev' & Hp' & Hc').
    + lia.
    + subst w3. cbn. rewrite Hcnt. lia.
    + intros i Hi. rewrite Hp3.
      replace (S (posts_made (trace w)) + i)%nat
        with (posts_made (trace w) + S i)%nat by lia.
      apply Hfail. lia.
    + rewrite Hp3.
      replace (S (posts_made (trace w)) + k)%nat
        with (posts_made (trace w) + S k)%nat by lia.
      exact Hok.
    + exists (evs ++ [EvAttempt attempt false] ++ evs')%list, w'.
      split; [exact Hrun|]. split; [|split; [|split]].
      * rewrite Htr'. subst w3. cbn. rewrite Htr, <- !List.app_assoc.
        reflexivity.
      * rewrite !loop_events_app, Hev, Hev'. reflexivity.
      * rewrite !posts_made_app, Hposts, Hp'. cbn. lia.
      * rewrite Hc'. subst w3. cbn. rewrite Hcnt. lia.
Qed.

(** A run in which the endpoint fails every time: each iteration posts and
    records its failure. *)
Lemma retry_loop_all_fail (E : env) (wt ph : pyval) (data : dict) :
  webhook_url E <> "" ->
  always_valid E wt ph data ->
  forall (remaining : nat) (attempt : Z) (w : world),
    webhook_failures w + Z.of_nat remaining <= 5 ->
    (forall i, (i < remaining)%nat ->
               reply_ok (endpoint E (posts_made (trace w) + i)) = false) ->
    exists (evs : list event) (w' : world),
      retry_loop E remaining attempt wt ph data w = (false, w')
      /\ trace w' = (trace w ++ evs)%list
      /\ loop_events evs = schedule attempt (List.repeat false remaining)
      /\ posts_made evs = remaining
      /\ webhook_failures w' = webhook_failures w + Z.of_nat remaining.
Proof.
  intros Hurl Hvalid.
  induction remaining as [|n IH]; intros attempt w Hf Hfail.
  - exists [], w. cbn. rewrite List.app_nil_r.
    repeat split; try reflexivity. lia.
  - cbn [retry_loop].
    destruct (live_iteration E wt ph data attempt w Hurl Hvalid)
      as (w2 & evs & Hs & Htr & Hev & Hposts & Hcnt); [lia|].
    rewrite Hs.
    assert (H0 : reply_ok (endpoint E (posts_made (trace w))) = false).
    { rewrite <- (Nat.add_0_r (posts_made (trace w))). apply Hfail. lia. }
    rewrite H0 in *.
    set (w3 := emit (EvAttempt attempt false) w2).
    assert (Hp3 : posts_made (trace w3) = S (posts_made (trace w))).
    { subst w3. unfold emit; cbn [trace].
      rewrite Htr, !posts_made_app, Hposts. cbn. lia. }
    destruct (IH (attempt + 1) w3) as (evs' & w' & Hrun & Htr' & Hev' & Hp' & Hc').
    + subst w3. cbn. rewrite Hcnt. lia.
    + intros i Hi. rewrite Hp3.
      replace (S (posts_made (trace w)) + i)%nat
        with (posts_made (trace w) + S i)%nat by lia.
      apply Hfail. lia.
    + exists (evs ++ [EvAttempt attempt false] ++ evs')%list, w'.
      split; [exact Hrun|]. split; [|split; [|split]].
      * rewrite Htr'. subst w3. cbn. rewrite Htr, <- !List.app_assoc.
        reflexivity.
      * rewrite !loop_events_app, Hev, Hev'. reflexivity.
      * rewrite !posts_made_app, Hposts, Hp'. cbn. lia.
      * rewrite Hc'. subst w3. cbn. rewrite Hcnt. lia.
Qed.

(** C3.  For every [max_retries >= 0] the thread body calls
    [send_webhook] at least once and at most [max_retries + 1] times,
    issuing at most one POST per call; it sleeps [min(2 ** attempt, 5)]
    seconds right before every attempt but attempt 0, and nowhere else;
    its results are failures followed by one success, after which it
    stops, or failures for all [max_retries + 1] attempts.  With an
    endpoint that fails twice and then answers, [max_retries = 2], a valid
    call and a counter of at most 2, the run is: attempt 0, sleep 2,
    attempt 1, sleep 4, attempt 2, with three POSTs, and it ends in
    success. *)
Theorem retry_bounded_backoff :
  (forall (E : env) (webhook_type phone_number : pyval) (data : dict)
          (max_retries : Z) (w : world),
      0 <= max_retries ->
      exists (results : list bool) (evs : list event),
        trace (_retry_webhook E webhook_type phone_number data max_retries w)
        = (trace w ++ evs)%list
        /\ loop_events evs = schedule 0 results
        /\ (1 <= List.length results)%nat
        /\ Z.of_nat (List.length results) <= max_retries + 1
        /\ (posts_made evs <= List.length results)%nat
        /\ ((exists k, results = (List.repeat false k ++ [true])%list)
            \/ results = List.repeat false (Z.to_nat (max_retries + 1))))
  /\ (forall (E : env) (webhook_type phone_number : pyval) (data : dict)
             (w : world),
         webhook_url E <> "" ->
         always_valid E webhook_type phone_number data ->
         webhook_failures w <= 2 ->
         reply_ok (endpoint E (posts_made (trace w))) = false ->
         reply_ok (endpoint E (posts_made (trace w) + 1)) = false ->
         reply_ok (endpoint E (posts_made (trace w) + 2)) = true ->
         exists (evs : list event),
           fst (retry_loop E 3 0 webhook_type phone_number data w) = true
           /\ trace (_retry_webhook E webhook_type phone_number data 2 w)
              = (trace w ++ evs)%list
           /\ loop_events evs
              = [EvAttempt 0 false; EvSleep 2; EvAttempt 1 false;
                 EvSleep 4; EvAttempt 2 true]
           /\ posts_made evs = 3%nat).
Proof.
  split.
  - intros E wt ph data max_retries w Hmr.
    destruct (retry_loop_schedule E wt ph data (Z.to_nat (max_retries + 1)) 0 w)
      as (results & evs & Htr & Hev & Hposts & Hres).
    exists results, evs. unfold _retry_webhook.
    destruct (retry_loop E (Z.to_nat (max_retries + 1)) 0 wt ph data w)
      as [success w'].
    cbn [fst snd] in *.
    assert (Hlen : (1 <= List.length results)%nat
                   /\ Z.of_nat (List.length results) <= max_retries + 1).
    { destruct success.
      - destruct Hres as (k & Hk & ->).
        rewrite List.length_app, List.repeat_length. cbn. lia.
      - rewrite Hres, List.repeat_length. lia. }
    destruct Hlen as [Hl1 Hl2].
    split; [|split; [exact Hev|split; [exact Hl1|split; [exact Hl2|split;
      [exact Hposts|]]]]].
    + destruct success; [exact Htr|]. cbn. exact Htr.
    + destruct success; [left|right; exact Hres].
      destruct Hres as (k & _ & ->). exists k. reflexivity.
  - intros E wt ph data w Hurl Hvalid Hf H0 H1 H2.
    destruct (retry_loop_fails_then_ok E wt ph data Hurl Hvalid 2 3 0 w)
      as (evs & w' & Hrun & Htr & Hev & Hposts & _).
    + lia.
    + lia.
    + intros i Hi. destruct i as [|[|i]]; [|exact H1|lia].
      rewrite Nat.add_0_r. exact H0.
    + exact H2.
    + exists evs. unfold _retry_webhook.
      change (Z.to_nat (2 + 1)) with 3%nat. rewrite Hrun.
      repeat split; [exact Htr | exact Hev | exact Hposts].
Qed.

Lemma retry_bounded_backoff_witness :
  let E := sample_env (fails_then_ok 2) no_files in
  let w := fresh_world 1000 in
  (0 <= 2
   /\ exists (results : list bool) (evs : list event),
        trace (_retry_webhook E (PyStr "message") (PyStr "+5511999999999") ∅ 2 w)
        = (trace w ++ evs)%list
        /\ loop_events evs = schedule 0 results
        /\ (1 <= List.length results)%nat
        /\ Z.of_nat (List.length results) <= 2 + 1
        /\ (posts_made evs <= List.length results)%nat
        /\ ((exists k, results = (List.repeat false k ++ [true])%list)
            \/ results = List.repeat false (Z.to_nat (2 + 1))))
  /\ (webhook_url E <> ""
      /\ always_valid E (PyStr "message") (PyStr "+5511999999999") ∅
      /\ webhook_failures w <= 2
      /\ exists (evs : list event),
           fst (retry_loop E 3 0 (PyStr "message") (PyStr "+5511999999999") ∅ w)
           = true
           /\ trace (_retry_webhook E (PyStr "message")
                       (PyStr "+5511999999999") ∅ 2 w)
              = (trace w ++ evs)%list
           /\ loop_events evs
              = [EvAttempt 0 false; EvSleep 2; EvAttempt 1 false;
                 EvSleep 4; EvAttempt 2 true]
           /\ posts_made evs = 3%nat).
Proof.
  intros E w.
  destruct retry_bounded_backoff as [General Scenario].
  assert (Hurl : webhook_url E <> "") by discriminate.
  assert (Hvalid : always_valid E (PyStr "message") (PyStr "+5511999999999") ∅)
    by (intros now; vm_compute; reflexivity).
  split; [split; [lia|]|split; [exact Hurl|split; [exact Hvalid|split]]].
  - apply (General E (PyStr "message") (PyStr "+5511999999999") ∅ 2 w). lia.
  - simpl. lia.
  - apply (Scenario E (PyStr "message") (PyStr "+5511999999999") ∅ w Hurl Hvalid);
      [simpl; lia | reflexivity | reflexivity | reflexivity].
Defined.

(** ** The validation gate *)

Lemma validate_missing_or_null (data : dict) (field : string) :
  In field required_fields ->
  missing_or_null data field = true ->
  validate_webhook_data data = false.
Proof.
  intros Hin Hnull. unfold validate_webhook_data.
  assert (H : existsb (missing_or_null data) required_fields = true)
    by (apply existsb_exists; exists field; auto).
  rewrite H. reflexivity.
Qed.

Lemma validate_short_phone (data : dict) (s : string) :
  data !! "phone_number" = Some (PyStr s) ->
  (String.length s < 8)%nat ->
  validate_webhook_data data = false.
Proof.
  intros Hp Hlen. unfold validate_webhook_data.
  destruct (existsb _ _); [reflexivity|].
  rewrite Hp. unfold default. cbn [from_option id truthy len].
  destruct (String.eqb s ""); cbn [negb]; [reflexivity|].
  apply negb_false_iff, Z.ltb_lt. lia.
Qed.

Lemma is_circuit_broken_cases (w : world) :
  is_circuit_broken w = (true, w)
  \/ is_circuit_broken w = (false, w)
  \/ (breaker_open w = true /\ within_window w = false
      /\ is_circuit_broken w = (false, set_breaker 0 None w)).
Proof.
  unfold is_circuit_broken, breaker_open.
  destruct (MAX_FAILURES_BEFORE_CIRCUIT_BREAK <=? webhook_failures w)%Z;
    [destruct (within_window w)|]; auto.
Qed.

(** What [send_webhook] does with an envelope that fails validation. *)
Lemma send_webhook_invalid (E : env) (wt ph : pyval) (data : dict) (w : world) :
  validate_webhook_data (webhook_envelope E wt ph (clock w) data) = false ->
  exists w',
    send_webhook E wt ph data w = (false, w')
    /\ trace w' = trace w
    /\ (w' = w
        \/ (breaker_open w = true /\ within_window w = false
            /\ w' = set_breaker 0 None w)).
Proof.
  intros Hinv. unfold send_webhook.
  destruct (String.eqb (webhook_url E) ""); [exists w; auto|].
  destruct (is_circuit_broken_cases w) as [H|[H|(Ho & Hw & H)]]; rewrite H.
  - exists w. auto.
  - rewrite Hinv. exists w. auto.
  - change (clock (set_breaker 0 None w)) with (clock w). rewrite Hinv.
    exists (set_breaker 0 None w). auto 6.
Qed.

(** C4, as the code has it.  An envelope in which event_type,
    phone_number or timestamp is missing or null, or whose phone_number is
    a string of fewer than 8 characters, fails [validate_webhook_data].
    For such an envelope [send_webhook] returns [False] with no request
    added to the trace and no failure recorded: the world is left as it
    was, except that the breaker check, which runs before validation, has
    reset the counter to zero and cleared the stamp when it found the
    breaker Open with its window elapsed. *)
Theorem validation_gate :
  (forall (data : dict) (field : string),
      In field required_fields ->
      missing_or_null data field = true ->
      validate_webhook_data data = false)
  /\ (forall (data : dict) (s : string),
         data !! "phone_number" = Some (PyStr s) ->
         (String.length s < 8)%nat ->
         validate_webhook_data data = false)
  /\ (forall (E : env) (webhook_type phone_number : pyval) (data : dict)
             (w : world),
         validate_webhook_data
           (webhook_envelope E webhook_type phone_number (clock w) data)
         = false ->
         exists w',
           send_webhook E webhook_type phone_number data w = (false, w')
           /\ trace w' = trace w
           /\ (w' = w
               \/ (breaker_open w = true /\ within_window w = false
                   /\ w' = set_breaker 0 None w))
           /\ (breaker_open w = false -> w' = w)
           /\ webhook_failures w' <= webhook_failures w
           /\ (last_failure_time w' = last_failure_time w
               \/ last_failure_time w' = None)).
Proof.
  split; [exact validate_missing_or_null|].
  split; [exact validate_short_phone|].
  intros E wt ph data w Hinv.
  destruct (send_webhook_invalid E wt ph data w Hinv) as (w' & Hs & Htr & Hw).
  exists w'. split; [exact Hs|]. split; [exact Htr|]. split; [exact Hw|].
  destruct Hw as [->|(Ho & Hwin & ->)].
  - split; [reflexivity|]. split; [lia|]. left; reflexivity.
  - split; [intros Hc; congruence|].
    apply breaker_open_iff in Ho.
    split; [cbn; lia|]. right; reflexivity.
Qed.

Lemma validation_gate_witness :
  let E := sample_env (fails_then_ok 0) no_files in
  let w := fresh_world 1000 in
  (In "timestamp" required_fields
   /\ missing_or_null (<["timestamp" := PyNone]> ∅) "timestamp" = true
   /\ validate_webhook_data (<["timestamp" := PyNone]> ∅) = false)
  /\ ((<["phone_number" := PyStr "1234567"]> ∅ : dict) !! "phone_number"
      = Some (PyStr "1234567")
      /\ validate_webhook_data (<["phone_number" := PyStr "1234567"]> ∅) = false)
  /\ (validate_webhook_data
        (webhook_envelope E (PyStr "message") PyNone (clock w) ∅) = false
      /\ send_webhook E (PyStr "message") PyNone ∅ w = (false, w)).
Proof.
  intros E w.
  destruct validation_gate as (Missing & Short & Gate).
  split; [|split].
  - split; [cbn; auto|]. split; [reflexivity|].
    apply (Missing _ "timestamp"); [cbn; auto | reflexivity].
  - split; [reflexivity|].
    apply (Short _ "1234567"); [reflexivity | cbn; lia].
  - split; [vm_compute; reflexivity|].
    destruct (Gate E (PyStr "message") PyNone ∅ w) as (w' & Hs & _ & _ & Hw & _).
    + vm_compute; reflexivity.
    + rewrite Hs, Hw; reflexivity.
Defined.

(** The claim as the specification words it fails where the breaker is
    Open with its window elapsed: the check resets the breaker before the
    envelope is found invalid, so counter and stamp do change. *)
Lemma validation_gate_counterexample :
  ~ (forall (E : env) (webhook_type phone_number : pyval) (data : dict)
            (w : world),
        validate_webhook_data
          (webhook_envelope E webhook_type phone_number (clock w) data)
        = false ->
        fst (send_webhook E webhook_type phone_number data w) = false
        /\ webhook_failures (snd (send_webhook E webhook_type phone_number data w))
           = webhook_failures w
        /\ last_failure_time (snd (send_webhook E webhook_type phone_number data w))
           = last_failure_time w).
Proof.
  intros H.
  destruct (H (sample_env (fails_then_ok 0) no_files)
              (PyStr "message") (PyStr "123") ∅ expired_world)
    as (_ & Hcounter & _).
  - vm_compute; reflexivity.
  - vm_compute in Hcounter. discriminate.
Qed.

(** ** Accepted for retry *)

Lemma send_webhook_threads (E : env) (wt ph : pyval) (data : dict) (w : world) :
  threads (snd (send_webhook E wt ph data w)) = threads w.
Proof.
  unfold send_webhook.
  destruct (String.eqb (webhook_url E) ""); [reflexivity|].
  destruct (is_circuit_broken_cases w) as [H|[H|(_ & _ & H)]]; rewrite H;
    try reflexivity;
    (destruct (validate_webhook_data _); cbn [negb]; [|reflexivity]);
    (destruct (outcome _) as [status| | | |];
      [destruct (raise_for_status status)| | | |]; reflexivity).
Qed.

(** C5.  Every successful answer of [send_message] reports
    [webhook_sent = True].  In particular, when the message was stored and
    the immediate [send_webhook] returned [False], the answer is still
    [webhook_sent = True], and one background thread was started for the
    same event, phone number and payload with [max_retries = 2]. *)
Theorem accepted_for_retry (E : env) :
  (forall (data : send_request) (w w' : world) (m : Message) (sent : bool),
      send_message E (Some data) w = (Sent m sent, w') -> sent = true)
  /\ (forall (data : send_request) (w w2 : world) (phone : PhoneNumber)
             (m : Message) (d1 : database),
         let phone_number := str_or (sr_phone_number data) "" in
         let message_type := if ai_active phone then "ai" else "user" in
         let payload := message_webhook_data E data message_type phone m in
         str_truthy (sr_phone_number data) = true ->
         get_phone_by_number phone_number (db w) = Some phone ->
         create_message (int_of_str E) phone_number (sr_content data)
           message_type (sr_attachment_url data) (sr_attachment_full_url data)
           (sr_attachment_name data) (sr_attachment_type data)
           (sr_attachment_size data) (db w) = (Some m, d1) ->
         send_webhook E (PyStr "message") (PyStr phone_number) payload
           (set_db d1 w) = (false, w2) ->
         exists w',
           send_message E (Some data) w = (Sent m true, w')
           /\ threads w'
              = (threads w
                 ++ [{| task_type := PyStr "message";
                        task_phone := PyStr phone_number;
                        task_data := payload;
                        task_max_retries := 2 |}])%list
           /\ trace w' = trace w2
           /\ db w' = d1).
Proof.
  split.
  - intros data w w' m sent H. unfold send_message in H.
    destruct (negb (str_truthy (sr_phone_number data))); [discriminate|].
    destruct (negb (str_truthy (sr_content data))
              && negb (str_truthy (sr_attachment_url data)))%bool;
      [discriminate|].
    destruct (get_phone_by_number _ (db w)) as [phone|]; [|discriminate].
    destruct (create_message _ _ _ _ _ _ _ _ _ _) as [[message|] d1];
      [|discriminate].
    destruct (send_webhook _ _ _ _ _) as [[|] w2];
      injection H as _ <- _; reflexivity.
  - intros data w w2 phone m d1 phone_number message_type payload
      Hpn Hphone Hcreate Hsend.
    assert (Hc : (negb (str_truthy (sr_content data))
                  && negb (str_truthy (sr_attachment_url data)))%bool = false).
    { unfold create_message in Hcreate.
      destruct (validate_message_type message_type); cbn [negb] in Hcreate;
        [|discriminate].
      destruct (negb (str_truthy (sr_content data))
                && negb (str_truthy (sr_attachment_url data)))%bool;
        [discriminate|reflexivity]. }
    unfold send_message. rewrite Hpn. cbn [negb]. rewrite Hc.
    fold phone_number. rewrite Hphone.
    fold message_type. rewrite Hcreate.
    fold payload. rewrite Hsend.
    eexists. split; [reflexivity|].
    pose proof (send_webhook_threads E (PyStr "message") (PyStr phone_number)
                  payload (set_db d1 w)) as Ht.
    pose proof (send_webhook_db E (PyStr "message") (PyStr phone_number)
                  payload (set_db d1 w)) as Hd.
    rewrite Hsend in Ht, Hd. cbn [snd] in Ht, Hd.
    split; [|split].
    + cbn. rewrite Ht. reflexivity.
    + reflexivity.
    + cbn. rewrite Hd. reflexivity.
Qed.

Lemma accepted_for_retry_witness :
  let E := sample_env (fails_then_ok 5) no_files in
  let data := text_request "+5511999999999" "hello" in
  let w := scenario_world false in
  exists (m : Message) (w' : world),
    send_message E (Some data) w = (Sent m true, w')
    /\ type m = "user"
    /\ posts_made (trace w') = 1%nat
    /\ webhook_failures w' = 1
    /\ List.map task_max_retries (threads w') = [2].
Proof.
  intros E data w.
  destruct (accepted_for_retry E) as [Reported Scheduled].
  destruct (create_message (int_of_str E) "+5511999999999" (Some "hello")
              "user" None None None None PyNone (db w))
    as [m d1] eqn:Hcreate.
  vm_compute in Hcreate. injection Hcreate as <- <-.
  edestruct (Scheduled data w) as (w' & Hs & Hth & Htr & Hdb);
    [reflexivity | vm_compute; reflexivity | vm_compute; reflexivity
    | vm_compute; reflexivity |].
  eexists _, w'. split; [exact Hs|].
  split; [reflexivity|].
  split; [rewrite Htr; vm_compute; reflexivity|].
  split; [|rewrite Hth; reflexivity].
  pose proof (Reported data w w' _ true Hs) as _.
  apply (f_equal (fun r => webhook_failures (snd r))) in Hs.
  cbn [snd] in Hs. rewrite <- Hs. vm_compute. reflexivity.
Defined.

(** ** Envelope merge precedence *)

Lemma webhook_envelope_payload (E : env) (wt ph : pyval) (now : Z)
    (data : dict) (k : string) (v : pyval) :
  data !! k = Some v ->
  webhook_envelope E wt ph now data !! k = Some v.
Proof.
  intros H. unfold webhook_envelope, dict_merge.
  apply lookup_union_Some_l, H.
Qed.

Lemma webhook_envelope_generated (E : env) (wt ph : pyval) (now : Z)
    (data : dict) (k : string) :
  data !! k = None ->
  webhook_envelope E wt ph now data !! k
  = (<["timestamp" := PyStr (isoformat E now)]>
       (<["phone_number" := ph]> (<["event_type" := wt]> ∅)) : dict) !! k.
Proof.
  intros H. unfold webhook_envelope, dict_merge.
  apply lookup_union_r, H.
Qed.

(** C9.  When the payload holds one of the keys event_type, phone_number
    or timestamp, the envelope carries the payload's value under that key,
    not the generated one; and this envelope is the dict that is validated
    (an envelope that fails makes [send_webhook] return [False] without a
    request) and the body of the POST (the one event added to the trace).
    Stated with an endpoint configured and the breaker Closed, where
    [send_webhook] reaches both steps. *)
Theorem envelope_merge_precedence (E : env) (webhook_type phone_number : pyval)
    (data : dict) (w : world) (k : string) (v : pyval) :
  In k required_fields ->
  data !! k = Some v ->
  webhook_url E <> "" ->
  breaker_open w = false ->
  let body := webhook_envelope E webhook_type phone_number (clock w) data in
  body !! k = Some v
  /\ (validate_webhook_data body = false ->
      send_webhook E webhook_type phone_number data w = (false, w))
  /\ (validate_webhook_data body = true ->
      exists (ok : bool) (w' : world),
        send_webhook E webhook_type phone_number data w = (ok, w')
        /\ trace w'
           = (trace w ++ [EvPost (webhook_url E) body (webhook_timeout E)])%list).
Proof.
  intros _ Hk Hurl Hclosed body.
  split; [apply webhook_envelope_payload, Hk|].
  split.
  - intros Hinv.
    destruct (send_webhook_invalid E webhook_type phone_number data w Hinv)
      as (w' & Hs & _ & [->|(Ho & _)]); [exact Hs | congruence].
  - intros Hval. unfold send_webhook.
    destruct (String.eqb_spec (webhook_url E) "") as [Heq|_]; [contradiction|].
    rewrite (is_circuit_broken_closed w Hclosed).
    fold body. rewrite Hval. cbn [negb].
    destruct (outcome _) as [status| | | |];
      [destruct (raise_for_status status)| | | |];
      eexists _, _; (split; [reflexivity|]); reflexivity.
Qed.

Lemma envelope_merge_precedence_witness :
  let E := sample_env (fails_then_ok 0) no_files in
  let w := fresh_world 1000 in
  let spoofed : dict := <["event_type" := PyStr "spoofed"]> ∅ in
  let short : dict := <["phone_number" := PyStr "123"]> ∅ in
  (exists (ok : bool) (w' : world),
      send_webhook E (PyStr "message") (PyStr "+5511999999999") spoofed w
      = (ok, w')
      /\ trace w'
         = [EvPost (webhook_url E)
              (webhook_envelope E (PyStr "message") (PyStr "+5511999999999")
                 1000 spoofed)
              (webhook_timeout E)]
      /\ webhook_envelope E (PyStr "message") (PyStr "+5511999999999")
           1000 spoofed !! "event_type" = Some (PyStr "spoofed"))
  /\ send_webhook E (PyStr "message") (PyStr "+5511999999999") short w
     = (false, w).
Proof.
  intros E w spoofed short.
  assert (Hurl : webhook_url E <> "") by discriminate.
  split.
  - destruct (envelope_merge_precedence E (PyStr "message")
                (PyStr "+5511999999999") spoofed w "event_type"
                (PyStr "spoofed"))
      as (Hbody & _ & Hpost);
      [cbn; auto | reflexivity | exact Hurl | reflexivity |].
    destruct Hpost as (ok & w' & Hs & Htr); [vm_compute; reflexivity|].
    exists ok, w'. split; [exact Hs|]. split; [exact Htr | exact Hbody].
  - destruct (envelope_merge_precedence E (PyStr "message")
                (PyStr "+5511999999999") short w "phone_number" (PyStr "123"))
      as (_ & Hinvalid & _);
      [cbn; auto | reflexivity | exact Hurl | reflexivity |].
    apply Hinvalid. vm_compute; reflexivity.
Defined.

(** ** Double recording in the retry path *)

(** A call of [send_webhook] that returns [True] posted, and recorded the
    success once on the counter the breaker check left. *)
Lemma send_webhook_success_counter (E : env) (wt ph : pyval) (data : dict)
    (w w2 : world) :
  send_webhook E wt ph data w = (true, w2) ->
  webhook_failures w2
  = Z.max 0 (webhook_failures (snd (is_circuit_broken w)) - 1).
Proof.
  unfold send_webhook.
  destruct (String.eqb (webhook_url E) ""); [discriminate|].
  destruct (is_circuit_broken w) as [[|] w1]; [discriminate|].
  destruct (validate_webhook_data _); cbn [negb]; [|discriminate].
  destruct (outcome _) as [status| | | |];
    [destruct (raise_for_status status)| | | |];
    try discriminate.
  intros H. injection H as <-. reflexivity.
Qed.

(** A loop that ends in success ends right after a call of [send_webhook]
    that returned [True], with one more success recorded on top of it. *)
Lemma retry_loop_success_inv (E : env) (wt ph : pyval) (data : dict) :
  forall (remaining : nat) (attempt : Z) (w w' : world),
    retry_loop E remaining attempt wt ph data w = (true, w') ->
    exists (w1 w2 : world) (a : Z),
      send_webhook E wt ph data w1 = (true, w2)
      /\ w' = record_webhook_result true (emit (EvAttempt a true) w2).
Proof.
  induction remaining as [|n IH]; intros attempt w w' H; [discriminate|].
  cbn [retry_loop] in H.
  destruct (send_webhook E wt ph data _) as [[|] w2] eqn:Hs.
  - injection H as <-. eexists _, w2, attempt. split; [exact Hs | reflexivity].
  - apply IH in H. exact H.
Qed.

(** C10.  When the thread body ends in success, the successful call of
    [send_webhook] has already recorded the success (one decrement,
    floored at zero, of the counter its breaker check left) and the body
    records it once more (a second floored decrement).  When every attempt
    fails, the body records one failure on top of what the calls recorded:
    the counter is one above its value at the end of the loop and the
    stamp is the clock then.  With deliveries going out (endpoint
    configured, envelope valid, breaker staying Closed): [k] failed POSTs
    followed by a success leave the counter at
    [max(0, max(0, c + k - 1) - 1)], and [max_retries + 1] failed POSTs
    leave it at [c + max_retries + 2]. *)
Theorem retry_records_result_twice (E : env) (webhook_type phone_number : pyval)
    (data : dict) (max_retries : Z) (w : world) :
  let loop := retry_loop E (Z.to_nat (max_retries + 1)) 0 webhook_type
                phone_number data w in
  let final := _retry_webhook E webhook_type phone_number data max_retries w in
  (fst loop = true ->
   exists (w1 w2 : world),
     send_webhook E webhook_type phone_number data w1 = (true, w2)
     /\ webhook_failures w2
        = Z.max 0 (webhook_failures (snd (is_circuit_broken w1)) - 1)
     /\ webhook_failures final = Z.max 0 (webhook_failures w2 - 1))
  /\ (fst loop = false ->
      webhook_failures final = webhook_failures (snd loop) + 1
      /\ last_failure_time final = Some (clock (snd loop)))
  /\ (webhook_url E <> "" ->
      always_valid E webhook_type phone_number data ->
      forall k : nat,
        Z.of_nat k <= max_retries ->
        webhook_failures w + Z.of_nat k < 5 ->
        (forall i, (i < k)%nat ->
                   reply_ok (endpoint E (posts_made (trace w) + i)) = false) ->
        reply_ok (endpoint E (posts_made (trace w) + k)) = true ->
        webhook_failures final
        = Z.max 0 (Z.max 0 (webhook_failures w + Z.of_nat k - 1) - 1)
        /\ posts_made (trace final) = (posts_made (trace w) + S k)%nat)
  /\ (webhook_url E <> "" ->
      always_valid E webhook_type phone_number data ->
      0 <= max_retries ->
      webhook_failures w + max_retries + 1 <= 5 ->
      (forall i, (Z.of_nat i <= max_retries) ->
                 reply_ok (endpoint E (posts_made (trace w) + i)) = false) ->
      webhook_failures final = webhook_failures w + (max_retries + 1) + 1
      /\ posts_made (trace final)
         = (posts_made (trace w) + Z.to_nat (max_retries + 1))%nat).
Proof.
  intros loop final. split; [|split; [|split]].
  - intros Hok. subst loop final. unfold _retry_webhook.
    destruct (retry_loop E _ 0 webhook_type phone_number data w)
      as [success w'] eqn:Hrun.
    cbn [fst] in Hok. subst success.
    destruct (retry_loop_success_inv E _ _ _ _ _ _ _ Hrun)
      as (w1 & w2 & a & Hs & ->).
    exists w1, w2. split; [exact Hs|]. split; [|reflexivity].
    apply (send_webhook_success_counter E _ _ _ _ _ Hs).
  - intros Hfail. subst loop final. unfold _retry_webhook.
    destruct (retry_loop E _ 0 webhook_type phone_number data w)
      as [success w'].
    cbn [fst] in Hfail. subst success. split; reflexivity.
  - intros Hurl Hvalid k Hk Hf Hfails Hok. subst final.
    destruct (retry_loop_fails_then_ok E webhook_type phone_number data
                Hurl Hvalid k (Z.to_nat (max_retries + 1)) 0 w)
      as (evs & w' & Hrun & Htr & _ & Hposts & Hcnt);
      [lia | exact Hf | exact Hfails | exact Hok |].
    unfold _retry_webhook. rewrite Hrun. split; [exact Hcnt|].
    rewrite Htr, posts_made_app, Hposts. reflexivity.
  - intros Hurl Hvalid Hmr Hf Hfails. subst final.
    destruct (retry_loop_all_fail E webhook_type phone_number data
                Hurl Hvalid (Z.to_nat (max_retries + 1)) 0 w)
      as (evs & w' & Hrun & Htr & _ & Hposts & Hcnt).
    + lia.
    + intros i Hi. apply Hfails. lia.
    + unfold _retry_webhook. rewrite Hrun. split.
      * cbn. rewrite Hcnt. lia.
      * change (trace (record_webhook_result false w')) with (trace w').
        rewrite Htr, posts_made_app, Hposts. reflexivity.
Qed.

Lemma retry_records_result_twice_witness :
  let ok_later := sample_env (fails_then_ok 2) no_files in
  let never := sample_env (fails_then_ok 100) no_files in
  let w := fresh_world 1000 in
  (webhook_failures
     (_retry_webhook ok_later (PyStr "message") (PyStr "+5511999999999") ∅ 2 w)
   = 0
   /\ posts_made
        (trace (_retry_webhook ok_later (PyStr "message")
                  (PyStr "+5511999999999") ∅ 2 w)) = 3%nat)
  /\ (webhook_failures
        (_retry_webhook never (PyStr "message") (PyStr "+5511999999999") ∅ 2 w)
      = 4
      /\ posts_made
           (trace (_retry_webhook never (PyStr "message")
                     (PyStr "+5511999999999") ∅ 2 w)) = 3%nat)
  /\ (exists w1 w2 : world,
         send_webhook ok_later (PyStr "message") (PyStr "+5511999999999") ∅ w1
         = (true, w2)
         /\ webhook_failures w2
            = Z.max 0 (webhook_failures (snd (is_circuit_broken w1)) - 1)
         /\ webhook_failures
              (_retry_webhook ok_later (PyStr "message")
                 (PyStr "+5511999999999") ∅ 2 w)
            = Z.max 0 (webhook_failures w2 - 1)).
Proof.
  intros ok_later never w.
  assert (Hvalid : forall E' : nat -> reply,
             always_valid (sample_env E' no_files) (PyStr "message")
               (PyStr "+5511999999999") ∅)
    by (intros E' now; vm_compute; reflexivity).
  destruct (retry_records_result_twice ok_later (PyStr "message")
              (PyStr "+5511999999999") ∅ 2 w) as (Twice & _ & Live & _).
  destruct (retry_records_result_twice never (PyStr "message")
              (PyStr "+5511999999999") ∅ 2 w) as (_ & Extra & _ & Dead).
  split; [|split].
  - apply (Live ltac:(discriminate) (Hvalid _) 2%nat);
      [lia | simpl; lia | | reflexivity].
    intros i Hi. destruct i as [|[|i]]; [reflexivity | reflexivity | lia].
  - apply (Dead ltac:(discriminate) (Hvalid _)); [lia | simpl; lia |].
    intros i Hi. destruct i as [|[|[|i]]]; [reflexivity.. | lia].
  - apply Twice. vm_compute; reflexivity.
Defined.

(** ** The attachment cleaner *)

Lemma mem_In (x : string) (xs : list string) :
  Str.mem x xs = true <-> In x xs.
Proof.
  unfold Str.mem. rewrite existsb_exists. split.
  - intros (y & Hy & Heq). apply String.eqb_eq in Heq. subst. exact Hy.
  - intros H. exists x. split; [exact H | apply String.eqb_refl].
Qed.

Lemma clean_size_positive (ios : string -> option Z) (v : pyval) (n : Z) :
  clean_size ios v = Some (Some n) -> 0 < n.
Proof.
  unfold clean_size.
  assert (H : forall r, match r with
                        | IntOk size => Some (if (0 <? size)%Z then Some size else None)
                        | IntValueError | IntTypeError => Some None
                        | IntOverflowError => None
                        end = Some (Some n) -> 0 < n).
  { intros [size| | |]; try discriminate.
    destruct (0 <? size)%Z eqn:Hpos; [|discriminate].
    intros H. injection H as <-. apply Z.ltb_lt, Hpos. }
  destruct v; try discriminate; apply H.
Qed.

Lemma clean_size_returns (ios : string -> option Z) (v : pyval) :
  (forall b, v <> PyInf b) -> exists r, clean_size ios v = Some r.
Proof.
  intros Hfinite. unfold clean_size.
  destruct v as [|b|z|q|b| |s|l|l]; cbn [Py.int]; eauto.
  - exfalso. apply (Hfinite b). reflexivity.
  - destruct (ios s); eauto.
Qed.

Lemma clean_attachment_returns (ios : string -> option Z)
    (au afu an aty : option string) (asz : pyval) :
  (forall b, asz <> PyInf b) ->
  exists c, _clean_attachment_data ios au afu an aty asz = Some c.
Proof.
  intros Hfinite. unfold _clean_attachment_data.
  destruct au as [url|]; [|eauto].
  destruct (String.eqb url ""); [eauto|].
  destruct (clean_size_returns ios asz Hfinite) as [r ->]. eauto.
Qed.

(** C8, as the code has it.  Without a url (absent or empty) the cleaner
    returns no attachment.  With one, the type it returns is the input
    type when that is one of image, video, audio, pdf, document, file, and
    'file' otherwise (a missing type included); the size it returns is
    absent or a positive integer: an integer input is kept when positive
    and dropped otherwise, a non-integer input goes through [int()], so a
    float is truncated towards zero and kept when the result is positive,
    and an input on which [int()] raises [ValueError] or [TypeError] is
    dropped.  The cleaner returns for every input but an infinite float
    size. *)
Theorem attachment_cleaner_invariant (ios : string -> option Z) :
  (forall (full name ty : option string) (sz : pyval),
      _clean_attachment_data ios None full name ty sz = Some no_attachment
      /\ _clean_attachment_data ios (Some "") full name ty sz
         = Some no_attachment)
  /\ (forall (url : string) (full name ty : option string) (sz : pyval)
             (c : cleaned),
         url <> "" ->
         _clean_attachment_data ios (Some url) full name ty sz = Some c ->
         c_attachment_type c
         = Some (match ty with
                 | Some t => if Str.mem t valid_types then t else "file"
                 | None => "file"
                 end)
         /\ (exists t, c_attachment_type c = Some t /\ In t valid_types)
         /\ match c_attachment_size c with
            | Some n => 0 < n
            | None => True
            end
         /\ (forall n, sz = PyInt n ->
                       c_attachment_size c
                       = if (0 <? n)%Z then Some n else None)
         /\ (forall q, sz = PyFloat q ->
                       c_attachment_size c
                       = if (0 <? Z.quot (Qnum q) (Z.pos (Qden q)))%Z
                         then Some (Z.quot (Qnum q) (Z.pos (Qden q)))
                         else None)
         /\ (Py.int ios sz = IntValueError \/ Py.int ios sz = IntTypeError ->
             c_attachment_size c = None))
  /\ (forall (url : string) (full name ty : option string) (sz : pyval),
         (forall b, sz <> PyInf b) ->
         exists c, _clean_attachment_data ios (Some url) full name ty sz
                   = Some c).
Proof.
  split; [|split].
  - intros full name ty sz. split; reflexivity.
  - intros url full name ty sz c Hurl H.
    unfold _clean_attachment_data in H.
    destruct (String.eqb_spec url "") as [Heq|_]; [contradiction|].
    destruct (clean_size ios sz) as [c_size|] eqn:Hsize; [|discriminate].
    injection H as <-. cbn [c_attachment_type c_attachment_size].
    assert (Hty : clean_type ty
                  = match ty with
                    | Some t => if Str.mem t valid_types then t else "file"
                    | None => "file"
                    end).
    { unfold clean_type. destruct ty as [t|]; [|reflexivity].
      destruct (String.eqb_spec t "") as [->|_]; reflexivity. }
    rewrite Hty. split; [reflexivity|]. split; [|split; [|split; [|split]]].
    + eexists. split; [reflexivity|].
      destruct ty as [t|]; [|cbn; auto 7].
      destruct (Str.mem t valid_types) eqn:Hmem; [|cbn; auto 7].
      apply mem_In, Hmem.
    + destruct c_size as [n|]; [|exact I].
      apply (clean_size_positive ios sz n Hsize).
    + intros n ->. cbn in Hsize. injection Hsize as <-. reflexivity.
    + intros q ->. cbn in Hsize. injection Hsize as <-. reflexivity.
    + intros Herr. unfold clean_size in Hsize.
      destruct sz; cbn [Py.int] in *;
        try (destruct Herr; discriminate);
        try (injection Hsize as <-; reflexivity).
      destruct (ios s); [destruct Herr; discriminate|].
      injection Hsize as <-. reflexivity.
  - intros url full name ty sz Hfinite.
    apply clean_attachment_returns, Hfinite.
Qed.

Lemma attachment_cleaner_invariant_witness :
  "/chat/uploads/sheet.xlsx" <> ""
  /\ (exists c,
         _clean_attachment_data decimal_int_of_str
           (Some "/chat/uploads/sheet.xlsx") None None (Some "spreadsheet")
           (PyInt (-5)) = Some c
         /\ c_attachment_type c = Some "file"
         /\ c_attachment_size c = None)
  /\ (exists c,
         _clean_attachment_data decimal_int_of_str
           (Some "/chat/uploads/photo.png") None None (Some "image")
           (PyInt 2048) = Some c
         /\ c_attachment_type c = Some "image"
         /\ c_attachment_name c = Some "image"
         /\ c_attachment_size c = Some 2048)
  /\ _clean_attachment_data decimal_int_of_str None None (Some "photo.png")
       (Some "image") (PyInt 2048) = Some no_attachment.
Proof.
  destruct (attachment_cleaner_invariant decimal_int_of_str)
    as (NoUrl & Invariant & Returns).
  split; [discriminate|]. split; [|split].
  - destruct (Returns "/chat/uploads/sheet.xlsx" None None (Some "spreadsheet")
                (PyInt (-5))) as [c Hc]; [discriminate|].
    exists c. split; [exact Hc|].
    destruct (Invariant "/chat/uploads/sheet.xlsx" None None
                (Some "spreadsheet") (PyInt (-5)) c ltac:(discriminate) Hc)
      as (Hty & _ & _ & Hint & _).
    split; [exact Hty | exact (Hint (-5) eq_refl)].
  - destruct (Returns "/chat/uploads/photo.png" None None (Some "image")
                (PyInt 2048)) as [c Hc]; [discriminate|].
    exists c. split; [exact Hc|].
    destruct (Invariant "/chat/uploads/photo.png" None None (Some "image")
                (PyInt 2048) c ltac:(discriminate) Hc)
      as (Hty & _ & _ & Hint & _).
    split; [exact Hty|]. split; [|exact (Hint 2048 eq_refl)].
    vm_compute in Hc. injection Hc as <-. reflexivity.
  - apply NoUrl.
Defined.

(** The claim as the specification words it fails on a non-integer size
    that [int()] converts: 3.7 is stored as 3. *)
Lemma attachment_size_counterexample :
  ~ (forall (ios : string -> option Z) (url : string)
            (full name ty : option string) (sz : pyval) (c : cleaned),
        url <> "" ->
        _clean_attachment_data ios (Some url) full name ty sz = Some c ->
        (forall n, sz <> PyInt n) ->
        c_attachment_size c = None).
Proof.
  intros H.
  specialize (H decimal_int_of_str "/chat/uploads/photo.png" None None
                (Some "image") (PyFloat (37 # 10))
                {| c_attachment_url := Some "/chat/uploads/photo.png";
                   c_attachment_full_url := Some "/chat/uploads/photo.png";
                   c_attachment_name := Some "image";
                   c_attachment_type := Some "image";
                   c_attachment_size := Some 3 |}).
  cbn [c_attachment_size] in H.
  assert (Hc : Some 3 = @None Z); [|discriminate Hc].
  apply H; [discriminate | vm_compute; reflexivity | intros n; discriminate].
Qed.

(** ** Conversation auto-creation *)

Lemma find_app_None {A : Type} (f : A -> bool) (l l' : list A) :
  List.find f l = None -> List.find f (l ++ l') = List.find f l'.
Proof.
  induction l as [|x l IH]; [reflexivity|]. cbn.
  destruct (f x); [discriminate | exact IH].
Qed.

(** Creating a phone number that has no row adds one, automation off, and
    a lookup finds it from then on. *)
Lemma create_phone_number_new (n : string) (d : database) :
  db_up d = true ->
  get_phone_by_number n d = None ->
  exists (p : PhoneNumber) (d' : database),
    create_phone_number n d = (Some p, d')
    /\ number p = n /\ ai_active p = false
    /\ get_phone_by_number n d' = Some p
    /\ db_up d' = true
    /\ messages d' = messages d
    /\ next_message_id d' = next_message_id d.
Proof.
  intros Hup Hnone. unfold create_phone_number. rewrite Hnone, Hup.
  eexists _, _. split; [reflexivity|]. cbn.
  repeat split; try exact Hup.
  unfold get_phone_by_number in *. cbn. rewrite Hup in *.
  rewrite (find_app_None _ _ _ Hnone). cbn.
  rewrite String.eqb_refl. reflexivity.
Qed.


Lemma str_truthy_str_or (x : option string) :
  str_truthy x = true -> str_truthy (Some (str_or x "")) = true.
Proof.
  destruct x as [s|]; [|discriminate]. cbn.
  destruct (String.eqb s "") eqn:He; [discriminate|].
  rewrite He. reflexivity.
Qed.

(** A download touches the upload directory only, and a file it saved is
    served under [/chat/uploads/]. *)
Lemma download_attachment_enhanced_facts (E : env) (url : string)
    (original_filename original_type : option string) (original_size : pyval)
    (w : world) :
  let r := download_attachment_enhanced E url original_filename original_type
             original_size w in
  db (snd r) = db w
  /\ forall d, fst r = DownloadOk d ->
               dl_url d = "/chat/uploads/" ++ dl_unique_filename d.
Proof.
  cbv zeta. unfold download_attachment_enhanced.
  destruct (http_get E url) as [|r]; [split; [reflexivity | discriminate]|].
  destruct (declared_size E r original_size) as [file_size| | |];
    try (split; [reflexivity | discriminate]).
  destruct (MAX_UPLOAD_SIZE <? file_size)%Z;
    [split; [reflexivity | discriminate]|].
  match goal with
  | |- context [match ?c with Some _ => _ | None => _ end] =>
      destruct c as [filename|]
  end; [|split; [reflexivity | discriminate]].
  split; [reflexivity|].
  intros d Hd. cbn [fst] in Hd. injection Hd as <-. reflexivity.
Qed.

Lemma process_attachment_facts (E : env) (data : receive_request) (w : world) :
  let r := process_attachment E data w in
  db (snd r) = db w
  /\ str_truthy (final_attachment_url (fst r))
     = str_truthy (rr_attachment_url data)
  /\ ((forall b, rr_attachment_size data <> PyInf b) ->
      forall b, final_attachment_size (fst r) <> PyInf b).
Proof.
  cbv zeta. unfold process_attachment.
  destruct (str_truthy (rr_attachment_url data)) eqn:Hurl; cbn [negb].
  2:{ split; [reflexivity|]. split; [reflexivity|]. intros _ b; discriminate. }
  pose proof (str_truthy_str_or _ Hurl) as Hor.
  destruct (Str.startswith "/chat/uploads/" _).
  { cbn [fst snd final_attachment_url final_attachment_size].
    split; [reflexivity|]. split; [exact Hor|].
    intros _ b. destruct (uploads w !! _); discriminate. }
  pose proof (download_attachment_enhanced_facts E
                (str_or (rr_attachment_url data) "")
                (rr_attachment_name data) (rr_attachment_type data)
                (rr_attachment_size data) w) as [Hdb Hok].
  destruct (download_attachment_enhanced E _ _ _ _ w) as [[why|d] w1];
    cbn [fst snd final_attachment_url final_attachment_size] in *.
  - split; [exact Hdb|]. split; [exact Hor|]. auto.
  - split; [exact Hdb|]. split; [|discriminate].
    rewrite (Hok d eq_refl). reflexivity.
Qed.




(** ** The download ceiling *)

(** The ceiling is applied: a declared size above it fails the download
    and nothing is saved. *)
Lemma download_declared_too_large (E : env) (url : string)
    (original_filename original_type : option string) (original_size : pyval)
    (w : world) (r : remote_file) (declared : Z) :
  http_get E url = GetOk r ->
  declared_size E r original_size = IntOk declared ->
  MAX_UPLOAD_SIZE < declared ->
  download_attachment_enhanced E url original_filename original_type
    original_size w = (DownloadFailed (FileTooLarge declared), w).
Proof.
  intros Hget Hdecl Hbig. unfold download_attachment_enhanced.
  rewrite Hget, Hdecl.
  apply Z.ltb_lt in Hbig. rewrite Hbig. reflexivity.
Qed.

(** But it is applied to the declared size only: what a successful
    download wrote is the whole body, whatever its length. *)
Lemma download_saves_whole_body (E : env) (url : string)
    (original_filename original_type : option string) (original_size : pyval)
    (w w' : world) (d : downloaded) :
  download_attachment_enhanced E url original_filename original_type
    original_size w = (DownloadOk d, w') ->
  exists (r : remote_file) (declared : Z),
    http_get E url = GetOk r
    /\ declared_size E r original_size = IntOk declared
    /\ declared <= MAX_UPLOAD_SIZE
    /\ dl_size d = body_size r
    /\ uploads w' !! dl_unique_filename d = Some (body_size r).
Proof.
  unfold download_attachment_enhanced.
  destruct (http_get E url) as [|r]; [discriminate|].
  destruct (declared_size E r original_size) as [declared| | |] eqn:Hdecl;
    try discriminate.
  destruct (MAX_UPLOAD_SIZE <? declared)%Z eqn:Hbig; [discriminate|].
  match goal with
  | |- context [match ?c with Some _ => _ | None => _ end] =>
      destruct c as [filename|]
  end; [|discriminate].
  intros H. injection H as <- <-.
  exists r, declared. split; [reflexivity|]. split; [exact Hdecl|].
  split; [apply Z.ltb_ge, Hbig|]. split; [reflexivity|].
  cbn [dl_unique_filename uploads set_uploads]. apply lookup_insert_eq.
Qed.

(** C6 fails on the code.  A remote file of 50 MiB and one byte, served
    without a Content-Length header and announced without a size, is
    downloaded: the declared size reads as 0, the check passes, every
    chunk is written, and the result is a success whose size is above the
    ceiling.  Through [receive_message] the message is stored with the
    local copy as its attachment. *)
Theorem oversized_download_is_saved :
  let E := sample_env (fails_then_ok 0) chunked_host in
  let w := fresh_world 1000 in
  (exists (d : downloaded) (w' : world),
      download_attachment_enhanced E "https://cdn.example/clip.mp4"
        (Some "clip.mp4") (Some "video") PyNone w = (DownloadOk d, w')
      /\ dl_size d = 52428801
      /\ MAX_UPLOAD_SIZE < dl_size d
      /\ uploads w' !! dl_unique_filename d = Some 52428801)
  /\ (exists (m : Message) (w' : world),
         receive_message E (Some clip_received) w = (Received m true true, w')
         /\ attachment_size m = Some 52428801
         /\ attachment_url m = Some "/chat/uploads/upload0.mp4"
         /\ uploads w' !! "upload0.mp4" = Some 52428801).
Proof.
  intros E w. split.
  - eexists _, _. split; [vm_compute; reflexivity|].
    split; [reflexivity|]. split; [reflexivity|]. vm_compute. reflexivity.
  - eexists _, _. split; [vm_compute; reflexivity|].
    split; [reflexivity|]. split; [reflexivity|]. vm_compute. reflexivity.
Qed.

(** * Further properties *)

(** ** The breaker and the delivery, beyond the claims *)

(** The three ways a call of [send_webhook] can go: it returns early with
    the world as it was; it returns early after the check reset an expired
    breaker; or it posts a valid envelope, from the world the check left,
    and records the result. *)
Lemma send_webhook_cases (E : env) (wt ph : pyval) (data : dict) (w : world) :
  send_webhook E wt ph data w = (false, w)
  \/ (breaker_open w = true /\ within_window w = false
      /\ send_webhook E wt ph data w = (false, set_breaker 0 None w))
  \/ (exists w1,
         (w1 = w /\ breaker_open w = false
          \/ w1 = set_breaker 0 None w /\ breaker_open w = true
             /\ within_window w = false)
         /\ webhook_url E <> ""
         /\ validate_webhook_data (webhook_envelope E wt ph (clock w) data)
            = true
         /\ send_webhook E wt ph data w
            = (reply_ok (endpoint E (posts_made (trace w))),
               post_step E (webhook_envelope E wt ph (clock w) data) w1)).
Proof.
  unfold send_webhook.
  destruct (String.eqb_spec (webhook_url E) "") as [Heq|Hurl]; [auto|].
  assert (Hpost : forall w1, trace w1 = trace w -> clock w1 = clock w ->
            (let r := endpoint E (posts_made (trace w1)) in
             let w2 := advance (latency r)
                         (emit (EvPost (webhook_url E)
                                  (webhook_envelope E wt ph (clock w1) data)
                                  (webhook_timeout E)) w1) in
             match outcome r with
             | Responded status =>
                 if raise_for_status status
                 then (false, record_webhook_result false w2)
                 else (true, record_webhook_result true w2)
             | _ => (false, record_webhook_result false w2)
             end)
            = (reply_ok (endpoint E (posts_made (trace w))),
               post_step E (webhook_envelope E wt ph (clock w) data) w1)).
  { intros w1 Htr Hck. cbv zeta. unfold post_step, reply_ok.
    rewrite Htr, Hck.
    destruct (outcome _) as [status| | | |];
      [destruct (raise_for_status status)| | | |]; reflexivity. }
  destruct (breaker_open w) eqn:Ho; [destruct (within_window w) eqn:Hw|].
  - rewrite (is_circuit_broken_open w Ho Hw). auto.
  - rewrite (is_circuit_broken_reset w Ho Hw).
    change (clock (set_breaker 0 None w)) with (clock w).
    destruct (validate_webhook_data _) eqn:Hv; cbn [negb]; [|auto].
    right; right. exists (set_breaker 0 None w). split; [auto|].
    split; [exact Hurl|]. split; [reflexivity|].
    apply (Hpost (set_breaker 0 None w) eq_refl eq_refl).
  - rewrite (is_circuit_broken_closed w Ho).
    destruct (validate_webhook_data _) eqn:Hv; cbn [negb]; [|auto].
    right; right. exists w. split; [auto|].
    split; [exact Hurl|]. split; [reflexivity|].
    apply (Hpost w eq_refl eq_refl).
Qed.

Lemma breaker_wf_record (b : bool) (w : world) :
  breaker_wf w -> breaker_wf (record_webhook_result b w).
Proof.
  intros [Hnn Hst]. unfold breaker_wf, record_webhook_result.
  destruct b; cbn.
  - split; [lia|]. intros Hpos. apply Hst. lia.
  - split; [lia|]. intros _. eauto.
Qed.

Lemma breaker_wf_reset (w : world) : breaker_wf (set_breaker 0 None w).
Proof. unfold breaker_wf. cbn. split; [lia|]. intros H. lia. Qed.

Lemma breaker_wf_frame (w w' : world) :
  webhook_failures w' = webhook_failures w ->
  last_failure_time w' = last_failure_time w ->
  breaker_wf w -> breaker_wf w'.
Proof. unfold breaker_wf. intros -> ->. auto. Qed.

Lemma breaker_wf_post_step (E : env) (body : dict) (w : world) :
  breaker_wf w -> breaker_wf (post_step E body w).
Proof.
  intros H. unfold post_step. apply breaker_wf_record.
  apply (breaker_wf_frame w); [reflexivity | reflexivity | exact H].
Qed.

Lemma breaker_wf_send_webhook (E : env) (wt ph : pyval) (data : dict)
    (w : world) :
  breaker_wf w -> breaker_wf (snd (send_webhook E wt ph data w)).
Proof.
  intros H.
  destruct (send_webhook_cases E wt ph data w)
    as [Hs|[(_ & _ & Hs)|(w1 & Hw1 & _ & _ & Hs)]]; rewrite Hs; cbn [snd].
  - exact H.
  - apply breaker_wf_reset.
  - apply breaker_wf_post_step.
    destruct Hw1 as [[-> _]|(-> & _)]; [exact H | apply breaker_wf_reset].
Qed.

(** Whatever every step of the loop keeps, the loop keeps. *)
Lemma retry_loop_keeps (E : env) (wt ph : pyval) (data : dict)
    (P : world -> Prop) :
  (forall w seconds, P w -> P (sleep seconds w)) ->
  (forall w, P w -> P (snd (send_webhook E wt ph data w))) ->
  (forall w a b, P w -> P (emit (EvAttempt a b) w)) ->
  (forall w b, P w -> P (record_webhook_result b w)) ->
  forall (remaining : nat) (attempt : Z) (w : world),
    P w -> P (snd (retry_loop E remaining attempt wt ph data w)).
Proof.
  intros Hsleep Hsend Hemit Hrec.
  induction remaining as [|n IH]; intros attempt w Hw; [exact Hw|].
  cbn [retry_loop].
  set (w1 := if (0 <? attempt)%Z then sleep (Z.min (2 ^ attempt) 5) w else w).
  assert (H1 : P w1) by (subst w1; destruct (0 <? attempt)%Z; auto).
  pose proof (Hsend w1 H1) as H2.
  destruct (send_webhook E wt ph data w1) as [[|] w2]; cbn [snd] in *.
  - apply Hrec, Hemit, H2.
  - apply IH, Hemit, H2.
Qed.

Lemma retry_webhook_keeps (E : env) (wt ph : pyval) (data : dict)
    (P : world -> Prop) :
  (forall w seconds, P w -> P (sleep seconds w)) ->
  (forall w, P w -> P (snd (send_webhook E wt ph data w))) ->
  (forall w a b, P w -> P (emit (EvAttempt a b) w)) ->
  (forall w b, P w -> P (record_webhook_result b w)) ->
  forall (max_retries : Z) (w : world),
    P w -> P (_retry_webhook E wt ph data max_retries w).
Proof.
  intros Hsleep Hsend Hemit Hrec max_retries w Hw. unfold _retry_webhook.
  pose proof (retry_loop_keeps E wt ph data P Hsleep Hsend Hemit Hrec
                (Z.to_nat (max_retries + 1)) 0 w Hw) as H.
  destruct (retry_loop E _ 0 wt ph data w) as [[|] w']; cbn [snd] in H;
    [exact H | apply Hrec, H].
Qed.

(** X1.  The failure counter is never negative and a positive counter
    always has a last-failure stamp: a freshly started process is in such
    a state, and recording a result, the breaker check, the manual reset,
    a call of [send_webhook], the status route and a whole retry thread
    all keep it. *)
Theorem breaker_state_invariant (E : env) (webhook_type phone_number : pyval)
    (data : dict) (max_retries : Z) (b : bool) (w : world) :
  breaker_wf w ->
  breaker_wf (record_webhook_result b w)
  /\ breaker_wf (snd (is_circuit_broken w))
  /\ breaker_wf (reset_webhook_circuit w)
  /\ breaker_wf (snd (send_webhook E webhook_type phone_number data w))
  /\ breaker_wf (snd (webhook_status E w))
  /\ breaker_wf (_retry_webhook E webhook_type phone_number data max_retries w).
Proof.
  intros H.
  assert (Hcheck : breaker_wf (snd (is_circuit_broken w))).
  { destruct (is_circuit_broken_cases w) as [Hc|[Hc|(_ & _ & Hc)]];
      rewrite Hc; cbn [snd]; [exact H | exact H | apply breaker_wf_reset]. }
  split; [apply breaker_wf_record, H|].
  split; [exact Hcheck|].
  split; [apply breaker_wf_reset|].
  split; [apply breaker_wf_send_webhook, H|].
  split.
  - unfold webhook_status.
    destruct (is_circuit_broken w) as [broken w1]. exact Hcheck.
  - apply retry_webhook_keeps; try exact H.
    + intros w0 s H0. apply (breaker_wf_frame w0); auto.
    + intros w0 H0. apply breaker_wf_send_webhook, H0.
    + intros w0 a b0 H0. apply (breaker_wf_frame w0); auto.
    + intros w0 b0 H0. apply breaker_wf_record, H0.
Qed.

Lemma breaker_state_invariant_witness :
  breaker_wf (fresh_world 1000)
  /\ breaker_wf
       (_retry_webhook (sample_env (fails_then_ok 100) no_files)
          (PyStr "message") (PyStr "+5511999999999") ∅ 2 (fresh_world 1000)).
Proof.
  assert (H : breaker_wf (fresh_world 1000)).
  { split; [cbn; lia|]. cbn. intros Hpos. lia. }
  split; [exact H|].
  apply (breaker_state_invariant (sample_env (fails_then_ok 100) no_files)
           (PyStr "message") (PyStr "+5511999999999") ∅ 2 true
           (fresh_world 1000) H).
Defined.

Lemma send_webhook_expired (E : env) (wt ph : pyval) (data : dict) (w : world) :
  webhook_url E <> "" ->
  breaker_open w = true -> within_window w = false ->
  send_webhook E wt ph data w
  = send_webhook E wt ph data (set_breaker 0 None w).
Proof.
  intros Hurl Ho Hw. unfold send_webhook.
  destruct (String.eqb_spec (webhook_url E) "") as [Heq|_]; [contradiction|].
  rewrite (is_circuit_broken_reset w Ho Hw).
  rewrite (is_circuit_broken_closed (set_breaker 0 None w) eq_refl).
  reflexivity.
Qed.

(** X2.  Delivery resumes by itself once the cooldown is over, and the
    count starts again: with an endpoint configured and a valid envelope,
    a call of [send_webhook] that finds the breaker Open with its window
    elapsed issues the POST, and leaves the counter at 0 when the reply is
    a success and at 1 when it is not.  The same holds right after the
    manual reset, whatever the state was. *)
Theorem delivery_resumes_after_cooldown (E : env)
    (webhook_type phone_number : pyval) (data : dict) (w : world) :
  webhook_url E <> "" ->
  always_valid E webhook_type phone_number data ->
  let ok := reply_ok (endpoint E (posts_made (trace w))) in
  (breaker_open w = true -> within_window w = false ->
   exists w',
     send_webhook E webhook_type phone_number data w = (ok, w')
     /\ posts_made (trace w') = S (posts_made (trace w))
     /\ webhook_failures w' = (if ok then 0 else 1))
  /\ (exists w',
         send_webhook E webhook_type phone_number data
           (reset_webhook_circuit w) = (ok, w')
         /\ posts_made (trace w') = S (posts_made (trace w))
         /\ webhook_failures w' = (if ok then 0 else 1)).
Proof.
  intros Hurl Hvalid ok.
  assert (Hreset : exists w',
             send_webhook E webhook_type phone_number data
               (set_breaker 0 None w) = (ok, w')
             /\ posts_made (trace w') = S (posts_made (trace w))
             /\ webhook_failures w' = (if ok then 0 else 1)).
  { rewrite (send_webhook_live E webhook_type phone_number data
               (set_breaker 0 None w) Hurl eq_refl Hvalid).
    eexists. split; [reflexivity|]. split.
    - rewrite post_step_trace, posts_made_app, Nat.add_comm. reflexivity.
    - rewrite post_step_counter. subst ok.
      change (trace (set_breaker 0 None w)) with (trace w).
      destruct (reply_ok _); reflexivity. }
  split; [|exact Hreset].
  intros Ho Hw.
  rewrite (send_webhook_expired E webhook_type phone_number data w Hurl Ho Hw).
  exact Hreset.
Qed.

Lemma delivery_resumes_after_cooldown_witness :
  let E := sample_env (fails_then_ok 0) no_files in
  breaker_open expired_world = true
  /\ within_window expired_world = false
  /\ exists w',
       send_webhook E (PyStr "message") (PyStr "+5511999999999") ∅
         expired_world = (true, w')
       /\ posts_made (trace w') = 1%nat
       /\ webhook_failures w' = 0.
Proof.
  intros E. split; [reflexivity|]. split; [reflexivity|].
  destruct (delivery_resumes_after_cooldown E (PyStr "message")
              (PyStr "+5511999999999") ∅ expired_world) as [Expired _];
    [discriminate | intros now; vm_compute; reflexivity |].
  apply Expired; reflexivity.
Defined.

(** X3.  With an endpoint configured, the breaker Closed and a valid
    envelope, [send_webhook] returns [True] exactly when the request came
    back with a status outside 400..599: redirects (which are not
    followed) and 1xx answers count as delivered, every exception and
    every 4xx or 5xx as a failure. *)
Theorem delivered_iff_status_not_error (E : env)
    (webhook_type phone_number : pyval) (data : dict) (w : world) :
  webhook_url E <> "" ->
  breaker_open w = false ->
  always_valid E webhook_type phone_number data ->
  fst (send_webhook E webhook_type phone_number data w) = true
  <-> exists status,
        outcome (endpoint E (posts_made (trace w))) = Responded status
        /\ (status < 400 \/ 600 <= status).
Proof.
  intros Hurl Hclosed Hvalid.
  rewrite (send_webhook_live E webhook_type phone_number data w
             Hurl Hclosed Hvalid).
  cbn [fst]. unfold reply_ok, raise_for_status.
  destruct (outcome _) as [status| | | |].
  - split.
    + intros H. exists status. split; [reflexivity|].
      apply negb_true_iff, andb_false_iff in H.
      destruct H as [H|H]; [apply Z.leb_gt in H | apply Z.ltb_ge in H]; lia.
    + intros (s & Hs & Hrange). injection Hs as <-.
      apply negb_true_iff, andb_false_iff.
      destruct Hrange as [H|H]; [left; apply Z.leb_gt | right; apply Z.ltb_ge];
        lia.
  - split; [discriminate | intros (s & Hs & _); discriminate].
  - split; [discriminate | intros (s & Hs & _); discriminate].
  - split; [discriminate | intros (s & Hs & _); discriminate].
  - split; [discriminate | intros (s & Hs & _); discriminate].
Qed.

Lemma delivered_iff_status_not_error_witness :
  let redirecting :=
    sample_env (fun _ => {| outcome := Responded 302; latency := 1 |})
      no_files in
  fst (send_webhook redirecting (PyStr "message") (PyStr "+5511999999999") ∅
         (fresh_world 1000)) = true.
Proof.
  intros redirecting.
  apply (delivered_iff_status_not_error redirecting (PyStr "message")
           (PyStr "+5511999999999") ∅ (fresh_world 1000));
    [discriminate | reflexivity | intros now; vm_compute; reflexivity |].
  exists 302. split; [reflexivity | lia].
Defined.

Lemma valid_posts_send_webhook (E : env) (wt ph : pyval) (data : dict)
    (w : world) :
  Forall (valid_post E) (trace w) ->
  Forall (valid_post E) (trace (snd (send_webhook E wt ph data w))).
Proof.
  intros H.
  destruct (send_webhook_cases E wt ph data w)
    as [Hs|[(_ & _ & Hs)|(w1 & Hw1 & Hurl & Hv & Hs)]]; rewrite Hs; cbn [snd].
  - exact H.
  - exact H.
  - rewrite post_step_trace.
    assert (Htr : trace w1 = trace w)
      by (destruct Hw1 as [[-> _]|(-> & _)]; reflexivity).
    rewrite Htr. apply Forall_app. split; [exact H|].
    constructor; [|constructor]. cbn. auto.
Qed.

Lemma valid_posts_frame (E : env) (w w' : world) (e : event) :
  trace w' = (trace w ++ [e])%list -> is_post e = false ->
  Forall (valid_post E) (trace w) -> Forall (valid_post E) (trace w').
Proof.
  intros -> He H. apply Forall_app. split; [exact H|].
  constructor; [|constructor]. destruct e; [exact I | discriminate | exact I].
Qed.

Lemma valid_posts_retry (E : env) (wt ph : pyval) (data : dict)
    (max_retries : Z) (w : world) :
  Forall (valid_post E) (trace w) ->
  Forall (valid_post E) (trace (_retry_webhook E wt ph data max_retries w)).
Proof.
  apply (retry_webhook_keeps E wt ph data
           (fun w => Forall (valid_post E) (trace w))).
  - intros w0 s. apply (valid_posts_frame E w0 _ (EvSleep s)); reflexivity.
  - intros w0. apply valid_posts_send_webhook.
  - intros w0 a b. apply (valid_posts_frame E w0 _ (EvAttempt a b)); reflexivity.
  - intros w0 b H. destruct b; exact H.
Qed.

(** X4.  No request is ever issued to an empty address or with an
    envelope that fails validation: if every POST in the trace so far
    went to the configured, non-empty URL with the configured timeout and
    a body that passes [validate_webhook_data], the same is true after
    [send_webhook], after a whole retry thread, after [send_message] and
    after [toggle_ai]. *)
Theorem every_post_is_valid (E : env) (webhook_type phone_number : pyval)
    (data : dict) (max_retries : Z) (body : option send_request) (i : Z)
    (w : world) :
  Forall (valid_post E) (trace w) ->
  Forall (valid_post E)
    (trace (snd (send_webhook E webhook_type phone_number data w)))
  /\ Forall (valid_post E)
       (trace (_retry_webhook E webhook_type phone_number data max_retries w))
  /\ Forall (valid_post E) (trace (snd (send_message E body w)))
  /\ Forall (valid_post E) (trace (snd (toggle_ai E i w))).
Proof.
  intros H.
  split; [apply valid_posts_send_webhook, H|].
  split; [apply valid_posts_retry, H|].
  split.
  - unfold send_message.
    destruct body as [req|]; [|exact H].
    destruct (negb (str_truthy (sr_phone_number req))); [exact H|].
    destruct (negb (str_truthy (sr_content req))
              && negb (str_truthy (sr_attachment_url req)))%bool; [exact H|].
    destruct (get_phone_by_number _ (db w)) as [phone|]; [|exact H].
    destruct (create_message _ _ _ _ _ _ _ _ _ _) as [[message|] d1];
      [|exact H].
    pose proof (valid_posts_send_webhook E (PyStr "message")
                  (PyStr (str_or (sr_phone_number req) ""))
                  (message_webhook_data E req
                     (if ai_active phone then "ai" else "user") phone message)
                  (set_db d1 w) H) as Hs.
    destruct (send_webhook _ _ _ _ _) as [[|] w2]; exact Hs.
  - unfold toggle_ai.
    destruct (get_phone_by_id i (db w)) as [phone|]; [|exact H].
    destruct (toggle_ai_status i (db w)) as [[|] d1]; cbn [negb]; [|exact H].
    pose proof (valid_posts_send_webhook E (PyStr "ai_toggle")
                  (PyStr (number phone))
                  (toggle_webhook_data E (ai_active phone)
                     (negb (ai_active phone)) i)
                  (set_db d1 w) H) as Hs.
    destruct (send_webhook _ _ _ _ _) as [sent w1]; exact Hs.
Qed.

Lemma every_post_is_valid_witness :
  let E := sample_env (fails_then_ok 1) no_files in
  Forall (valid_post E) (trace (scenario_world false))
  /\ Forall (valid_post E)
       (trace (snd (send_message E
                      (Some (text_request "+5511999999999" "hello"))
                      (scenario_world false))))
  /\ posts_made
       (trace (snd (send_message E
                      (Some (text_request "+5511999999999" "hello"))
                      (scenario_world false)))) = 1%nat.
Proof.
  intros E.
  assert (H : Forall (valid_post E) (trace (scenario_world false)))
    by constructor.
  split; [exact H|]. split; [|vm_compute; reflexivity].
  apply (every_post_is_valid E PyNone PyNone ∅ 0
           (Some (text_request "+5511999999999" "hello")) 1
           (scenario_world false) H).
Defined.

Lemma set_uploads_same (w : world) : set_uploads (uploads w) w = w.
Proof. destruct w; reflexivity. Qed.

Lemma set_db_same (w : world) : set_db (db w) w = w.
Proof. destruct w; reflexivity. Qed.

(** A download changes the upload directory and nothing else. *)
Lemma download_attachment_enhanced_world (E : env) (url : string)
    (original_filename original_type : option string) (original_size : pyval)
    (w : world) :
  exists u,
    snd (download_attachment_enhanced E url original_filename original_type
           original_size w) = set_uploads u w.
Proof.
  unfold download_attachment_enhanced.
  assert (Hsame : exists u, w = set_uploads u w)
    by (exists (uploads w); symmetry; apply set_uploads_same).
  destruct (http_get E url) as [|r]; [exact Hsame|].
  destruct (declared_size E r original_size) as [file_size| | |];
    try exact Hsame.
  destruct (MAX_UPLOAD_SIZE <? file_size)%Z; [exact Hsame|].
  match goal with
  | |- context [match ?c with Some _ => _ | None => _ end] =>
      destruct c as [filename|]
  end; [|exact Hsame].
  eexists. reflexivity.
Qed.

Lemma process_attachment_world (E : env) (data : receive_request) (w : world) :
  exists u, snd (process_attachment E data w) = set_uploads u w.
Proof.
  unfold process_attachment.
  assert (Hsame : exists u, w = set_uploads u w)
    by (exists (uploads w); symmetry; apply set_uploads_same).
  destruct (negb (str_truthy (rr_attachment_url data))); [exact Hsame|].
  destruct (Str.startswith "/chat/uploads/" _); [exact Hsame|].
  destruct (download_attachment_enhanced_world E
              (str_or (rr_attachment_url data) "") (rr_attachment_name data)
              (rr_attachment_type data) (rr_attachment_size data) w)
    as [u Hu].
  destruct (download_attachment_enhanced E _ _ _ _ w) as [[why|d] w1];
    cbn [snd] in *; exists u; exact Hu.
Qed.

(** Whatever the request, [receive_message] changes the database and the
    upload directory only. *)
Lemma receive_message_world (E : env) (body : option receive_request)
    (w : world) :
  exists (d : database) (u : gmap string Z),
    snd (receive_message E body w) = set_db d (set_uploads u w).
Proof.
  assert (Hsame : exists (d : database) (u : gmap string Z),
             w = set_db d (set_uploads u w))
    by (exists (db w), (uploads w); destruct w; reflexivity).
  unfold receive_message.
  destruct body as [data|]; [|exact Hsame].
  destruct (negb (str_truthy (rr_phone_number data))); [exact Hsame|].
  destruct (negb (str_truthy (rr_message data))
            && negb (str_truthy (rr_attachment_url data)))%bool;
    [exact Hsame|].
  destruct (match get_phone_by_number _ (db w) with
            | Some phone => (Some phone, db w)
            | None => create_phone_number _ (db w)
            end) as [[phone|] d1].
  2:{ exists d1, (uploads w). destruct w; reflexivity. }
  destruct (process_attachment_world E data (set_db d1 w)) as [u Hu].
  destruct (process_attachment E data (set_db d1 w)) as [a w1].
  cbn [snd] in Hu. subst w1.
  destruct (create_message _ _ _ _ _ _ _ _ _ _) as [[message|] d2];
    exists d2, u; reflexivity.
Qed.

(** X5.  The inbound route never notifies the webhook: whatever the
    request, [receive_message] changes the database and the upload
    directory only.  The breaker counter and stamp, the clock, the trace
    (no POST, no sleep) and the list of spawned threads are as they
    were. *)
Theorem receive_message_is_silent (E : env) (body : option receive_request)
    (w : world) :
  exists (d : database) (u : gmap string Z),
    snd (receive_message E body w) = set_db d (set_uploads u w)
    /\ trace (snd (receive_message E body w)) = trace w
    /\ threads (snd (receive_message E body w)) = threads w
    /\ webhook_failures (snd (receive_message E body w)) = webhook_failures w
    /\ last_failure_time (snd (receive_message E body w))
       = last_failure_time w.
Proof.
  destruct (receive_message_world E body w) as (d & u & Hw).
  exists d, u. split; [exact Hw|]. rewrite Hw.
  split; [reflexivity|]. split; [reflexivity|]. split; reflexivity.
Qed.

Lemma posts_made_schedule (attempt : Z) (results : list bool) :
  posts_made (schedule attempt results) = 0%nat.
Proof.
  revert attempt. induction results as [|r rest IH]; intros attempt;
    [reflexivity|].
  cbn [schedule]. rewrite posts_made_app.
  change (EvAttempt attempt r :: schedule (attempt + 1) rest)
    with ([EvAttempt attempt r] ++ schedule (attempt + 1) rest)%list.
  rewrite posts_made_app, IH.
  destruct (0 <? attempt)%Z; reflexivity.
Qed.

Lemma retry_loop_unconfigured (E : env) (wt ph : pyval) (data : dict) :
  webhook_url E = "" ->
  forall (remaining : nat) (attempt : Z) (w : world),
  exists w',
    retry_loop E remaining attempt wt ph data w = (false, w')
    /\ trace w' = (trace w ++ schedule attempt (List.repeat false remaining))%list
    /\ webhook_failures w' = webhook_failures w
    /\ last_failure_time w' = last_failure_time w.
Proof.
  intros Hurl.
  assert (Hsend : forall w, send_webhook E wt ph data w = (false, w))
    by (intros w; unfold send_webhook; rewrite Hurl; reflexivity).
  induction remaining as [|n IH]; intros attempt w.
  - exists w. cbn. rewrite List.app_nil_r. auto.
  - cbn [retry_loop]. rewrite Hsend.
    destruct (IH (attempt + 1)
                (emit (EvAttempt attempt false)
                   (if (0 <? attempt)%Z
                    then sleep (Z.min (2 ^ attempt) 5) w else w)))
      as (w' & Hrun & Htr & Hf & Ht).
    exists w'. split; [exact Hrun|].
    split; [|split].
    + rewrite Htr. cbn [List.repeat schedule].
      destruct (0 <? attempt)%Z; cbn; rewrite <- !List.app_assoc; reflexivity.
    + rewrite Hf. destruct (0 <? attempt)%Z; reflexivity.
    + rewrite Ht. destruct (0 <? attempt)%Z; reflexivity.
Qed.

(** X6.  With no endpoint configured, [send_webhook] returns [False] and
    touches nothing, yet a retry thread still runs its whole schedule: it
    makes all [max_retries + 1] attempts with the sleeps between them,
    issues no POST, and then records one failure, stamping the clock.
    So every message sent while the webhook is unconfigured raises the
    breaker counter by one. *)
Theorem unconfigured_retry_records_failure (E : env)
    (webhook_type phone_number : pyval) (data : dict) (max_retries : Z)
    (w : world) :
  webhook_url E = "" ->
  let final :=
    _retry_webhook E webhook_type phone_number data max_retries w in
  send_webhook E webhook_type phone_number data w = (false, w)
  /\ trace final
     = (trace w
        ++ schedule 0 (List.repeat false (Z.to_nat (max_retries + 1))))%list
  /\ posts_made (trace final) = posts_made (trace w)
  /\ webhook_failures final = webhook_failures w + 1
  /\ last_failure_time final = Some (clock final).
Proof.
  intros Hurl final.
  split; [unfold send_webhook; rewrite Hurl; reflexivity|].
  destruct (retry_loop_unconfigured E webhook_type phone_number data Hurl
              (Z.to_nat (max_retries + 1)) 0 w) as (w' & Hrun & Htr & Hf & _).
  subst final. unfold _retry_webhook. rewrite Hrun.
  change (trace (record_webhook_result false w')) with (trace w').
  split; [exact Htr|]. split; [|split].
  - rewrite Htr, posts_made_app, posts_made_schedule. lia.
  - cbn. rewrite Hf. reflexivity.
  - reflexivity.
Qed.

Lemma unconfigured_retry_records_failure_witness :
  let E := {| webhook_url := ""; webhook_timeout := 5;
              endpoint := fails_then_ok 0;
              isoformat := fun _ => "2024-05-01T12:00:00";
              current_user_email := "agent@example.com";
              request_scheme := "http"; request_host := "localhost:5000";
              int_of_str := decimal_int_of_str;
              secure_filename := fun name => name;
              http_get := no_files;
              disposition_filename := fun _ => None;
              url_path := fun url => url;
              guess_extension := fun _ => None;
              unique_stem := fun _ => "upload" |} in
  let final := _retry_webhook E (PyStr "message") (PyStr "+5511999999999") ∅ 2
                 (fresh_world 1000) in
  trace final
  = [EvAttempt 0 false; EvSleep 2; EvAttempt 1 false; EvSleep 4;
     EvAttempt 2 false]
  /\ webhook_failures final = 1
  /\ last_failure_time final = Some 1006.
Proof.
  intros E final.
  destruct (unconfigured_retry_records_failure E (PyStr "message")
              (PyStr "+5511999999999") ∅ 2 (fresh_world 1000) eq_refl)
    as (_ & Htr & _ & Hf & Ht).
  subst final. split; [exact Htr|]. split; [exact Hf|].
  rewrite Ht. vm_compute. reflexivity.
Defined.

(** X7.  The status route reports what the breaker check left, and the
    report is coherent: [circuit_broken] is true exactly when the reported
    counter is at or above the threshold, and then the reported time since
    the last failure is under 60 seconds and the state is untouched.
    Asking for the status is not a pure read: when the breaker is Open
    with its window elapsed, the route itself resets it, and reports a
    counter of 0 and no last failure. *)
Theorem webhook_status_is_coherent (E : env) (w : world) :
  let r := fst (webhook_status E w) in
  let w' := snd (webhook_status E w) in
  w' = snd (is_circuit_broken w)
  /\ st_failure_count r = webhook_failures w'
  /\ (st_circuit_broken r = true <-> 5 <= st_failure_count r)
  /\ (st_circuit_broken r = true ->
      w' = w
      /\ exists elapsed, st_time_since_last_failure r = Some elapsed
                         /\ elapsed < 60)
  /\ (breaker_open w = true -> within_window w = false ->
      st_circuit_broken r = false
      /\ st_failure_count r = 0
      /\ st_time_since_last_failure r = None
      /\ webhook_failures w' = 0 /\ last_failure_time w' = None).
Proof.
  cbv zeta. unfold webhook_status.
  destruct (breaker_open w) eqn:Ho; [destruct (within_window w) eqn:Hw|].
  - rewrite (is_circuit_broken_open w Ho Hw). cbn.
    apply breaker_open_iff in Ho.
    split; [reflexivity|]. split; [reflexivity|].
    split; [split; auto|]. split; [|discriminate].
    intros _. split; [reflexivity|].
    unfold within_window in Hw.
    destruct (last_failure_time w) as [t|]; [|discriminate].
    apply andb_true_iff in Hw as [Hnz Hlt].
    apply negb_true_iff in Hnz. rewrite Hnz.
    exists (clock w - t). split; [reflexivity|].
    apply Z.ltb_lt in Hlt. exact Hlt.
  - rewrite (is_circuit_broken_reset w Ho Hw). cbn.
    split; [reflexivity|]. split; [reflexivity|].
    split; [split; [discriminate | lia]|].
    split; [discriminate|]. auto.
  - rewrite (is_circuit_broken_closed w Ho). cbn.
    split; [reflexivity|]. split; [reflexivity|].
    split.
    + split; [discriminate|]. intros H.
      apply breaker_open_iff in H. congruence.
    + split; discriminate.
Qed.

(** ** The stored data *)

Lemma NoDup_snoc_In {A : Type} (l : list A) (x : A) :
  List.NoDup l -> ~ In x l -> List.NoDup (l ++ [x]).
Proof.
  induction l as [|y l IH]; intros Hnd Hx.
  - cbn. constructor; [intros H; inversion H | constructor].
  - inversion Hnd as [|y' l' Hy Hl]; subst. cbn. constructor.
    + intros Hin. apply in_app_or in Hin as [Hin|[Heq|[]]].
      * apply Hy. exact Hin.
      * apply Hx. left. symmetry. exact Heq.
    + apply IH; [exact Hl|]. intros Hin. apply Hx. right. exact Hin.
Qed.

Lemma NoDup_map_filter {A B : Type} (g : A -> B) (f : A -> bool) (l : list A) :
  List.NoDup (List.map g l) -> List.NoDup (List.map g (List.filter f l)).
Proof.
  induction l as [|x l IH]; intros Hnd; [exact Hnd|].
  cbn in Hnd. inversion Hnd as [|y l' Hy Hl]; subst. cbn.
  destruct (f x); [|apply IH, Hl].
  cbn. constructor; [|apply IH, Hl].
  intros Hin. apply Hy.
  apply in_map_iff in Hin as (z & Hz & Hzin).
  apply in_map_iff. exists z. split; [exact Hz|].
  apply filter_In in Hzin. tauto.
Qed.

Lemma get_phone_by_number_In (n : string) (d : database) (p : PhoneNumber) :
  get_phone_by_number n d = Some p -> In p (phones d) /\ number p = n.
Proof.
  unfold get_phone_by_number. destruct (db_up d); [|discriminate].
  intros H. apply find_some in H as [Hin Heq].
  split; [exact Hin | apply String.eqb_eq, Heq].
Qed.

Lemma get_phone_by_id_In (i : Z) (d : database) (p : PhoneNumber) :
  get_phone_by_id i d = Some p -> In p (phones d) /\ phone_id p = i.
Proof.
  unfold get_phone_by_id. destruct (db_up d); [|discriminate].
  intros H. apply find_some in H as [Hin Heq].
  split; [exact Hin | apply Z.eqb_eq, Heq].
Qed.

Lemma db_wf_create_phone_number (n : string) (d : database) :
  db_wf d -> db_wf (snd (create_phone_number n d)).
Proof.
  intros (Hnum & Hid & Hlt & Hmid & Hmlt & Hfk).
  unfold create_phone_number.
  destruct (get_phone_by_number n d) as [p|] eqn:Hget;
    [repeat split; assumption|].
  destruct (db_up d) eqn:Hup; [|repeat split; assumption].
  cbn [snd]. unfold db_wf. cbn [phones messages next_phone_id next_message_id
                                set_phones].
  rewrite !List.map_app. cbn [List.map number phone_id].
  split; [|split; [|split; [|split; [exact Hmid|split; [exact Hmlt|]]]]].
  - apply NoDup_snoc_In; [exact Hnum|].
    intros Hin. apply in_map_iff in Hin as (q & Hq & Hqin).
    unfold get_phone_by_number in Hget. rewrite Hup in Hget.
    pose proof (find_none _ _ Hget q Hqin) as Hne. cbn in Hne.
    rewrite Hq, String.eqb_refl in Hne. discriminate.
  - apply NoDup_snoc_In; [exact Hid|].
    intros Hin. apply in_map_iff in Hin as (q & Hq & Hqin).
    specialize (Hlt q Hqin). lia.
  - intros q Hq. apply in_app_or in Hq as [Hq|[<-|[]]].
    + specialize (Hlt q Hq). lia.
    + cbn. lia.
  - intros m Hm. destruct (Hfk m Hm) as (q & Hq & Heq).
    exists q. split; [apply in_or_app; left; exact Hq | exact Heq].
Qed.

Lemma db_wf_toggle_ai_status (i : Z) (d : database) :
  db_wf d -> db_wf (snd (toggle_ai_status i d)).
Proof.
  intros (Hnum & Hid & Hlt & Hmid & Hmlt & Hfk).
  unfold toggle_ai_status.
  destruct (get_phone_by_id i d) as [found|]; [|repeat split; assumption].
  cbn [snd]. unfold db_wf. cbn [phones messages next_phone_id next_message_id
                                set_phones].
  set (f := fun p : PhoneNumber =>
              if (phone_id p =? i)%Z
              then {| phone_id := phone_id p; number := number p;
                      ai_active := negb (ai_active p) |}
              else p).
  assert (Hfn : forall p, number (f p) = number p)
    by (intros p; unfold f; destruct (phone_id p =? i)%Z; reflexivity).
  assert (Hfi : forall p, phone_id (f p) = phone_id p)
    by (intros p; unfold f; destruct (phone_id p =? i)%Z; reflexivity).
  rewrite !List.map_map.
  rewrite (List.map_ext _ number Hfn), (List.map_ext _ phone_id Hfi).
  split; [exact Hnum|]. split; [exact Hid|].
  split; [|split; [exact Hmid|split; [exact Hmlt|]]].
  - intros q Hq. apply in_map_iff in Hq as (p & <- & Hp).
    rewrite Hfi. apply Hlt, Hp.
  - intros m Hm. destruct (Hfk m Hm) as (q & Hq & Heq).
    exists (f q). split; [apply in_map, Hq | rewrite Hfi; exact Heq].
Qed.

Lemma db_wf_delete_phone (i : Z) (d : database) :
  db_wf d -> db_wf (snd (delete_phone i d)).
Proof.
  intros (Hnum & Hid & Hlt & Hmid & Hmlt & Hfk).
  unfold delete_phone.
  destruct (get_phone_by_id i d) as [found|]; [|repeat split; assumption].
  cbn [snd]. unfold db_wf. cbn [phones messages next_phone_id next_message_id].
  split; [apply NoDup_map_filter, Hnum|].
  split; [apply NoDup_map_filter, Hid|].
  split; [|split; [apply NoDup_map_filter, Hmid|split]].
  - intros q Hq. apply filter_In in Hq as [Hq _]. apply Hlt, Hq.
  - intros m Hm. apply filter_In in Hm as [Hm _]. apply Hmlt, Hm.
  - intros m Hm. apply filter_In in Hm as [Hm Hne].
    destruct (Hfk m Hm) as (q & Hq & Heq).
    exists q. split; [|exact Heq].
    apply filter_In. split; [exact Hq|]. rewrite Heq. exact Hne.
Qed.

Lemma db_wf_create_message (ios : string -> option Z) (pn : string)
    (content : option string) (mt : string) (au afu an aty : option string)
    (asz : pyval) (d : database) :
  db_wf d -> db_wf (snd (create_message ios pn content mt au afu an aty asz d)).
Proof.
  intros Hwf. unfold create_message.
  destruct (negb (validate_message_type mt)); [exact Hwf|].
  destruct (negb (str_truthy content) && negb (str_truthy au))%bool;
    [exact Hwf|].
  assert (H1 : exists phone d1,
             match get_phone_by_number pn d with
             | Some phone => (Some phone, d)
             | None => create_phone_number pn d
             end = (phone, d1)
             /\ db_wf d1
             /\ forall p, phone = Some p -> In p (phones d1)).
  { destruct (get_phone_by_number pn d) as [p|] eqn:Hget.
    - exists (Some p), d. split; [reflexivity|]. split; [exact Hwf|].
      intros q Hq. injection Hq as <-.
      apply (get_phone_by_number_In pn d p Hget).
    - pose proof (db_wf_create_phone_number pn d Hwf) as Hwf1.
      unfold create_phone_number in *. rewrite Hget in *.
      destruct (db_up d).
      + eexists _, _. split; [reflexivity|]. split; [exact Hwf1|].
        intros q Hq. injection Hq as <-. cbn.
        apply in_or_app. right. left. reflexivity.
      + eexists _, _. split; [reflexivity|]. split; [exact Hwf1|].
        discriminate. }
  destruct H1 as (phone & d1 & -> & Hwf1 & Hin).
  destruct phone as [phone|]; [|exact Hwf1].
  destruct (_clean_attachment_data ios au afu an aty asz) as [c|];
    [|exact Hwf1].
  destruct (db_up d1); [|exact Hwf1].
  destruct Hwf1 as (Hnum & Hid & Hlt & Hmid & Hmlt & Hfk).
  cbn [snd]. unfold db_wf. cbn [phones messages next_phone_id next_message_id
                                set_messages].
  split; [exact Hnum|]. split; [exact Hid|]. split; [exact Hlt|].
  rewrite List.map_app. cbn [List.map message_id].
  split; [|split].
  - apply NoDup_snoc_In; [exact Hmid|].
    intros Hm. apply in_map_iff in Hm as (m & Hm & Hmin).
    specialize (Hmlt m Hmin). lia.
  - intros m Hm. apply in_app_or in Hm as [Hm|[<-|[]]].
    + specialize (Hmlt m Hm). lia.
    + cbn. lia.
  - intros m Hm. apply in_app_or in Hm as [Hm|[<-|[]]].
    + apply Hfk, Hm.
    + exists phone. split; [apply Hin; reflexivity | reflexivity].
Qed.

Lemma db_wf_empty : db_wf empty_db.
Proof.
  unfold db_wf, empty_db. cbn.
  repeat split; try constructor; intros x [].
Qed.

(** X8.  The database keeps its shape: if phone numbers and ids are
    unique, every id is below its sequence, and every message belongs to
    an existing conversation, then the same holds after
    [create_phone_number], [toggle_ai_status], [delete_phone] (whose
    cascade removes the messages of the deleted conversation) and
    [create_message], and after the routes [send_message],
    [receive_message] and [toggle_ai], whatever their arguments and
    whether they succeed or fail. *)
Theorem storage_invariant (E : env) (w : world) (n : string) (i : Z)
    (sent : option send_request) (received : option receive_request) :
  db_wf (db w) ->
  db_wf (snd (create_phone_number n (db w)))
  /\ db_wf (snd (toggle_ai_status i (db w)))
  /\ db_wf (snd (delete_phone i (db w)))
  /\ (forall (content : option string) (message_type : string)
             (au afu an aty : option string) (asz : pyval),
         db_wf (snd (create_message (int_of_str E) n content message_type
                       au afu an aty asz (db w))))
  /\ db_wf (db (snd (send_message E sent w)))
  /\ db_wf (db (snd (receive_message E received w)))
  /\ db_wf (db (snd (toggle_ai E i w))).
Proof.
  intros H.
  split; [apply db_wf_create_phone_number, H|].
  split; [apply db_wf_toggle_ai_status, H|].
  split; [apply db_wf_delete_phone, H|].
  split; [intros; apply db_wf_create_message, H|].
  split; [|split].
  - unfold send_message.
    destruct sent as [data|]; [|exact H].
    destruct (negb (str_truthy (sr_phone_number data))); [exact H|].
    destruct (negb (str_truthy (sr_content data))
              && negb (str_truthy (sr_attachment_url data)))%bool; [exact H|].
    destruct (get_phone_by_number _ (db w)) as [phone|]; [|exact H].
    pose proof (db_wf_create_message (int_of_str E)
                  (str_or (sr_phone_number data) "") (sr_content data)
                  (if ai_active phone then "ai" else "user")
                  (sr_attachment_url data) (sr_attachment_full_url data)
                  (sr_attachment_name data) (sr_attachment_type data)
                  (sr_attachment_size data) (db w) H) as Hc.
    destruct (create_message _ _ _ _ _ _ _ _ _ _) as [[message|] d1];
      cbn [snd] in Hc; [|exact Hc].
    pose proof (send_webhook_db E (PyStr "message")
                  (PyStr (str_or (sr_phone_number data) ""))
                  (message_webhook_data E data
                     (if ai_active phone then "ai" else "user") phone message)
                  (set_db d1 w)) as Hd.
    destruct (send_webhook _ _ _ _ _) as [[|] w2]; cbn [snd] in *;
      cbn [db spawn send_webhook_with_retry]; rewrite Hd; exact Hc.
  - unfold receive_message.
    destruct received as [data|]; [|exact H].
    destruct (negb (str_truthy (rr_phone_number data))); [exact H|].
    destruct (negb (str_truthy (rr_message data))
              && negb (str_truthy (rr_attachment_url data)))%bool; [exact H|].
    assert (H1 : db_wf (snd (match get_phone_by_number
                                     (str_or (rr_phone_number data) "") (db w)
                             with
                             | Some phone => (Some phone, db w)
                             | None => create_phone_number
                                         (str_or (rr_phone_number data) "")
                                         (db w)
                             end))).
    { destruct (get_phone_by_number _ (db w)); [exact H|].
      apply db_wf_create_phone_number, H. }
    destruct (match get_phone_by_number _ (db w) with
              | Some phone => (Some phone, db w)
              | None => create_phone_number _ (db w)
              end) as [[phone|] d1]; cbn [snd] in H1; [|exact H1].
    pose proof (process_attachment_facts E data (set_db d1 w)) as (Hdb & _).
    destruct (process_attachment E data (set_db d1 w)) as [a w1].
    cbn [fst snd] in Hdb. cbn [db set_db] in Hdb.
    pose proof (db_wf_create_message (int_of_str E)
                  (str_or (rr_phone_number data) "") (rr_message data) "lead"
                  (final_attachment_url a) (final_attachment_full_url a)
                  (final_attachment_name a) (final_attachment_type a)
                  (final_attachment_size a) (db w1)) as Hc.
    rewrite Hdb in Hc. specialize (Hc H1). rewrite <- Hdb in Hc.
    destruct (create_message _ _ _ _ _ _ _ _ _ _) as [[message|] d2];
      exact Hc.
  - unfold toggle_ai.
    destruct (get_phone_by_id i (db w)) as [phone|]; [|exact H].
    pose proof (db_wf_toggle_ai_status i (db w) H) as Ht.
    destruct (toggle_ai_status i (db w)) as [[|] d1]; cbn [negb snd] in *;
      [|exact Ht].
    pose proof (send_webhook_db E (PyStr "ai_toggle") (PyStr (number phone))
                  (toggle_webhook_data E (ai_active phone)
                     (negb (ai_active phone)) i)
                  (set_db d1 w)) as Hd.
    destruct (send_webhook _ _ _ _ _) as [sent_now w1]. cbn [snd] in *.
    rewrite Hd. exact Ht.
Qed.

Lemma storage_invariant_witness :
  let E := sample_env (fails_then_ok 0) no_files in
  db_wf (db (fresh_world 1000))
  /\ db_wf
       (db (snd (receive_message E
                   (Some (text_received "+5511999999999" "reply"))
                   (fresh_world 1000))))
  /\ List.length
       (messages
          (db (snd (receive_message E
                      (Some (text_received "+5511999999999" "reply"))
                      (fresh_world 1000))))) = 1%nat.
Proof.
  intros E. split; [exact db_wf_empty|]. split; [|vm_compute; reflexivity].
  apply (storage_invariant E (fresh_world 1000) "" 0 None
           (Some (text_received "+5511999999999" "reply")) db_wf_empty).
Defined.

Lemma find_none_all {A : Type} (f : A -> bool) (l : list A) :
  (forall x, In x l -> f x = false) -> List.find f l = None.
Proof.
  induction l as [|x l IH]; intros H; [reflexivity|]. cbn.
  rewrite (H x (or_introl eq_refl)). apply IH.
  intros y Hy. apply H. right. exact Hy.
Qed.

Lemma filter_unique {A B : Type} (g : A -> B) (same : B -> B -> bool)
    (l : list A) (x : A) :
  (forall a b, same a b = true <-> a = b) ->
  List.NoDup (List.map g l) -> In x l ->
  List.filter (fun y => same (g y) (g x)) l = [x].
Proof.
  intros Hsame. induction l as [|y l IH]; intros Hnd Hin; [destruct Hin|].
  cbn in Hnd. inversion Hnd as [|z l' Hy Hl]; subst. cbn.
  destruct Hin as [->|Hin].
  - assert (Hxx : same (g x) (g x) = true) by (apply Hsame; reflexivity).
    rewrite Hxx. f_equal.
    assert (Hnone : forall z, In z l -> same (g z) (g x) = false).
    { intros z Hz. destruct (same (g z) (g x)) eqn:Hs; [|reflexivity].
      apply Hsame in Hs. exfalso. apply Hy. rewrite <- Hs.
      apply in_map, Hz. }
    clear - Hnone. induction l as [|z l IH]; [reflexivity|]. cbn.
    rewrite (Hnone z (or_introl eq_refl)). apply IH.
    intros z' Hz'. apply Hnone. right. exact Hz'.
  - destruct (same (g y) (g x)) eqn:Hs.
    + apply Hsame in Hs. exfalso. apply Hy. rewrite Hs. apply in_map, Hin.
    + apply IH; assumption.
Qed.

(** X9.  Creating a conversation is idempotent.  When
    [create_phone_number] returns a row, that row carries the number
    asked for, a lookup by that number finds it, and asking again returns
    the same row and leaves the database as it is; a number that already
    had a row is returned without any change.  In a database whose phone
    numbers are unique, exactly one row carries the number afterwards. *)
Theorem create_phone_number_idempotent (n : string) (d d1 : database)
    (p : PhoneNumber) :
  create_phone_number n d = (Some p, d1) ->
  number p = n
  /\ get_phone_by_number n d1 = Some p
  /\ create_phone_number n d1 = (Some p, d1)
  /\ (forall q, get_phone_by_number n d = Some q -> q = p /\ d1 = d)
  /\ (List.length (phones d1) <= S (List.length (phones d)))%nat
  /\ (db_wf d ->
      List.filter (fun q => String.eqb (number q) n) (phones d1) = [p]).
Proof.
  intros H.
  assert (Hfound : get_phone_by_number n d1 = Some p
                   /\ (List.length (phones d1) <= S (List.length (phones d)))%nat
                   /\ forall q, get_phone_by_number n d = Some q ->
                                q = p /\ d1 = d).
  { unfold create_phone_number in H.
    destruct (get_phone_by_number n d) as [q|] eqn:Hget.
    - injection H as <- <-. split; [exact Hget|]. split; [lia|].
      intros q' Hq'. injection Hq' as <-. auto.
    - destruct (db_up d) eqn:Hup; [|discriminate].
      destruct (create_phone_number_new n d Hup Hget)
        as (p' & d' & Hc & _ & _ & Hfind & _).
      unfold create_phone_number in Hc. rewrite Hget, Hup in Hc.
      rewrite H in Hc. injection Hc as <- <-.
      split; [exact Hfind|]. split; [|discriminate].
      injection H as _ <-. cbn. rewrite List.length_app. cbn. lia. }
  destruct Hfound as (Hfind & Hlen & Hsame).
  destruct (get_phone_by_number_In n d1 p Hfind) as [Hin Hnum].
  split; [exact Hnum|]. split; [exact Hfind|].
  split; [unfold create_phone_number; rewrite Hfind; reflexivity|].
  split; [exact Hsame|]. split; [exact Hlen|].
  intros Hwf.
  pose proof (db_wf_create_phone_number n d Hwf) as Hwf1.
  rewrite H in Hwf1. cbn [snd] in Hwf1. destruct Hwf1 as (Hnd & _).
  rewrite <- Hnum.
  apply (filter_unique number String.eqb (phones d1) p);
    [intros a b; apply String.eqb_eq | exact Hnd | exact Hin].
Qed.

Lemma create_phone_number_idempotent_witness :
  exists (p : PhoneNumber) (d1 : database),
    create_phone_number "+5511999999999" empty_db = (Some p, d1)
    /\ create_phone_number "+5511999999999" d1 = (Some p, d1)
    /\ List.filter (fun q => String.eqb (number q) "+5511999999999")
         (phones d1) = [p].
Proof.
  eexists _, _. split; [reflexivity|].
  destruct (create_phone_number_idempotent "+5511999999999" empty_db _ _
              eq_refl) as (_ & _ & Hagain & _ & _ & Hone).
  split; [exact Hagain | exact (Hone db_wf_empty)].
Defined.

Lemma find_map_same {A : Type} (test : A -> bool) (f : A -> A) (l : list A) :
  (forall x, test (f x) = test x) ->
  List.find test (List.map f l) = option_map f (List.find test l).
Proof.
  intros Hf. induction l as [|x l IH]; [reflexivity|]. cbn.
  rewrite Hf. destruct (test x); [reflexivity | exact IH].
Qed.

(** X10.  Toggling automation twice restores the database exactly.  A
    successful [toggle_ai_status] flips the flag of the row with that id,
    keeps its number and id, leaves every other row and every message as
    they were, and a second toggle gives back the original database; an
    unknown id changes nothing. *)
Theorem toggle_ai_status_involution (i : Z) (d : database) :
  (forall d1, toggle_ai_status i d = (true, d1) ->
      toggle_ai_status i d1 = (true, d)
      /\ messages d1 = messages d
      /\ (exists p, get_phone_by_id i d = Some p
                    /\ get_phone_by_id i d1
                       = Some {| phone_id := phone_id p; number := number p;
                                 ai_active := negb (ai_active p) |})
      /\ (forall q, In q (phones d) -> phone_id q <> i -> In q (phones d1)))
  /\ (get_phone_by_id i d = None -> toggle_ai_status i d = (false, d)).
Proof.
  split.
  2:{ intros Hnone. unfold toggle_ai_status. rewrite Hnone. reflexivity. }
  intros d1 H. unfold toggle_ai_status in H.
  destruct (get_phone_by_id i d) as [p|] eqn:Hget; [|discriminate].
  injection H as <-.
  set (f := fun p : PhoneNumber =>
              if (phone_id p =? i)%Z
              then {| phone_id := phone_id p; number := number p;
                      ai_active := negb (ai_active p) |}
              else p).
  assert (Hfi : forall q, (phone_id (f q) =? i)%Z = (phone_id q =? i)%Z)
    by (intros q; unfold f; destruct (phone_id q =? i)%Z eqn:He;
        [exact He | exact He]).
  assert (Hff : forall q, f (f q) = q).
  { intros q. unfold f at 2. destruct (phone_id q =? i)%Z eqn:He.
    - unfold f. cbn. rewrite He. destruct q as [qi qn qa]. cbn.
      rewrite negb_involutive. reflexivity.
    - unfold f. rewrite He. reflexivity. }
  assert (Hget1 : get_phone_by_id i (set_phones (List.map f (phones d))
                                       (next_phone_id d) d)
                  = Some (f p)).
  { unfold get_phone_by_id in *. cbn [db_up phones set_phones].
    destruct (db_up d); [|discriminate].
    rewrite (find_map_same _ f (phones d) Hfi), Hget. reflexivity. }
  split; [|split; [reflexivity|split]].
  - unfold toggle_ai_status. rewrite Hget1.
    cbn [phones next_phone_id set_phones].
    fold f. rewrite List.map_map.
    rewrite (List.map_ext _ (fun q => q) Hff), List.map_id.
    destruct d; reflexivity.
  - exists p. split; [reflexivity|]. rewrite Hget1. unfold f.
    destruct (get_phone_by_id_In i d p Hget) as [_ Hid].
    apply Z.eqb_eq in Hid. rewrite Hid. reflexivity.
  - intros q Hq Hne. cbn [phones set_phones].
    apply in_map_iff. exists q. split; [|exact Hq].
    unfold f. apply Z.eqb_neq in Hne. rewrite Hne. reflexivity.
Qed.

Lemma toggle_ai_status_involution_witness :
  let d := db (scenario_world false) in
  toggle_ai_status 1 d = (true, db (scenario_world true))
  /\ toggle_ai_status 1 (db (scenario_world true)) = (true, d).
Proof.
  intros d. split; [reflexivity|].
  apply (proj1 (toggle_ai_status_involution 1 d)). reflexivity.
Defined.

(** X11.  Deleting a conversation cascades and is final.  After a
    successful [delete_phone] the id is no longer found, no remaining
    message belongs to it, the messages and rows that remain are exactly
    those of the other conversations, and deleting the same id again
    fails without touching the database; an unknown id changes nothing. *)
Theorem delete_phone_cascades (i : Z) (d : database) :
  (forall d1, delete_phone i d = (true, d1) ->
      get_phone_by_id i d1 = None
      /\ (forall m, In m (messages d1)
                    <-> In m (messages d) /\ phone_number_id m <> i)
      /\ (forall q, In q (phones d1) <-> In q (phones d) /\ phone_id q <> i)
      /\ delete_phone i d1 = (false, d1))
  /\ (get_phone_by_id i d = None -> delete_phone i d = (false, d)).
Proof.
  split.
  2:{ intros Hnone. unfold delete_phone. rewrite Hnone. reflexivity. }
  intros d1 H. unfold delete_phone in H.
  destruct (get_phone_by_id i d) as [p|]; [|discriminate].
  injection H as <-.
  assert (Hgone : get_phone_by_id i
                    {| phones := List.filter
                                   (fun p => negb (phone_id p =? i)%Z) (phones d);
                       messages := List.filter
                                     (fun m => negb (phone_number_id m =? i)%Z)
                                     (messages d);
                       next_phone_id := next_phone_id d;
                       next_message_id := next_message_id d;
                       db_up := db_up d |} = None).
  { unfold get_phone_by_id. cbn [db_up phones].
    destruct (db_up d); [|reflexivity].
    apply find_none_all. intros q Hq.
    apply filter_In in Hq as [_ Hne]. apply negb_true_iff in Hne. exact Hne. }
  split; [exact Hgone|]. split; [|split].
  - intros m. cbn [messages]. rewrite filter_In, negb_true_iff, Z.eqb_neq.
    reflexivity.
  - intros q. cbn [phones]. rewrite filter_In, negb_true_iff, Z.eqb_neq.
    reflexivity.
  - unfold delete_phone. rewrite Hgone. reflexivity.
Qed.

(** ** Creating messages *)



(** [create_message] adds the message it returns at the end of the table,
    and nothing when it returns [None]. *)
Lemma create_message_messages (ios : string -> option Z) (pn : string)
    (content : option string) (mt : string) (au afu an aty : option string)
    (asz : pyval) (d : database) :
  messages (snd (create_message ios pn content mt au afu an aty asz d))
  = (messages d
     ++ match fst (create_message ios pn content mt au afu an aty asz d) with
        | Some m => [m]
        | None => []
        end)%list.
Proof.
  unfold create_message.
  destruct (negb (validate_message_type mt));
    [cbn; rewrite List.app_nil_r; reflexivity|].
  destruct (negb (str_truthy content) && negb (str_truthy au))%bool;
    [cbn; rewrite List.app_nil_r; reflexivity|].
  assert (H1 : messages (snd (match get_phone_by_number pn d with
                              | Some phone => (Some phone, d)
                              | None => create_phone_number pn d
                              end)) = messages d).
  { destruct (get_phone_by_number pn d) eqn:Hget; [reflexivity|].
    unfold create_phone_number. rewrite Hget.
    destruct (db_up d); reflexivity. }
  destruct (match get_phone_by_number pn d with
            | Some phone => (Some phone, d)
            | None => create_phone_number pn d
            end) as [[phone|] d1]; cbn [snd] in H1;
    [|cbn; rewrite List.app_nil_r; exact H1].
  destruct (_clean_attachment_data ios au afu an aty asz) as [c|];
    [|cbn; rewrite List.app_nil_r; exact H1].
  destruct (db_up d1); [|cbn; rewrite List.app_nil_r; exact H1].
  cbn. rewrite H1. reflexivity.
Qed.


(** X13.  A failed [send_message] changes nothing.  Whenever the route
    answers with a failure (missing data, missing phone number, neither
    content nor attachment, unknown phone number, or a message that could
    not be stored), the whole world is as it was: no conversation or
    message was added, no request was sent, no thread was started and the
    breaker was not touched. *)
Theorem send_message_failure_changes_nothing (E : env)
    (body : option send_request) (w w' : world) (status : Z)
    (message : string) :
  send_message E body w = (Failure status message, w') -> w' = w.
Proof.
  unfold send_message.
  destruct body as [data|]; [|intros H; injection H as _ _ <-; reflexivity].
  destruct (negb (str_truthy (sr_phone_number data)));
    [intros H; injection H as _ _ <-; reflexivity|].
  destruct (negb (str_truthy (sr_content data))
            && negb (str_truthy (sr_attachment_url data)))%bool;
    [intros H; injection H as _ _ <-; reflexivity|].
  destruct (get_phone_by_number _ (db w)) as [phone|] eqn:Hphone;
    [|intros H; injection H as _ _ <-; reflexivity].
  destruct (create_message _ _ _ _ _ _ _ _ _ _) as [[stored|] d1] eqn:Hc.
  - destruct (send_webhook _ _ _ _ _) as [[|] w2]; discriminate.
  - intros H. injection H as _ _ <-.
    assert (Hd : d1 = db w).
    { unfold create_message in Hc. rewrite Hphone in Hc.
      destruct (negb (validate_message_type _));
        [injection Hc as <-; reflexivity|].
      destruct (negb _ && negb _)%bool; [injection Hc as <-; reflexivity|].
      destruct (_clean_attachment_data _ _ _ _ _ _);
        [|injection Hc as <-; reflexivity].
      destruct (db_up (db w)); [discriminate|].
      injection Hc as <-; reflexivity. }
    rewrite Hd. apply set_db_same.
Qed.

Lemma send_message_failure_changes_nothing_witness :
  let E := sample_env (fails_then_ok 0) no_files in
  send_message E (Some (text_request "+5511888888888" "hello"))
    (scenario_world false)
  = (Failure 404 "Número não encontrado", scenario_world false).
Proof.
  intros E.
  destruct (send_message E (Some (text_request "+5511888888888" "hello"))
              (scenario_world false)) as [r w'] eqn:Hs.
  assert (Hr : r = Failure 404 "Número não encontrado")
    by (vm_compute in Hs; injection Hs as <- _; reflexivity).
  subst r.
  rewrite (send_message_failure_changes_nothing E _ _ _ _ _ Hs).
  reflexivity.
Defined.

Lemma create_phone_number_messages (n : string) (d : database) :
  messages (snd (create_phone_number n d)) = messages d.
Proof.
  unfold create_phone_number.
  destruct (get_phone_by_number n d); [reflexivity|].
  destruct (db_up d); reflexivity.
Qed.

(** X14.  Stored messages are never changed or removed by the message
    routes or by toggling: the table after [send_message] or
    [receive_message] is the table before followed by the one message the
    answer carries (and by nothing when the route fails), and [toggle_ai]
    leaves the table as it is.  So the type a message was given when it
    was created stays, whatever happens to the automation flag later. *)
Theorem messages_are_append_only (E : env) (sent : option send_request)
    (received : option receive_request) (i : Z) (w : world) :
  messages (db (snd (send_message E sent w)))
  = (messages (db w)
     ++ match fst (send_message E sent w) with
        | Sent m _ => [m]
        | _ => []
        end)%list
  /\ messages (db (snd (receive_message E received w)))
     = (messages (db w)
        ++ match fst (receive_message E received w) with
           | Received m _ _ => [m]
           | _ => []
           end)%list
  /\ messages (db (snd (toggle_ai E i w))) = messages (db w).
Proof.
  split; [|split].
  - unfold send_message.
    destruct sent as [data|]; [|cbn; rewrite List.app_nil_r; reflexivity].
    destruct (negb (str_truthy (sr_phone_number data)));
      [cbn; rewrite List.app_nil_r; reflexivity|].
    destruct (negb (str_truthy (sr_content data))
              && negb (str_truthy (sr_attachment_url data)))%bool;
      [cbn; rewrite List.app_nil_r; reflexivity|].
    destruct (get_phone_by_number _ (db w)) as [phone|];
      [|cbn; rewrite List.app_nil_r; reflexivity].
    pose proof (create_message_messages (int_of_str E)
                  (str_or (sr_phone_number data) "") (sr_content data)
                  (if ai_active phone then "ai" else "user")
                  (sr_attachment_url data) (sr_attachment_full_url data)
                  (sr_attachment_name data) (sr_attachment_type data)
                  (sr_attachment_size data) (db w)) as Hc.
    destruct (create_message _ _ _ _ _ _ _ _ _ _) as [[message|] d1];
      cbn [fst snd] in Hc; [|exact Hc].
    pose proof (send_webhook_db E (PyStr "message")
                  (PyStr (str_or (sr_phone_number data) ""))
                  (message_webhook_data E data
                     (if ai_active phone then "ai" else "user") phone message)
                  (set_db d1 w)) as Hd.
    destruct (send_webhook _ _ _ _ _) as [[|] w2]; cbn [fst snd] in *;
      cbn [db spawn send_webhook_with_retry]; rewrite Hd; exact Hc.
  - unfold receive_message.
    destruct received as [data|]; [|cbn; rewrite List.app_nil_r; reflexivity].
    destruct (negb (str_truthy (rr_phone_number data)));
      [cbn; rewrite List.app_nil_r; reflexivity|].
    destruct (negb (str_truthy (rr_message data))
              && negb (str_truthy (rr_attachment_url data)))%bool;
      [cbn; rewrite List.app_nil_r; reflexivity|].
    assert (H1 : messages (snd (match get_phone_by_number
                                        (str_or (rr_phone_number data) "")
                                        (db w) with
                                | Some phone => (Some phone, db w)
                                | None => create_phone_number
                                            (str_or (rr_phone_number data) "")
                                            (db w)
                                end)) = messages (db w)).
    { destruct (get_phone_by_number _ (db w)); [reflexivity|].
      apply create_phone_number_messages. }
    destruct (match get_phone_by_number _ (db w) with
              | Some phone => (Some phone, db w)
              | None => create_phone_number _ (db w)
              end) as [[phone|] d1]; cbn [snd] in H1;
      [|cbn; rewrite List.app_nil_r; exact H1].
    pose proof (process_attachment_facts E data (set_db d1 w)) as (Hdb & _).
    destruct (process_attachment E data (set_db d1 w)) as [a w1].
    cbn [fst snd] in Hdb. cbn [db set_db] in Hdb.
    pose proof (create_message_messages (int_of_str E)
                  (str_or (rr_phone_number data) "") (rr_message data) "lead"
                  (final_attachment_url a) (final_attachment_full_url a)
                  (final_attachment_name a) (final_attachment_type a)
                  (final_attachment_size a) (db w1)) as Hc.
    rewrite Hdb in Hc at 2. rewrite H1 in Hc.
    destruct (create_message _ _ _ _ _ _ _ _ _ _) as [[message|] d2];
      exact Hc.
  - unfold toggle_ai.
    destruct (get_phone_by_id i (db w)) as [phone|] eqn:Hget; [|reflexivity].
    unfold toggle_ai_status. rewrite Hget. cbn [negb].
    match goal with
    | |- context [send_webhook E ?a ?b ?c ?w0] =>
        pose proof (send_webhook_db E a b c w0) as Hd;
        destruct (send_webhook E a b c w0) as [sent_now w1]
    end.
    cbn [snd] in *. rewrite Hd. reflexivity.
Qed.

(** ** Attachments on the inbound route *)










(** ** File names and types *)

Lemma rsplit1_None (c : ascii) (s : string) :
  Str.rsplit1 c s = None <-> Str.contains c s = false.
Proof.
  induction s as [|a rest IH]; cbn; [tauto|].
  destruct (Str.rsplit1 c rest) as [[pre post]|].
  - split; [discriminate|]. intros H. apply orb_false_iff in H as [_ H].
    apply IH in H. discriminate.
  - destruct (Ascii.eqb a c); cbn; [split; discriminate|].
    split; intros _; [apply IH; reflexivity | reflexivity].
Qed.

Lemma extension_of_None (filename : string) :
  extension_of filename = None <-> Str.contains "." filename = false.
Proof.
  unfold extension_of. rewrite <- rsplit1_None.
  destruct (Str.rsplit1 "." filename) as [[pre post]|];
    split; intros H; try discriminate; reflexivity.
Qed.

Lemma mem_subset (x : string) (xs ys : list string) :
  forallb (fun y => Str.mem y ys) xs = true ->
  Str.mem x xs = true -> Str.mem x ys = true.
Proof.
  intros Hall Hx. apply mem_In in Hx.
  rewrite forallb_forall in Hall. exact (Hall x Hx).
Qed.

Lemma get_file_type_valid (filename : string) :
  Str.mem (get_file_type filename) valid_types = true.
Proof.
  unfold get_file_type.
  repeat match goal with
         | |- context [if Str.mem ?e ?l then _ else _] =>
             destruct (Str.mem e l)
         end; reflexivity.
Qed.

Lemma get_file_type_allowed (filename : string) :
  get_file_type filename <> "file" -> allowed_file filename = true.
Proof.
  unfold get_file_type, allowed_file.
  destruct (extension_of filename) as [ext|]; unfold default;
    cbn [from_option id].
  2:{ intros H. exfalso. apply H. reflexivity. }
  destruct (Str.mem ext ["png"; "jpg"; "jpeg"; "gif"; "webp"]) eqn:H1;
    [intros _; revert H1; apply mem_subset; reflexivity|].
  destruct (Str.mem ext ["mp4"; "avi"; "mov"; "wmv"; "webm"]) eqn:H2;
    [intros _; revert H2; apply mem_subset; reflexivity|].
  destruct (Str.mem ext ["mp3"; "wav"; "ogg"; "m4a"; "aac"]) eqn:H3;
    [intros _; revert H3; apply mem_subset; reflexivity|].
  destruct (Str.mem ext ["pdf"]) eqn:H4;
    [intros _; revert H4; apply mem_subset; reflexivity|].
  destruct (Str.mem ext ["doc"; "docx"; "txt"]) eqn:H5;
    [intros _; revert H5; apply mem_subset; reflexivity|].
  intros H. exfalso. apply H. reflexivity.
Qed.

(** The name a download falls back to has an extension from the allow-list,
    or [bin]. *)
Lemma renamed_extension (file_type : string) :
  exists ext,
    extension_of ("attachment." ++ get_extension_from_type file_type)
    = Some ext
    /\ (Str.mem ext ALLOWED_EXTENSIONS = true \/ ext = "bin").
Proof.
  unfold get_extension_from_type.
  repeat match goal with
         | |- context [if String.eqb ?a ?b then _ else _] =>
             destruct (String.eqb a b)
         end;
    (eexists; split; [vm_compute; reflexivity|]);
    first [left; reflexivity | right; reflexivity].
Qed.

(** X17.  File types and extensions agree across the helpers.
    [get_file_type] always answers one of the six types the attachment
    cleaner accepts, so the cleaner never rewrites a type it computed; a
    name without a dot is never allowed and has type [file]; every name
    whose type is not [file] is allowed, and the only allowed names of
    type [file] are the archives (zip, rar).  The extension
    [get_extension_from_type] picks for image, video, audio, pdf and
    document gives an allowed name that [get_file_type] maps back to the
    same type; for anything else it is [bin], which is not allowed. *)
Theorem file_types_are_consistent (filename file_type : string) :
  Str.mem (get_file_type filename) valid_types = true
  /\ clean_type (Some (get_file_type filename)) = get_file_type filename
  /\ (Str.contains "." filename = false ->
      allowed_file filename = false /\ get_file_type filename = "file")
  /\ (get_file_type filename <> "file" -> allowed_file filename = true)
  /\ (allowed_file filename = true ->
      (get_file_type filename = "file"
       <-> extension_of filename = Some "zip"
           \/ extension_of filename = Some "rar"))
  /\ (Str.mem file_type ["image"; "video"; "audio"; "pdf"; "document"] = true ->
      allowed_file ("attachment." ++ get_extension_from_type file_type) = true
      /\ get_file_type ("attachment." ++ get_extension_from_type file_type)
         = file_type)
  /\ (Str.mem file_type ["image"; "video"; "audio"; "pdf"; "document"] = false ->
      get_extension_from_type file_type = "bin"
      /\ allowed_file "attachment.bin" = false).
Proof.
  split; [apply get_file_type_valid|].
  split.
  { pose proof (get_file_type_valid filename) as Hv.
    unfold clean_type. rewrite Hv.
    destruct (String.eqb (get_file_type filename) "") eqn:He; [|reflexivity].
    apply String.eqb_eq in He. rewrite He in Hv. discriminate. }
  split.
  { intros Hdot. apply extension_of_None in Hdot.
    unfold allowed_file, get_file_type. rewrite Hdot. split; reflexivity. }
  split; [apply get_file_type_allowed|].
  split.
  { unfold allowed_file, get_file_type.
    destruct (extension_of filename) as [ext|]; [|discriminate].
    intros Hext. unfold default; cbn [from_option id].
    apply mem_In in Hext. cbn in Hext.
    repeat (destruct Hext as [<-|Hext];
            [vm_compute; split;
             [intros H; first [discriminate H | auto]
             |intros [H|H]; first [discriminate H | reflexivity]]|]).
    destruct Hext. }
  split.
  { intros Ht. apply mem_In in Ht. cbn in Ht.
    repeat (destruct Ht as [<-|Ht]; [split; vm_compute; reflexivity|]).
    destruct Ht. }
  intros Ht. split; [|reflexivity].
  unfold Str.mem in Ht. cbn [existsb] in Ht.
  repeat (apply orb_false_iff in Ht as [? Ht]).
  unfold get_extension_from_type.
  repeat match goal with H : String.eqb _ _ = false |- _ => rewrite H; clear H end.
  reflexivity.
Qed.

(** X18.  What a download may leave in the upload directory.  A
    successful [download_attachment_enhanced] got a reply whose declared
    size (the Content-Length header, else the caller's size, else 0) is
    at most 50 MiB, wrote exactly one file, named by the fresh stem and
    an extension that is in [ALLOWED_EXTENSIONS] or is [bin] (a name
    without a dot, or a disallowed name renamed after an unknown type),
    and reports the size of the body it wrote, not the declared one.
    Nothing else in the process changes. *)
Theorem download_saves_under_checked_extension (E : env) (url : string)
    (original_filename original_type : option string) (original_size : pyval)
    (w w' : world) (d : downloaded) :
  download_attachment_enhanced E url original_filename original_type
    original_size w = (DownloadOk d, w') ->
  exists (r : remote_file) (declared : Z) (ext : string),
    http_get E url = GetOk r
    /\ declared_size E r original_size = IntOk declared
    /\ declared <= MAX_UPLOAD_SIZE
    /\ dl_unique_filename d = unique_stem E (size (uploads w)) ++ "." ++ ext
    /\ (Str.mem ext ALLOWED_EXTENSIONS = true \/ ext = "bin")
    /\ dl_size d = body_size r
    /\ w' = set_uploads (<[dl_unique_filename d := body_size r]> (uploads w)) w.
Proof.
  unfold download_attachment_enhanced.
  destruct (http_get E url) as [|r] eqn:Hget; [discriminate|].
  destruct (declared_size E r original_size) as [file_size| | |] eqn:Hsize;
    try discriminate.
  destruct (MAX_UPLOAD_SIZE <? file_size)%Z eqn:Hmax; [discriminate|].
  apply Z.ltb_ge in Hmax.
  set (filename := if str_truthy original_filename
                   then secure_filename E (str_or original_filename "")
                   else extract_filename_from_response E r url).
  assert (Hext : forall name,
             (if (Str.contains "." filename && negb (allowed_file filename))%bool
              then
                if (negb (str_truthy original_type)
                    || String.eqb (str_or original_type "") "file")%bool
                then None
                else Some ("attachment."
                           ++ get_extension_from_type (str_or original_type ""))
              else Some filename) = Some name ->
             Str.mem (default "bin" (extension_of name)) ALLOWED_EXTENSIONS
             = true
             \/ default "bin" (extension_of name) = "bin").
  { intros name.
    destruct (Str.contains "." filename) eqn:Hdot; cbn [andb].
    - destruct (allowed_file filename) eqn:Hallowed; cbn [negb].
      + intros H. injection H as <-. left.
        unfold allowed_file in Hallowed.
        destruct (extension_of filename) as [ext|]; [exact Hallowed|].
        discriminate.
      + destruct (negb (str_truthy original_type)
                  || String.eqb (str_or original_type "") "file")%bool;
          [discriminate|].
        intros H. injection H as <-.
        destruct (renamed_extension (str_or original_type ""))
          as (ext & -> & Hok).
        exact Hok.
    - intros H. injection H as <-. right.
      apply extension_of_None in Hdot. rewrite Hdot. reflexivity. }
  destruct (if (Str.contains "." filename && negb (allowed_file filename))%bool
            then _ else _) as [name|]; [|discriminate].
  specialize (Hext name eq_refl).
  intros H. injection H as <- <-.
  exists r, file_size, (default "bin" (extension_of name)).
  cbn [dl_unique_filename dl_size].
  split; [reflexivity|]. split; [exact Hsize|]. split; [exact Hmax|].
  split; [reflexivity|]. split; [exact Hext|]. split; reflexivity.
Qed.

Lemma download_saves_under_checked_extension_witness :
  let E := sample_env (fails_then_ok 0) photo_host in
  let d :=
    {| dl_url := "/chat/uploads/upload0.jpg";
       dl_full_url := "http://localhost:5000/chat/uploads/upload0.jpg";
       dl_filename := "setup.exe";
       dl_unique_filename := "upload0.jpg";
       dl_size := 2048;
       dl_type := "image" |} in
  download_attachment_enhanced E "https://cdn.example/setup.exe"
    (Some "setup.exe") (Some "image") PyNone (fresh_world 1000)
  = (DownloadOk d,
     set_uploads (<["upload0.jpg" := 2048]> ∅) (fresh_world 1000))
  /\ exists (r : remote_file) (declared : Z) (ext : string),
       http_get E "https://cdn.example/setup.exe" = GetOk r
       /\ declared_size E r PyNone = IntOk declared
       /\ declared <= MAX_UPLOAD_SIZE
       /\ dl_unique_filename d
          = unique_stem E (size (uploads (fresh_world 1000))) ++ "." ++ ext
       /\ (Str.mem ext ALLOWED_EXTENSIONS = true \/ ext = "bin")
       /\ dl_size d = body_size r
       /\ set_uploads (<["upload0.jpg" := 2048]> ∅) (fresh_world 1000)
          = set_uploads
              (<[dl_unique_filename d := body_size r]>
                 (uploads (fresh_world 1000)))
              (fresh_world 1000).
Proof.
  intros E d. split; [vm_compute; reflexivity|].
  apply (download_saves_under_checked_extension E
           "https://cdn.example/setup.exe" (Some "setup.exe") (Some "image")
           PyNone (fresh_world 1000)
           (set_uploads (<["upload0.jpg" := 2048]> ∅) (fresh_world 1000)) d).
  vm_compute. reflexivity.
Defined.

(** ** Stored messages *)









Lemma display_type_name_nonempty (attachment_type : option string) :
  display_type_name attachment_type <> "".
Proof.
  unfold display_type_name.
  repeat match goal with
         | |- context [match ?x with _ => _ end] => destruct x
         end; discriminate.
Qed.

(** X20.  How the model methods see a well-formed row.  Such a message
    passes [is_valid_attachment]; its display name is absent exactly when
    it has no attachment, is never empty, and is the generic [Anexo] only
    when the attachment is named so (the fallback by type always finds a
    type it knows); and [to_dict], whose [x or None] drops empty and zero
    values, reports its attachment type, size and full url exactly as
    stored, and reports no attachment url exactly when [has_attachment]
    is false. *)
Theorem well_formed_message_views (m : Message) :
  message_ok m ->
  is_valid_attachment m = true
  /\ (get_attachment_display_name m = None <-> has_attachment m = false)
  /\ (forall s, get_attachment_display_name m = Some s ->
                s <> ""
                /\ (s = "Anexo" -> attachment_name m = Some "Anexo"))
  /\ md_attachment_type (to_dict m) = attachment_type m
  /\ md_attachment_size (to_dict m) = attachment_size m
  /\ md_attachment_full_url (to_dict m) = attachment_full_url m
  /\ (md_attachment_url (to_dict m) = None <-> has_attachment m = false).
Proof.
  intros (_ & _ & Hatt & Hsize).
  assert (Htype : has_attachment m = true ->
                  exists t, attachment_type m = Some t
                            /\ Str.mem t valid_types = true).
  { unfold has_attachment. destruct (attachment_url m); [|discriminate].
    intros _. exact (proj2 (proj2 Hatt)). }
  split.
  { unfold is_valid_attachment.
    destruct (has_attachment m) eqn:Hhas; [|reflexivity]. cbn [negb].
    destruct (Htype eq_refl) as (t & -> & Ht).
    apply mem_In in Ht. cbn in Ht.
    repeat (destruct Ht as [<-|Ht]; [reflexivity|]). destruct Ht. }
  split.
  { unfold get_attachment_display_name.
    destruct (has_attachment m); cbn [negb]; [|tauto].
    destruct (str_truthy (attachment_name m)) eqn:Hname.
    - destruct (attachment_name m); [|discriminate]. split; discriminate.
    - split; discriminate. }
  split.
  { intros s. unfold get_attachment_display_name.
    destruct (has_attachment m) eqn:Hhas; cbn [negb]; [|discriminate].
    destruct (str_truthy (attachment_name m)) eqn:Hname.
    - destruct (attachment_name m) as [name|]; [|discriminate].
      intros H. injection H as <-. split; [|intros ->; reflexivity].
      cbn in Hname. apply negb_true_iff, String.eqb_neq in Hname.
      exact Hname.
    - intros H. injection H as <-.
      split; [apply display_type_name_nonempty|].
      destruct (Htype eq_refl) as (t & -> & Ht).
      apply mem_In in Ht. cbn in Ht.
      repeat (destruct Ht as [<-|Ht]; [discriminate|]). destruct Ht. }
  split.
  { unfold to_dict. cbn [md_attachment_type]. unfold str_or_none.
    destruct (attachment_url m).
    - destruct Hatt as (_ & _ & t & -> & Ht).
      apply mem_In in Ht. cbn in Ht.
      repeat (destruct Ht as [<-|Ht]; [reflexivity|]). destruct Ht.
    - destruct Hatt as (_ & _ & -> & _). reflexivity. }
  split.
  { unfold to_dict. cbn [md_attachment_size].
    destruct (attachment_size m) as [n|]; [|reflexivity].
    specialize (Hsize n eq_refl).
    destruct (Z.eqb_spec n 0); [lia | reflexivity]. }
  split.
  { unfold to_dict. cbn [md_attachment_full_url]. unfold str_or_none.
    destruct (attachment_url m).
    - destruct Hatt as (-> & _). reflexivity.
    - destruct Hatt as (-> & _). reflexivity. }
  unfold to_dict. cbn [md_attachment_url]. unfold str_or_none, has_attachment.
  destruct (str_truthy (attachment_url m)) eqn:Hurl.
  - destruct (attachment_url m); [|discriminate]. split; discriminate.
  - tauto.
Qed.

Lemma well_formed_message_views_witness :
  let m :=
    {| message_id := 1; phone_number_id := 1; content := "";
       type := "lead";
       attachment_url := Some "/chat/uploads/photo.png";
       attachment_full_url := Some "http://localhost:5000/chat/uploads/photo.png";
       attachment_name := Some "";
       attachment_type := Some "image";
       attachment_size := Some 2048 |} in
  message_ok m
  /\ get_attachment_display_name m = Some "Imagem"
  /\ is_valid_attachment m = true
  /\ md_attachment_size (to_dict m) = Some 2048.
Proof.
  intros m.
  assert (Hok : message_ok m).
  { split; [reflexivity|]. split; [right; eexists; reflexivity|].
    split; [|intros n H; injection H as <-; reflexivity].
    split; [reflexivity|]. split; [eexists; reflexivity|].
    eexists. split; reflexivity. }
  split; [exact Hok|]. split; [reflexivity|].
  destruct (well_formed_message_views m Hok) as (Hvalid & _ & _ & _ & Hsz & _).
  split; [exact Hvalid | exact Hsz].
Defined.

(** ** Uploads *)










(** X21.  What [upload_attachment] lets in.  The route saves a file
    exactly when the form has a file part with a non-empty name, a
    non-empty phone number, a body of at most 50 MiB (an empty file
    included) and a name that [allowed_file] accepts.  Then the one
    change is the new file in the upload directory, named by the fresh
    stem and the extension of the sanitised name, with the size the
    answer reports, and the answer's url points at it; the type it
    reports is one of the six attachment types.  Every refusal is a 400
    and changes nothing. *)
Theorem upload_attachment_accepts_iff (E : env)
    (guess_type : string -> option string) (req : upload_request)
    (w : world) :
  ((exists u w', upload_attachment E guess_type req w = (UploadOk u, w'))
   <-> exists raw_filename file_size,
         up_file req = Some (raw_filename, file_size)
         /\ raw_filename <> ""
         /\ str_truthy (up_phone_number req) = true
         /\ file_size <= MAX_UPLOAD_SIZE
         /\ allowed_file raw_filename = true)
  /\ (forall u w',
         upload_attachment E guess_type req w = (UploadOk u, w') ->
         exists raw_filename unique_filename,
           up_file req = Some (raw_filename, u_size u)
           /\ unique_filename
              = unique_stem E (size (uploads w)) ++ "."
                ++ default "" (extension_of (secure_filename E raw_filename))
           /\ u_url u = "/chat/uploads/" ++ unique_filename
           /\ w' = set_uploads (<[unique_filename := u_size u]> (uploads w)) w
           /\ Str.mem (u_type u) valid_types = true)
  /\ (forall status message w',
         upload_attachment E guess_type req w
         = (UploadFailure status message, w') ->
         status = 400 /\ w' = w).
Proof.
  unfold upload_attachment.
  destruct (up_file req) as [[raw_filename file_size]|].
  2:{ split; [|split].
      - split; [intros (u & w' & H); discriminate
               | intros (r & s & H & _); discriminate].
      - intros u w' H; discriminate.
      - intros status message w' H. injection H as <- _ <-. split; reflexivity. }
  destruct (String.eqb_spec raw_filename "") as [Hempty|Hname].
  { split; [|split].
    - split; [intros (u & w' & H); discriminate|].
      intros (r & s & H & Hr & _). injection H as <- <-. contradiction.
    - intros u w' H; discriminate.
    - intros status message w' H. injection H as <- _ <-. split; reflexivity. }
  destruct (str_truthy (up_phone_number req)) eqn:Hphone; cbn [negb].
  2:{ split; [|split].
      - split; [intros (u & w' & H); discriminate|].
        intros (r & s & _ & _ & H & _). discriminate.
      - intros u w' H; discriminate.
      - intros status message w' H. injection H as <- _ <-. split; reflexivity. }
  destruct (MAX_UPLOAD_SIZE <? file_size)%Z eqn:Hmax.
  { apply Z.ltb_lt in Hmax. split; [|split].
    - split; [intros (u & w' & H); discriminate|].
      intros (r & s & H & _ & _ & Hs & _). injection H as <- <-. lia.
    - intros u w' H; discriminate.
    - intros status message w' H. injection H as <- _ <-. split; reflexivity. }
  apply Z.ltb_ge in Hmax.
  destruct (allowed_file raw_filename) eqn:Hallowed; cbn [negb].
  2:{ split; [|split].
      - split; [intros (u & w' & H); discriminate|].
        intros (r & s & H & _ & _ & _ & Ha). injection H as <- <-.
        congruence.
      - intros u w' H; discriminate.
      - intros status message w' H. injection H as <- _ <-. split; reflexivity. }
  split; [|split].
  - split; [|intros _; eauto].
    intros _. exists raw_filename, file_size. repeat split; assumption.
  - intros u w' H. injection H as <- <-.
    cbn [u_size u_url u_type].
    eexists raw_filename, _. split; [reflexivity|].
    split; [reflexivity|]. split; [reflexivity|]. split; [reflexivity|].
    apply get_file_type_valid.
  - intros status message w' H. discriminate.
Qed.



(** ** Conversations through the routes *)

Lemma find_unique {A B : Type} (g : A -> B) (same : B -> B -> bool)
    (l : list A) (x : A) :
  (forall a b, same a b = true <-> a = b) ->
  List.NoDup (List.map g l) -> In x l ->
  List.find (fun y => same (g y) (g x)) l = Some x.
Proof.
  intros Hsame. induction l as [|y l IH]; intros Hnd Hin; [destruct Hin|].
  cbn in Hnd. inversion Hnd as [|z l' Hy Hl]; subst. cbn.
  destruct Hin as [->|Hin].
  - assert (Hxx : same (g x) (g x) = true) by (apply Hsame; reflexivity).
    rewrite Hxx. reflexivity.
  - destruct (same (g y) (g x)) eqn:Hs.
    + apply Hsame in Hs. exfalso. apply Hy. rewrite Hs. apply in_map, Hin.
    + apply IH; assumption.
Qed.

(** With unique numbers, the row found by id is the row found by its
    number. *)
Lemma get_phone_by_number_of_id (i : Z) (d : database) (p : PhoneNumber) :
  db_wf d ->
  get_phone_by_id i d = Some p ->
  get_phone_by_number (number p) d = Some p.
Proof.
  intros (Hnd & _) Hget.
  destruct (get_phone_by_id_In i d p Hget) as [Hin _].
  unfold get_phone_by_id in Hget. unfold get_phone_by_number.
  destruct (db_up d); [|discriminate].
  apply (find_unique number String.eqb (phones d) p);
    [intros a b; apply String.eqb_eq | exact Hnd | exact Hin].
Qed.

(** The message [create_message] stores belongs to the row of the phone
    number, when there is one. *)
Lemma create_message_owner (ios : string -> option Z) (pn : string)
    (text : option string) (mt : string) (au afu an aty : option string)
    (asz : pyval) (d d' : database) (m : Message) (phone : PhoneNumber) :
  get_phone_by_number pn d = Some phone ->
  create_message ios pn text mt au afu an aty asz d = (Some m, d') ->
  phone_number_id m = phone_id phone /\ type m = mt
  /\ phones d' = phones d /\ db_up d' = db_up d
  /\ next_phone_id d' = next_phone_id d.
Proof.
  intros Hphone. unfold create_message. rewrite Hphone.
  destruct (negb (validate_message_type mt)); [discriminate|].
  destruct (negb (str_truthy text) && negb (str_truthy au))%bool;
    [discriminate|].
  destruct (_clean_attachment_data ios au afu an aty asz) as [c|];
    [|discriminate].
  destruct (db_up d) eqn:Hup; [|discriminate].
  intros H. injection H as <- <-.
  cbn [phone_number_id type phones db_up next_phone_id set_messages].
  rewrite Hup. repeat split.
Qed.

(** What [send_message] stores for a phone number that has a row. *)
Lemma send_message_known (E : env) (data : send_request) (w w' : world)
    (phone : PhoneNumber) (m : Message) (webhook_sent : bool) :
  sr_phone_number data = Some (number phone) ->
  get_phone_by_number (number phone) (db w) = Some phone ->
  send_message E (Some data) w = (Sent m webhook_sent, w') ->
  type m = (if ai_active phone then "ai" else "user")
  /\ phone_number_id m = phone_id phone.
Proof.
  intros Hpn Hphone. unfold send_message. rewrite Hpn.
  destruct (str_truthy (Some (number phone))) eqn:Htruthy; cbn [negb];
    [|discriminate].
  assert (Hor : str_or (Some (number phone)) "" = number phone).
  { cbn in Htruthy |- *. destruct (String.eqb (number phone) "");
      [discriminate | reflexivity]. }
  rewrite Hor.
  destruct (negb (str_truthy (sr_content data))
            && negb (str_truthy (sr_attachment_url data)))%bool;
    [discriminate|].
  rewrite Hphone.
  destruct (create_message _ _ _ _ _ _ _ _ _ _) as [[message|] d1] eqn:Hc;
    [|discriminate].
  destruct (create_message_owner _ _ _ _ _ _ _ _ _ _ _ _ _ Hphone Hc)
    as (Hid & Hty & _).
  destruct (send_webhook _ _ _ _ _) as [[|] w2];
    intros H; injection H as <- _ _; split; assumption.
Qed.

(** A successful [toggle_ai]: the row it found, the toggle, and the one
    call of [send_webhook]. *)
Lemma toggle_ai_ok (E : env) (i : Z) (w w1 : world)
    (webhook_sent new_status : bool) :
  toggle_ai E i w = (Toggled webhook_sent new_status, w1) ->
  exists (p : PhoneNumber),
    get_phone_by_id i (db w) = Some p
    /\ new_status = negb (ai_active p)
    /\ send_webhook E (PyStr "ai_toggle") (PyStr (number p))
         (toggle_webhook_data E (ai_active p) (negb (ai_active p)) i)
         (set_db (snd (toggle_ai_status i (db w))) w)
       = (webhook_sent, w1).
Proof.
  unfold toggle_ai.
  destruct (get_phone_by_id i (db w)) as [p|] eqn:Hget; [|discriminate].
  unfold toggle_ai_status. rewrite Hget. cbn [negb snd].
  destruct (send_webhook _ _ _ _ _) as [sent_now w2] eqn:Hs.
  intros H. injection H as <- <- <-.
  exists p. split; [reflexivity|]. split; [reflexivity | exact Hs].
Qed.

(** The row with id [i] after a toggle. *)
Lemma toggle_ai_status_row (i : Z) (d : database) (p : PhoneNumber) :
  db_wf d ->
  get_phone_by_id i d = Some p ->
  let toggled := {| phone_id := phone_id p; number := number p;
                    ai_active := negb (ai_active p) |} in
  get_phone_by_id i (snd (toggle_ai_status i d)) = Some toggled
  /\ get_phone_by_number (number p) (snd (toggle_ai_status i d))
     = Some toggled.
Proof.
  intros Hwf Hget toggled.
  pose proof (get_phone_by_number_of_id i d p Hwf Hget) as Hnum.
  destruct (get_phone_by_id_In i d p Hget) as [_ Hid].
  unfold toggle_ai_status. rewrite Hget. cbn [snd].
  set (f := fun q : PhoneNumber =>
              if (phone_id q =? i)%Z
              then {| phone_id := phone_id q; number := number q;
                      ai_active := negb (ai_active q) |}
              else q).
  assert (Hfp : f p = toggled).
  { unfold f. apply Z.eqb_eq in Hid. rewrite Hid. reflexivity. }
  assert (Hfi : forall q, (phone_id (f q) =? i)%Z = (phone_id q =? i)%Z).
  { intros q. unfold f. destruct (phone_id q =? i)%Z eqn:He; exact He. }
  assert (Hfn : forall q, String.eqb (number (f q)) (number p)
                          = String.eqb (number q) (number p)).
  { intros q. unfold f. destruct (phone_id q =? i)%Z; reflexivity. }
  unfold get_phone_by_id, get_phone_by_number in *.
  cbn [db_up phones set_phones].
  destruct (db_up d); [|discriminate].
  rewrite (find_map_same (fun q => (phone_id q =? i)%Z) f (phones d) Hfi).
  rewrite (find_map_same (fun q => String.eqb (number q) (number p)) f
             (phones d) Hfn).
  rewrite Hget, Hnum. cbn [option_map]. rewrite Hfp. split; reflexivity.
Qed.

Lemma db_wf_scenario (automation : bool) :
  db_wf (db (scenario_world automation)).
Proof.
  unfold db_wf. cbn.
  split; [repeat constructor; intros []|].
  split; [repeat constructor; intros []|].
  split; [intros p [<-|[]]; cbn; lia|].
  split; [constructor|]. split; intros m [].
Qed.

(** X23.  After the automation toggle, outbound messages are classified
    by the new status.  When [toggle_ai] answers with success, the status
    it reports is the negation of the flag the row had, the row now
    carries it (found by id and, phone numbers being unique, by number),
    the route made at most one POST and started no retry thread, and
    every message [send_message] then stores for that number has type
    [ai] when the reported status is true and [user] when it is false,
    and belongs to that conversation. *)
Theorem toggle_then_send_classifies (E : env) (i : Z) (w w1 : world)
    (webhook_sent new_status : bool) :
  db_wf (db w) ->
  toggle_ai E i w = (Toggled webhook_sent new_status, w1) ->
  exists (p : PhoneNumber),
    get_phone_by_id i (db w) = Some p
    /\ new_status = negb (ai_active p)
    /\ get_phone_by_id i (db w1)
       = Some {| phone_id := i; number := number p;
                 ai_active := new_status |}
    /\ get_phone_by_number (number p) (db w1)
       = Some {| phone_id := i; number := number p;
                 ai_active := new_status |}
    /\ threads w1 = threads w
    /\ (posts_made (trace w1) <= S (posts_made (trace w)))%nat
    /\ (forall (data : send_request) (m : Message) (sent_now : bool)
               (w2 : world),
           sr_phone_number data = Some (number p) ->
           send_message E (Some data) w1 = (Sent m sent_now, w2) ->
           type m = (if new_status then "ai" else "user")
           /\ phone_number_id m = i).
Proof.
  intros Hwf Htoggle.
  destruct (toggle_ai_ok E i w w1 webhook_sent new_status Htoggle)
    as (p & Hget & Hns & Hsend).
  destruct (get_phone_by_id_In i (db w) p Hget) as [_ Hid].
  destruct (toggle_ai_status_row i (db w) p Hwf Hget) as [Hrow Hnum].
  rewrite Hid, <- Hns in Hrow, Hnum.
  assert (Hdb : db w1 = snd (toggle_ai_status i (db w))).
  { pose proof (send_webhook_db E (PyStr "ai_toggle") (PyStr (number p))
                  (toggle_webhook_data E (ai_active p) (negb (ai_active p)) i)
                  (set_db (snd (toggle_ai_status i (db w))) w)) as Hd.
    rewrite Hsend in Hd. exact Hd. }
  exists p. split; [exact Hget|]. split; [exact Hns|].
  rewrite Hdb. split; [exact Hrow|]. split; [exact Hnum|].
  split.
  { pose proof (send_webhook_threads E (PyStr "ai_toggle") (PyStr (number p))
                  (toggle_webhook_data E (ai_active p) (negb (ai_active p)) i)
                  (set_db (snd (toggle_ai_status i (db w))) w)) as Ht.
    rewrite Hsend in Ht. exact Ht. }
  split.
  { destruct (send_webhook_trace E (PyStr "ai_toggle") (PyStr (number p))
                (toggle_webhook_data E (ai_active p) (negb (ai_active p)) i)
                (set_db (snd (toggle_ai_status i (db w))) w))
      as (evs & Htr & _ & Hposts).
    rewrite Hsend in Htr. cbn [snd] in Htr.
    change (trace (set_db (snd (toggle_ai_status i (db w))) w))
      with (trace w) in Htr.
    rewrite Htr, posts_made_app. lia. }
  intros data m sent_now w2 Hpn Hs.
  rewrite <- Hdb in Hnum.
  exact (send_message_known E data w1 w2
           {| phone_id := i; number := number p; ai_active := new_status |}
           m sent_now Hpn Hnum Hs).
Qed.

Lemma toggle_then_send_classifies_witness :
  let E := sample_env (fails_then_ok 0) no_files in
  let w1 := snd (toggle_ai E 1 (scenario_world false)) in
  toggle_ai E 1 (scenario_world false) = (Toggled true true, w1)
  /\ exists (p : PhoneNumber),
       get_phone_by_id 1 (db (scenario_world false)) = Some p
       /\ true = negb (ai_active p)
       /\ get_phone_by_id 1 (db w1)
          = Some {| phone_id := 1; number := number p; ai_active := true |}
       /\ get_phone_by_number (number p) (db w1)
          = Some {| phone_id := 1; number := number p; ai_active := true |}
       /\ threads w1 = threads (scenario_world false)
       /\ (posts_made (trace w1)
           <= S (posts_made (trace (scenario_world false))))%nat
       /\ (forall (data : send_request) (m : Message) (sent_now : bool)
                  (w2 : world),
              sr_phone_number data = Some (number p) ->
              send_message E (Some data) w1 = (Sent m sent_now, w2) ->
              type m = "ai" /\ phone_number_id m = 1).
Proof.
  intros E w1.
  assert (Htoggle : toggle_ai E 1 (scenario_world false)
                    = (Toggled true true, w1))
    by (vm_compute; reflexivity).
  split; [exact Htoggle|].
  exact (toggle_then_send_classifies E 1 (scenario_world false) w1 true true
           (db_wf_scenario false) Htoggle).
Defined.




Lemma NoDup_map_eq {A B : Type} (g : A -> B) (l : list A) (x y : A) :
  List.NoDup (List.map g l) -> In x l -> In y l -> g x = g y -> x = y.
Proof.
  induction l as [|z l IH]; intros Hnd Hx Hy Heq; [destruct Hx|].
  cbn in Hnd. inversion Hnd as [|z' l' Hz Hl]; subst.
  destruct Hx as [->|Hx], Hy as [->|Hy].
  - reflexivity.
  - exfalso. apply Hz. rewrite Heq. apply in_map, Hy.
  - exfalso. apply Hz. rewrite <- Heq. apply in_map, Hx.
  - apply IH; assumption.
Qed.

(** A successful [delete_phone] route: the row it found, the deletion,
    and the one call of [send_webhook]. *)
Lemma delete_phone_route_ok (E : env) (i : Z) (w w1 : world)
    (webhook_sent : bool) :
  delete_phone_route E i w = (PhoneDeleted webhook_sent, w1) ->
  exists (p : PhoneNumber),
    get_phone_by_id i (db w) = Some p
    /\ send_webhook E (PyStr "phone_deleted") (PyStr (number p))
         (delete_webhook_data E i) (set_db (snd (delete_phone i (db w))) w)
       = (webhook_sent, w1).
Proof.
  unfold delete_phone_route.
  destruct (get_phone_by_id i (db w)) as [p|] eqn:Hget; [|discriminate].
  unfold delete_phone. rewrite Hget. cbn [negb snd].
  destruct (send_webhook _ _ _ _ _) as [sent_now w2] eqn:Hs.
  intros H. injection H as <- <-.
  exists p. split; [reflexivity | exact Hs].
Qed.

(** After the deletion, neither the id nor the number of the row is
    found. *)
Lemma delete_phone_forgets (i : Z) (d : database) (p : PhoneNumber) :
  db_wf d ->
  get_phone_by_id i d = Some p ->
  get_phone_by_id i (snd (delete_phone i d)) = None
  /\ get_phone_by_number (number p) (snd (delete_phone i d)) = None.
Proof.
  intros (Hnd & _) Hget.
  destruct (get_phone_by_id_In i d p Hget) as [Hin Hid].
  unfold delete_phone. rewrite Hget. cbn [snd].
  unfold get_phone_by_id, get_phone_by_number. cbn [db_up phones].
  destruct (db_up d); [|split; reflexivity].
  split; apply find_none_all; intros q Hq;
    apply filter_In in Hq as [Hq Hne]; apply negb_true_iff in Hne.
  - exact Hne.
  - destruct (String.eqb_spec (number q) (number p)) as [Heq|]; [|reflexivity].
    exfalso. apply Z.eqb_neq in Hne. apply Hne.
    rewrite (NoDup_map_eq number (phones d) q p Hnd Hq Hin Heq). exact Hid.
Qed.

(** What [receive_message] does for a number without a row. *)
Lemma receive_message_unknown (E : env) (data : receive_request)
    (n : string) (w w2 : world) (m : Message) (a b : bool) :
  rr_phone_number data = Some n ->
  get_phone_by_number n (db w) = None ->
  receive_message E (Some data) w = (Received m a b, w2) ->
  let q := {| phone_id := next_phone_id (db w); number := n;
              ai_active := false |} in
  get_phone_by_number n (db w2) = Some q
  /\ phones (db w2) = (phones (db w) ++ [q])%list
  /\ phone_number_id m = next_phone_id (db w)
  /\ messages (db w2) = (messages (db w) ++ [m])%list.
Proof.
  intros Hpn Hnone. unfold receive_message. rewrite Hpn.
  destruct (str_truthy (Some n)) eqn:Htruthy; cbn [negb]; [|discriminate].
  assert (Hor : str_or (Some n) "" = n).
  { cbn in Htruthy |- *. destruct (String.eqb n ""); [discriminate|].
    reflexivity. }
  rewrite Hor.
  destruct (negb (str_truthy (rr_message data))
            && negb (str_truthy (rr_attachment_url data)))%bool;
    [discriminate|].
  rewrite Hnone.
  destruct (db_up (db w)) eqn:Hup.
  2:{ unfold create_phone_number. rewrite Hnone, Hup. discriminate. }
  destruct (create_phone_number_new n (db w) Hup Hnone)
    as (q & d1 & Hc & _ & _ & Hfind & Hup1 & Hmsgs & _).
  assert (Hq : q = {| phone_id := next_phone_id (db w); number := n;
                      ai_active := false |}
               /\ phones d1 = (phones (db w) ++ [q])%list).
  { unfold create_phone_number in Hc. rewrite Hnone, Hup in Hc.
    injection Hc as <- <-. split; reflexivity. }
  destruct Hq as [Hq Hphones]. rewrite Hc.
  pose proof (process_attachment_facts E data (set_db d1 w)) as (Hdb & _).
  destruct (process_attachment E data (set_db d1 w)) as [att w1].
  cbn [fst snd] in Hdb. cbn [db set_db] in Hdb. rewrite Hdb.
  pose proof (create_message_messages (int_of_str E) n (rr_message data)
                "lead" (final_attachment_url att)
                (final_attachment_full_url att) (final_attachment_name att)
                (final_attachment_type att) (final_attachment_size att) d1)
    as Hm.
  destruct (create_message _ _ _ _ _ _ _ _ _ _) as [[message|] d2] eqn:Hcm;
    [|discriminate].
  destruct (create_message_owner _ _ _ _ _ _ _ _ _ _ _ _ _ Hfind Hcm)
    as (Hid & _ & Hph & Hup2 & _).
  cbn [fst snd] in Hm.
  intros H. injection H as <- _ _ <-. cbv zeta. cbn [db set_db].
  rewrite <- Hq.
  split.
  { unfold get_phone_by_number in Hfind |- *. rewrite Hup2, Hph.
    exact Hfind. }
  split; [rewrite Hph; exact Hphones|].
  split; [rewrite Hid, Hq; reflexivity|].
  rewrite Hm, Hmsgs. reflexivity.
Qed.

(** X25.  A deleted conversation is gone for good, and a new message
    from its number starts afresh.  When the [delete_phone] route answers
    with success (in a database with unique phone numbers and ids), the
    id and the number of the deleted conversation are no longer found
    and the messages left are exactly those of the other conversations;
    [send_message] to that number is then refused with a 400 or a 404
    and changes nothing; and when [receive_message] stores a message
    from that number, it does so in a new conversation, with a new id
    and automation off, that holds this one message only: nothing of the
    old history comes back. *)
Theorem deleted_conversation_starts_afresh (E : env) (i : Z) (w w1 : world)
    (webhook_sent : bool) :
  db_wf (db w) ->
  delete_phone_route E i w = (PhoneDeleted webhook_sent, w1) ->
  exists (p : PhoneNumber),
    get_phone_by_id i (db w) = Some p
    /\ get_phone_by_id i (db w1) = None
    /\ get_phone_by_number (number p) (db w1) = None
    /\ (forall m, In m (messages (db w1))
                  <-> In m (messages (db w)) /\ phone_number_id m <> i)
    /\ (forall (sent : send_request),
           sr_phone_number sent = Some (number p) ->
           exists status message,
             send_message E (Some sent) w1 = (Failure status message, w1)
             /\ (status = 400 \/ status = 404))
    /\ (forall (received : receive_request) (m : Message) (a b : bool)
               (w2 : world),
           rr_phone_number received = Some (number p) ->
           receive_message E (Some received) w1 = (Received m a b, w2) ->
           exists (q : PhoneNumber),
             get_phone_by_number (number p) (db w2) = Some q
             /\ phone_id q <> i
             /\ ai_active q = false
             /\ phone_number_id m = phone_id q
             /\ forall m', In m' (messages (db w2)) ->
                           phone_number_id m' = phone_id q -> m' = m).
Proof.
  intros Hwf Hdelete.
  destruct (delete_phone_route_ok E i w w1 webhook_sent Hdelete)
    as (p & Hget & Hsend).
  destruct (delete_phone_forgets i (db w) p Hwf Hget) as [Hnoid Hnonum].
  pose proof (db_wf_delete_phone i (db w) Hwf) as Hwf1.
  assert (Hdb : db w1 = snd (delete_phone i (db w))).
  { pose proof (send_webhook_db E (PyStr "phone_deleted") (PyStr (number p))
                  (delete_webhook_data E i)
                  (set_db (snd (delete_phone i (db w))) w)) as Hd.
    rewrite Hsend in Hd. exact Hd. }
  rewrite <- Hdb in Hnoid, Hnonum, Hwf1.
  exists p. split; [exact Hget|]. split; [exact Hnoid|].
  split; [exact Hnonum|].
  split.
  { intros m. rewrite Hdb. unfold delete_phone. rewrite Hget.
    cbn [snd messages]. rewrite filter_In, negb_true_iff, Z.eqb_neq.
    reflexivity. }
  split.
  { intros sent Hpn. unfold send_message. rewrite Hpn.
    destruct (str_truthy (Some (number p))) eqn:Htruthy; cbn [negb];
      [|eauto].
    assert (Hor : str_or (Some (number p)) "" = number p).
    { cbn in Htruthy |- *. destruct (String.eqb (number p) "");
        [discriminate | reflexivity]. }
    rewrite Hor.
    destruct (negb (str_truthy (sr_content sent))
              && negb (str_truthy (sr_attachment_url sent)))%bool; [eauto|].
    rewrite Hnonum. eauto. }
  intros received m a b w2 Hpn Hreceive.
  destruct (receive_message_unknown E received (number p) w1 w2 m a b Hpn
              Hnonum Hreceive) as (Hfind & _ & Hid & Hmsgs).
  assert (Hnext : next_phone_id (db w1) = next_phone_id (db w)).
  { rewrite Hdb. unfold delete_phone. rewrite Hget. reflexivity. }
  destruct Hwf as (_ & _ & Hbelow & _).
  destruct (get_phone_by_id_In i (db w) p Hget) as [Hin Hpid].
  pose proof (Hbelow p Hin) as Hlt. rewrite Hpid in Hlt.
  eexists. split; [exact Hfind|]. cbn [phone_id ai_active].
  split; [rewrite Hnext; lia|]. split; [reflexivity|].
  split; [exact Hid|].
  intros m' Hin' Hown. rewrite Hmsgs in Hin'.
  apply in_app_or in Hin' as [Hold|[<-|[]]]; [|reflexivity].
  exfalso.
  destruct Hwf1 as (_ & _ & Hbelow1 & _ & _ & Hfk).
  destruct (Hfk m' Hold) as (q & Hq & Hqid).
  pose proof (Hbelow1 q Hq) as Hlt1. lia.
Qed.

Lemma deleted_conversation_starts_afresh_witness :
  let E := sample_env (fails_then_ok 0) no_files in
  let w1 := snd (delete_phone_route E 1 (scenario_world true)) in
  delete_phone_route E 1 (scenario_world true) = (PhoneDeleted true, w1)
  /\ get_phone_by_number "+5511999999999" (db w1) = None
  /\ exists (m : Message) (w2 : world) (q : PhoneNumber),
       receive_message E (Some (text_received "+5511999999999" "hi")) w1
       = (Received m false false, w2)
       /\ get_phone_by_number "+5511999999999" (db w2) = Some q
       /\ phone_id q <> 1
       /\ ai_active q = false.
Proof.
  intros E w1.
  assert (Hdelete : delete_phone_route E 1 (scenario_world true)
                    = (PhoneDeleted true, w1)) by (vm_compute; reflexivity).
  split; [exact Hdelete|].
  destruct (deleted_conversation_starts_afresh E 1 (scenario_world true) w1
              true (db_wf_scenario true) Hdelete)
    as (p & Hget & _ & Hnonum & _ & _ & Hreceive).
  injection Hget as <-.
  split; [exact Hnonum|].
  destruct (receive_message E (Some (text_received "+5511999999999" "hi")) w1)
    as [r w2] eqn:Hr.
  assert (Hshape : exists m, r = Received m false false).
  { vm_compute in Hr. injection Hr as <- _. eexists. reflexivity. }
  destruct Hshape as [m ->].
  destruct (Hreceive (text_received "+5511999999999" "hi") m false false w2
              eq_refl Hr) as (q & Hfind & Hne & Hoff & _).
  exists m, w2, q. split; [reflexivity|].
  split; [exact Hfind|]. split; [exact Hne | exact Hoff].
Defined.

(** ** Trying the webhook out *)

Lemma test_envelope_valid (E : env) (attachment_type : pyval) :
  always_valid E (PyStr "message") (PyStr "test-number")
    (test_webhook_data E attachment_type).
Proof.
  intros now. unfold validate_webhook_data.
  assert (Hfield : forall k v,
             (<["timestamp" := PyStr (isoformat E now)]>
                (<["phone_number" := PyStr "test-number"]>
                   (<["event_type" := PyStr "message"]> ∅)) : dict) !! k
             = Some v ->
             test_webhook_data E attachment_type !! k = None ->
             webhook_envelope E (PyStr "message") (PyStr "test-number") now
               (test_webhook_data E attachment_type) !! k = Some v).
  { intros k v Hk Hnone. rewrite webhook_envelope_generated; assumption. }
  assert (He : webhook_envelope E (PyStr "message") (PyStr "test-number") now
                 (test_webhook_data E attachment_type) !! "event_type"
               = Some (PyStr "message"))
    by (apply Hfield; reflexivity).
  assert (Hp : webhook_envelope E (PyStr "message") (PyStr "test-number") now
                 (test_webhook_data E attachment_type) !! "phone_number"
               = Some (PyStr "test-number"))
    by (apply Hfield; reflexivity).
  assert (Ht : webhook_envelope E (PyStr "message") (PyStr "test-number") now
                 (test_webhook_data E attachment_type) !! "timestamp"
               = Some (PyStr (isoformat E now)))
    by (apply Hfield; reflexivity).
  unfold required_fields, missing_or_null. cbn [existsb].
  rewrite He, Hp, Ht. reflexivity.
Qed.

(** One try with the default phone number, on a breaker that is not
    Open: a POST, and the endpoint's verdict recorded. *)
Lemma test_webhook_live (E : env) (data : test_request) (w : world) :
  webhook_url E <> "" ->
  tw_phone_number data = None ->
  breaker_open w = false ->
  test_webhook E (Some data) w
  = (Tested (reply_ok (endpoint E (posts_made (trace w)))),
     post_step E
       (webhook_envelope E (PyStr "message") (PyStr "test-number") (clock w)
          (test_webhook_data E
             (default (PyStr "test") (tw_attachment_type data)))) w).
Proof.
  intros Hurl Hpn Hclosed. unfold test_webhook. rewrite Hpn.
  unfold default at 1. cbn [from_option id].
  rewrite (send_webhook_live E (PyStr "message") (PyStr "test-number")
             (test_webhook_data E
                (default (PyStr "test") (tw_attachment_type data)))
             w Hurl Hclosed (test_envelope_valid E _)).
  reflexivity.
Qed.

Lemma test_webhook_times_failing (E : env) (data : test_request) (n : nat)
    (w : world) :
  webhook_url E <> "" ->
  tw_phone_number data = None ->
  (forall i, reply_ok (endpoint E i) = false) ->
  webhook_failures w + Z.of_nat n <= 5 ->
  webhook_failures (test_webhook_times E n data w)
  = webhook_failures w + Z.of_nat n
  /\ posts_made (trace (test_webhook_times E n data w))
     = (posts_made (trace w) + n)%nat
  /\ threads (test_webhook_times E n data w) = threads w
  /\ db (test_webhook_times E n data w) = db w.
Proof.
  intros Hurl Hpn Hfail. revert w.
  induction n as [|k IH]; intros w Hroom.
  { cbn [test_webhook_times]. rewrite Z.add_0_r, Nat.add_0_r. auto. }
  cbn [test_webhook_times].
  assert (Hclosed : breaker_open w = false).
  { destruct (breaker_open w) eqn:Ho; [|reflexivity].
    apply breaker_open_iff in Ho. lia. }
  rewrite (test_webhook_live E data w Hurl Hpn Hclosed). cbn [snd].
  set (body := webhook_envelope E (PyStr "message") (PyStr "test-number")
                 (clock w)
                 (test_webhook_data E
                    (default (PyStr "test") (tw_attachment_type data)))).
  pose proof (post_step_counter E body w) as Hc.
  rewrite Hfail in Hc.
  pose proof (post_step_trace E body w) as Ht.
  destruct (IH (post_step E body w)) as (IHc & IHp & IHt & IHd);
    [rewrite Hc; lia|].
  rewrite IHc, IHp, IHt, IHd, Hc, Ht, posts_made_app.
  split; [lia|]. split; [cbn; lia|].
  unfold post_step, record_webhook_result. rewrite Hfail.
  split; reflexivity.
Qed.

(** X26.  Trying the webhook out goes through the same breaker as real
    traffic.  [test_webhook] answers with success whenever the request
    has a JSON body, whatever [send_webhook] returned, and touches
    neither the database nor the threads.  With an endpoint configured
    and the default phone number, a try on a breaker that is not Open is
    a real POST whose result is recorded like any delivery: a failure
    raises the counter by one, a success lowers it by one (not below
    zero).  So five tries in a row against an endpoint that keeps
    failing leave the breaker Open, and the next delivery of a real
    event within the window is dropped without a request. *)
Theorem test_webhook_shares_the_breaker (E : env) (data : test_request)
    (w : world) :
  webhook_url E <> "" ->
  tw_phone_number data = None ->
  (exists webhook_sent,
      fst (test_webhook E (Some data) w) = Tested webhook_sent)
  /\ db (snd (test_webhook E (Some data) w)) = db w
  /\ threads (snd (test_webhook E (Some data) w)) = threads w
  /\ (breaker_open w = false ->
      let ok := reply_ok (endpoint E (posts_made (trace w))) in
      fst (test_webhook E (Some data) w) = Tested ok
      /\ posts_made (trace (snd (test_webhook E (Some data) w)))
         = S (posts_made (trace w))
      /\ webhook_failures (snd (test_webhook E (Some data) w))
         = (if ok then Z.max 0 (webhook_failures w - 1)
            else webhook_failures w + 1))
  /\ ((forall i, reply_ok (endpoint E i) = false) ->
      webhook_failures w = 0 ->
      let w5 := test_webhook_times E 5 data w in
      webhook_failures w5 = 5
      /\ breaker_open w5 = true
      /\ posts_made (trace w5) = (posts_made (trace w) + 5)%nat
      /\ (within_window w5 = true ->
          forall (webhook_type phone_number : pyval) (payload : dict),
            send_webhook E webhook_type phone_number payload w5
            = (false, w5))).
Proof.
  intros Hurl Hpn.
  split.
  { unfold test_webhook. destruct (send_webhook _ _ _ _ _). eauto. }
  split.
  { unfold test_webhook.
    match goal with
    | |- context [send_webhook E ?a ?b ?c ?w0] =>
        pose proof (send_webhook_db E a b c w0) as Hd;
        destruct (send_webhook E a b c w0)
    end. exact Hd. }
  split.
  { unfold test_webhook.
    match goal with
    | |- context [send_webhook E ?a ?b ?c ?w0] =>
        pose proof (send_webhook_threads E a b c w0) as Hd;
        destruct (send_webhook E a b c w0)
    end. exact Hd. }
  split.
  { intros Hclosed. cbv zeta.
    rewrite (test_webhook_live E data w Hurl Hpn Hclosed). cbn [fst snd].
    split; [reflexivity|].
    rewrite post_step_trace, posts_made_app, post_step_counter.
    split; [cbn; lia | reflexivity]. }
  intros Hfail Hzero. cbv zeta.
  destruct (test_webhook_times_failing E data 5 w Hurl Hpn Hfail)
    as (Hc & Hp & _); [lia|].
  rewrite Hzero in Hc. change (0 + Z.of_nat 5) with 5 in Hc.
  assert (Hopen : breaker_open (test_webhook_times E 5 data w) = true)
    by (apply breaker_open_iff; lia).
  split; [exact Hc|]. split; [exact Hopen|]. split; [exact Hp|].
  intros Hwin webhook_type phone_number payload.
  apply send_webhook_skipped; assumption.
Qed.

Lemma test_webhook_shares_the_breaker_witness :
  let E := sample_env (fun _ => error_reply) no_files in
  let data := {| tw_phone_number := None; tw_attachment_type := None |} in
  let w5 := test_webhook_times E 5 data (fresh_world 1000) in
  webhook_failures w5 = 5
  /\ breaker_open w5 = true
  /\ posts_made (trace w5) = 5%nat
  /\ send_webhook E (PyStr "message") (PyStr "+5511999999999") ∅ w5
     = (false, w5).
Proof.
  intros E data w5.
  destruct (test_webhook_shares_the_breaker E data (fresh_world 1000)
              ltac:(discriminate) eq_refl) as (_ & _ & _ & _ & Hfive).
  destruct (Hfive ltac:(intros i; reflexivity) eq_refl)
    as (Hc & Hopen & Hp & Hdrop).
  split; [exact Hc|]. split; [exact Hopen|]. split; [exact Hp|].
  apply Hdrop. vm_compute. reflexivity.
Defined.

(** ** Configuration *)

Lemma lstrip_fixed (s : string) :
  match s with
  | EmptyString => True
  | String a _ => Str.is_space a = false
  end ->
  Str.lstrip s = s.
Proof.
  destruct s as [|a rest]; [reflexivity|]. simpl. intros ->. reflexivity.
Qed.

Lemma lstrip_head (s : string) :
  match Str.lstrip s with
  | EmptyString => True
  | String a _ => Str.is_space a = false
  end.
Proof.
  induction s as [|a rest IH]; simpl; [exact I|].
  destruct (Str.is_space a) eqn:Ha; [exact IH | exact Ha].
Qed.

Lemma rstrip_head (s : string) :
  match s with
  | EmptyString => True
  | String a _ => Str.is_space a = false
  end ->
  match Str.rstrip s with
  | EmptyString => True
  | String a _ => Str.is_space a = false
  end.
Proof.
  destruct s as [|a rest]; [intros _; exact I|]. simpl. intros Ha.
  destruct (Str.rstrip rest); [rewrite Ha|]; exact Ha.
Qed.

Lemma rstrip_idem (s : string) : Str.rstrip (Str.rstrip s) = Str.rstrip s.
Proof.
  induction s as [|a rest IH]; [reflexivity|]. simpl.
  destruct (Str.rstrip rest) as [|b r] eqn:Hr.
  - destruct (Str.is_space a) eqn:Ha; [reflexivity|].
    simpl. rewrite Ha. reflexivity.
  - simpl in IH |- *. rewrite IH. reflexivity.
Qed.

(** [s.strip().strip()] is [s.strip()]. *)
Lemma strip_idem (s : string) : Str.strip (Str.strip s) = Str.strip s.
Proof.
  unfold Str.strip.
  rewrite (lstrip_fixed (Str.rstrip (Str.lstrip s))).
  - apply rstrip_idem.
  - apply rstrip_head, lstrip_head.
Qed.

Lemma set_webhook_url_state (value : option string) (c : Config) :
  _initialized (set_webhook_url value c) = _initialized c
  /\ WEBHOOK_URL (set_webhook_url value c) = WEBHOOK_URL c
  /\ WEBHOOK_TIMEOUT (set_webhook_url value c) = WEBHOOK_TIMEOUT c
  /\ _webhook_url (set_webhook_url value c)
     = (if str_truthy value then Str.strip (str_or value "") else "").
Proof.
  unfold set_webhook_url, _save_config.
  destruct (negb (String.eqb _ "")).
  - cbn [file_system_writable set_url].
    destruct (file_system_writable c); repeat split.
  - cbn [config_file file_system_writable set_url].
    destruct (config_file c), (file_system_writable c); repeat split.
Qed.

(** X27.  A webhook address set through the interface survives a reload,
    and a cleared one gives way to the environment.  On an initialised
    [Config] whose file can be written: after the setter is given an
    address that is not blank, the getter and [reload_config] both
    return that address trimmed, whatever [WEBHOOK_URL] says; after the
    setter is given nothing or a blank value, the getter returns the
    empty string but [reload_config] returns the trimmed [WEBHOOK_URL],
    so the endpoint comes back when the environment names one.  When the
    file cannot be written, the new address is only in memory and a
    reload goes back to what the file and the environment say.
    Loading always prefers a non-blank address in the file to the
    environment. *)
Theorem webhook_url_survives_reload (ios : string -> option Z) (c : Config)
    (value : option string) :
  _initialized c = true ->
  let c1 := set_webhook_url value c in
  let given := if str_truthy value then Str.strip (str_or value "") else "" in
  fst (get_webhook_url ios c1) = given
  /\ (file_system_writable c = true -> given <> "" ->
      fst (reload_config ios c1) = given
      /\ config_file c1 = ConfigJson (Some given))
  /\ (file_system_writable c = true -> given = "" ->
      config_file c1 = NoFile
      /\ fst (reload_config ios c1) = env_webhook_url c)
  /\ (file_system_writable c = false ->
      config_file c1 = config_file c
      /\ fst (reload_config ios c1) = fst (reload_config ios c))
  /\ (file_webhook_url c <> "" ->
      fst (reload_config ios c) = file_webhook_url c)
  /\ (file_webhook_url c = "" ->
      fst (reload_config ios c) = env_webhook_url c).
Proof.
  intros Hinit. cbv zeta.
  destruct (set_webhook_url_state value c) as (Hi & He & Ht & Hu).
  set (given := if str_truthy value then Str.strip (str_or value "") else "")
    in *.
  assert (Hload : forall c0,
             fst (reload_config ios c0)
             = if negb (String.eqb (file_webhook_url c0) "")
               then file_webhook_url c0
               else env_webhook_url c0).
  { intros c0. unfold reload_config, _load_config. cbn [fst _webhook_url].
    destruct (negb (String.eqb (file_webhook_url c0) "")); [reflexivity|].
    destruct (String.eqb_spec (env_webhook_url c0) "") as [->|];
      reflexivity. }
  assert (Henv : env_webhook_url (set_webhook_url value c) = env_webhook_url c)
    by (unfold env_webhook_url; rewrite He; reflexivity).
  assert (Hgiven : Str.strip given = given).
  { subst given. destruct (str_truthy value); [apply strip_idem|].
    reflexivity. }
  split.
  { unfold get_webhook_url. rewrite Hi, Hinit. cbn [negb fst]. exact Hu. }
  split.
  { intros Hw Hne.
    assert (Hfile : config_file (set_webhook_url value c)
                    = ConfigJson (Some given)).
    { unfold set_webhook_url, _save_config. fold given.
      apply String.eqb_neq in Hne. rewrite Hne. cbn [negb].
      cbn [file_system_writable set_url]. rewrite Hw. reflexivity. }
    split; [|exact Hfile].
    rewrite Hload. unfold file_webhook_url. rewrite Hfile, Hgiven.
    apply String.eqb_neq in Hne. rewrite Hne. reflexivity. }
  split.
  { intros Hw Hempty.
    assert (Hfile : config_file (set_webhook_url value c) = NoFile).
    { unfold set_webhook_url. fold given. rewrite Hempty.
      change (negb (String.eqb "" "")) with false. cbv iota.
      unfold set_url. cbn [config_file file_system_writable].
      rewrite Hw. destruct (config_file c); reflexivity. }
    split; [exact Hfile|].
    rewrite Hload. unfold file_webhook_url. rewrite Hfile. cbn.
    exact Henv. }
  split.
  { intros Hw.
    assert (Hfile : config_file (set_webhook_url value c) = config_file c).
    { unfold set_webhook_url, _save_config. fold given.
      destruct (negb (String.eqb given "")); unfold set_url;
        cbn [config_file file_system_writable]; rewrite Hw;
        [reflexivity | destruct (config_file c); reflexivity]. }
    split; [exact Hfile|].
    rewrite !Hload. unfold file_webhook_url. rewrite Hfile, Henv.
    reflexivity. }
  split.
  - intros Hne. rewrite Hload. apply String.eqb_neq in Hne. rewrite Hne.
    reflexivity.
  - intros Hempty. rewrite Hload, Hempty. reflexivity.
Qed.

Lemma webhook_url_survives_reload_witness :
  let c := Config_init decimal_int_of_str NoFile true
             (Some "http://dev.example/hook") None in
  _initialized c = true
  /\ fst (get_webhook_url decimal_int_of_str c) = "http://dev.example/hook"
  /\ fst (reload_config decimal_int_of_str
            (set_webhook_url (Some " https://hooks.example/in ") c))
     = "https://hooks.example/in"
  /\ fst (get_webhook_url decimal_int_of_str (set_webhook_url (Some "") c))
     = ""
  /\ fst (reload_config decimal_int_of_str (set_webhook_url (Some "") c))
     = "http://dev.example/hook".
Proof.
  intros c.
  assert (Hinit : _initialized c = true) by reflexivity.
  split; [exact Hinit|]. split; [reflexivity|].
  destruct (webhook_url_survives_reload decimal_int_of_str c
              (Some " https://hooks.example/in ") Hinit)
    as (_ & Hset & _).
  destruct (webhook_url_survives_reload decimal_int_of_str c (Some "") Hinit)
    as (Hget & _ & Hclear & _).
  split; [exact (proj1 (Hset eq_refl ltac:(discriminate)))|].
  split; [exact Hget|].
  exact (proj2 (Hclear eq_refl eq_refl)).
Defined.

(** ** The message type migration *)

Lemma count_retype (old new t : string) (l : list Message) :
  old <> new ->
  List.length (List.filter (fun m => String.eqb (type m) t)
                 (List.map (retype old new) l))
  = if String.eqb t old then 0%nat
    else if String.eqb t new
         then (List.length (List.filter (fun m => String.eqb (type m) new) l)
               + List.length (List.filter (fun m => String.eqb (type m) old) l))%nat
         else List.length (List.filter (fun m => String.eqb (type m) t) l).
Proof.
  intros Hne. induction l as [|m l IH].
  { cbn. destruct (String.eqb t old), (String.eqb t new); reflexivity. }
  cbn [List.map List.filter]. unfold retype at 1.
  destruct (String.eqb_spec (type m) old) as [Hold|Hold]; cbn [type];
    repeat match goal with
           | |- context [String.eqb ?a ?b] => destruct (String.eqb_spec a b)
           | H : context [String.eqb ?a ?b] |- _ =>
               destruct (String.eqb_spec a b)
           end;
    cbn [List.length]; try congruence; try lia.
Qed.

(** Retyping there and back gives the table back exactly when no row had
    the new type to begin with. *)
Lemma retype_back (old new : string) (l : list Message) :
  old <> new ->
  List.map (retype new old) (List.map (retype old new) l) = l
  <-> List.length (List.filter (fun m => String.eqb (type m) new) l) = 0%nat.
Proof.
  intros Hne. induction l as [|m l IH]; [cbn; tauto|].
  cbn [List.map List.filter].
  assert (Hm : retype new old (retype old new m) = m
               <-> String.eqb (type m) new = false).
  { unfold retype at 2.
    destruct (String.eqb_spec (type m) old) as [Hold|Hold].
    - unfold retype. cbn [type]. rewrite String.eqb_refl.
      assert (Hmn : String.eqb (type m) new = false)
        by (apply String.eqb_neq; congruence).
      split; [intros _; exact Hmn|]. intros _.
      destruct m; cbn in *. subst. reflexivity.
    - unfold retype.
      destruct (String.eqb_spec (type m) new) as [Hnew|Hnew].
      + split; [|discriminate]. intros H.
        apply (f_equal type) in H. cbn in H. congruence.
      + split; reflexivity. }
  split.
  - intros H. injection H as H1 H2.
    apply Hm in H1. rewrite H1. apply IH, H2.
  - destruct (String.eqb (type m) new) eqn:Hmn; [discriminate|].
    intros H. apply IH in H. rewrite H.
    rewrite (proj2 Hm eq_refl). reflexivity.
Qed.

(** X28.  What the type migration does, and when its rollback undoes it.
    A confirmed [migrate_message_types] relabels every message of type
    [ai] as [lead] and touches nothing else: afterwards no message has
    type [ai], the [lead] messages are the old ones plus the relabelled
    ones, the [user] messages, the number of rows, their ids and the
    conversations are as before, the run reports itself validated
    exactly when there was no [lead] message before, and a second run
    finds nothing to do.  The rollback that follows turns every [lead]
    message into [ai], the ones that were [lead] before the migration
    included, so it gives the original table back exactly when the
    table had no [lead] message. *)
Theorem migration_and_rollback (response : string) (d d1 : database)
    (updated_count : nat) (validated : bool) :
  migrate_message_types response d = (Migrated updated_count validated, d1) ->
  (0 < updated_count)%nat
  /\ updated_count = count_type "ai" d
  /\ count_type "ai" d1 = 0%nat
  /\ count_type "lead" d1 = (count_type "lead" d + updated_count)%nat
  /\ count_type "user" d1 = count_type "user" d
  /\ List.map message_id (messages d1) = List.map message_id (messages d)
  /\ phones d1 = phones d
  /\ (validated = true <-> count_type "lead" d = 0%nat)
  /\ migrate_message_types response d1 = (NothingToDo, d1)
  /\ exists d2,
       rollback_migration response d1
       = (RolledBack (count_type "lead" d + updated_count), d2)
       /\ count_type "lead" d2 = 0%nat
       /\ count_type "ai" d2 = (count_type "lead" d + updated_count)%nat
       /\ (d2 = d <-> count_type "lead" d = 0%nat).
Proof.
  unfold migrate_message_types.
  destruct (db_up d) eqn:Hup; cbn [negb]; [|discriminate].
  destruct (Nat.eqb_spec (count_type "ai" d) 0) as [|Hsome]; [discriminate|].
  destruct (Str.mem (Str.lower response) ["y"; "yes"]) eqn:Hyes; cbn [negb];
    [|discriminate].
  intros H. injection H as <- <- <-.
  assert (Hne : "ai" <> "lead") by discriminate.
  assert (Hne' : "lead" <> "ai") by discriminate.
  assert (Hai : count_type "ai" (update_type "ai" "lead" d) = 0%nat).
  { unfold count_type, update_type. cbn [messages set_messages].
    rewrite (count_retype "ai" "lead" "ai" _ Hne). reflexivity. }
  assert (Hlead : count_type "lead" (update_type "ai" "lead" d)
                  = (count_type "lead" d + count_type "ai" d)%nat).
  { unfold count_type, update_type. cbn [messages set_messages].
    rewrite (count_retype "ai" "lead" "lead" _ Hne). reflexivity. }
  assert (Hup1 : db_up (update_type "ai" "lead" d) = true) by exact Hup.
  split; [lia|]. split; [reflexivity|]. split; [exact Hai|].
  split; [exact Hlead|].
  split.
  { unfold count_type, update_type. cbn [messages set_messages].
    rewrite (count_retype "ai" "lead" "user" _ Hne). reflexivity. }
  split.
  { unfold update_type. cbn [messages set_messages].
    rewrite List.map_map. apply List.map_ext. intros m. unfold retype.
    destruct (String.eqb (type m) "ai"); reflexivity. }
  split; [reflexivity|].
  split.
  { rewrite Nat.eqb_refl, Hlead. cbn [andb].
    rewrite Nat.eqb_eq. lia. }
  split.
  { rewrite Hup1, Hai. reflexivity. }
  exists (update_type "lead" "ai" (update_type "ai" "lead" d)).
  split.
  { unfold rollback_migration. rewrite Hup1, Hlead, Hyes. cbn [negb].
    destruct (Nat.eqb_spec (count_type "lead" d + count_type "ai" d) 0);
      [lia | reflexivity]. }
  split.
  { unfold count_type at 1. unfold update_type at 1.
    cbn [messages set_messages].
    rewrite (count_retype "lead" "ai" "lead" _ Hne'). reflexivity. }
  split.
  { unfold count_type at 1. unfold update_type at 1.
    cbn [messages set_messages].
    rewrite (count_retype "lead" "ai" "ai" _ Hne').
    fold (count_type "ai" (update_type "ai" "lead" d)).
    fold (count_type "lead" (update_type "ai" "lead" d)).
    rewrite Hai, Hlead. cbn. lia. }
  pose proof (retype_back "ai" "lead" (messages d) Hne) as Hback.
  fold (count_type "lead" d) in Hback.
  split.
  - intros Heq. apply Hback.
    apply (f_equal messages) in Heq. exact Heq.
  - intros Hzero. apply Hback in Hzero.
    unfold update_type. cbn [messages set_messages next_message_id].
    rewrite Hzero. destruct d; reflexivity.
Qed.

Lemma migration_and_rollback_witness :
  let row (i : Z) (t : string) :=
    {| message_id := i; phone_number_id := 1; content := "hello"; type := t;
       attachment_url := None; attachment_full_url := None;
       attachment_name := None; attachment_type := None;
       attachment_size := None |} in
  let d := set_messages [row 1 "lead"; row 2 "ai"; row 3 "user"] 4
             (db (scenario_world true)) in
  let d1 := set_messages [row 1 "lead"; row 2 "lead"; row 3 "user"] 4
              (db (scenario_world true)) in
  migrate_message_types "Y" d = (Migrated 1 false, d1)
  /\ count_type "ai" d1 = 0%nat
  /\ exists d2,
       rollback_migration "Y" d1 = (RolledBack 2, d2)
       /\ count_type "ai" d2 = 2%nat
       /\ d2 <> d.
Proof.
  intros row d d1.
  assert (H : migrate_message_types "Y" d = (Migrated 1 false, d1))
    by reflexivity.
  split; [exact H|].
  destruct (migration_and_rollback "Y" d d1 1 false H)
    as (_ & _ & Hai & _ & _ & _ & _ & _ & _ & d2 & Hr & _ & Hcount & Hiff).
  split; [exact Hai|].
  exists d2. split; [exact Hr|]. split; [exact Hcount|].
  intros Heq. apply Hiff in Heq. discriminate Heq.
Defined.

(** ** Every reachable state *)







(** ** What the webhook is told *)



